(** * Videoh: library scan, metadata store and metadata refresh

    A shallow embedding of [src/videoh/window.py] (class [VideohWindow]):
    the directory scanner and the JSON metadata store of [load_library],
    [save_metadata] and [update_metadata], the merged episode read of
    [get_episode_metadata], the episode-number regular expression of
    [_get_episode_number], the rating sort of [on_view_sorting] and the
    per-item exception handling of the metadata refresh; further the
    poster cache of [download_poster], the handler of [edit_metadata],
    the title sort, the tests of [on_search_changed], the record of a show
    card in [populate_ui] and [_title_matches].

    Conventions of the embedding.
    - Python [str] values are Rocq strings; only the ASCII behaviour of
      [lower], [strip], [isalnum] and of the regular-expression class [\d]
      is modelled.
    - Python values that travel through the metadata document are terms of
      [pyval]; a [dict] with string keys is a [gmap string pyval] (Python
      compares dictionaries without regard to insertion order).  The show
      catalog [self.shows], whose order the sort action rearranges, is an
      association list.
    - A Python call that may raise returns [result]; [Raise e] is the
      exception [e] propagating to the caller.
    - Python [float] is IEEE-754 binary64, here [spec_float] with precision
      53 and exponent bound 1024. *)

From Stdlib Require Import ZArith NArith Ascii String List Bool Lia.
From Stdlib Require Import Sorting.Sorted Sorting.Permutation.
From Stdlib Require Import Floats.SpecFloat.
From stdpp Require Import gmap strings list fin_maps.

#[local] Set Warnings "-register-all".
#[local] Open Scope string_scope.

(** ** Python strings (ASCII fragment) *)

Module PyStr.

Definition code (c : ascii) : N := N_of_ascii c.

Definition in_range (lo hi : N) (c : ascii) : bool :=
  ((lo <=? code c) && (code c <=? hi))%N.

Definition isdigit (c : ascii) : bool := in_range 48 57 c.
Definition isupper (c : ascii) : bool := in_range 65 90 c.
Definition islower (c : ascii) : bool := in_range 97 122 c.
Definition isalnum (c : ascii) : bool := isdigit c || isupper c || islower c.

(** [str.isspace] on ASCII: TAB, LF, VT, FF, CR, the separators
    0x1c-0x1f and the space. *)
Definition isspace (c : ascii) : bool :=
  in_range 9 13 c || in_range 28 32 c.

Definition lower_char (c : ascii) : ascii :=
  if isupper c then ascii_of_N (code c + 32) else c.

(** [s.lower()] *)
Fixpoint lower (s : string) : string :=
  match s with
  | EmptyString => EmptyString
  | String c s' => String (lower_char c) (lower s')
  end.

(** [s.startswith(p)] *)
Definition startswith (s p : string) : bool := String.prefix p s.

(** [s[n:]] *)
Fixpoint drop (n : nat) (s : string) : string :=
  match n, s with
  | O, _ => s
  | S n', String _ s' => drop n' s'
  | S _, EmptyString => EmptyString
  end.

(** [s[:n]] *)
Fixpoint take (n : nat) (s : string) : string :=
  match n, s with
  | O, _ => EmptyString
  | S n', String c s' => String c (take n' s')
  | S _, EmptyString => EmptyString
  end.

(** [s.replace(old, "")] for a non-empty [old]: the non-overlapping
    occurrences of [old] are removed, scanning from the left.  [skip]
    counts the characters of the occurrence being removed that are still
    to be dropped. *)
Fixpoint remove_all_from (old : string) (skip : nat) (s : string) : string :=
  match s with
  | EmptyString => EmptyString
  | String c s' =>
      match skip with
      | S skip' => remove_all_from old skip' s'
      | O =>
          if String.prefix old s
          then remove_all_from old (String.length old - 1) s'
          else String c (remove_all_from old 0 s')
      end
  end.

Definition remove_all (old s : string) : string := remove_all_from old 0 s.

(** [s.lstrip()], [s.rstrip()], [s.strip()] *)
Fixpoint lstrip (s : string) : string :=
  match s with
  | String c s' => if isspace c then lstrip s' else s
  | EmptyString => EmptyString
  end.

Fixpoint rstrip (s : string) : string :=
  match s with
  | EmptyString => EmptyString
  | String c s' =>
      match rstrip s' with
      | EmptyString => if isspace c then EmptyString else String c EmptyString
      | r => String c r
      end
  end.

Definition strip (s : string) : string := rstrip (lstrip s).

(** [s.rfind(".")]: index of the last dot, if any. *)
Fixpoint rfind_dot (s : string) : option nat :=
  match s with
  | EmptyString => None
  | String c s' =>
      match rfind_dot s' with
      | Some i => Some (S i)
      | None => if Ascii.eqb c "." then Some O else None
      end
  end.

(** [int(s)] for a string of decimal digits. *)
Definition digit_value (c : ascii) : Z := (Z.of_N (code c) - 48)%Z.

Fixpoint int_digits_acc (acc : Z) (s : string) : option Z :=
  match s with
  | EmptyString => Some acc
  | String c s' =>
      if isdigit c then int_digits_acc (10 * acc + digit_value c)%Z s' else None
  end.

Definition int_digits (s : string) : option Z :=
  match s with
  | EmptyString => None
  | _ => int_digits_acc 0 s
  end.

(** [digit (["_"] digit)*]: the digits read and the rest of the text. *)
Fixpoint digitpart_tail (s : string) : string * string :=
  match s with
  | String c s' =>
      if isdigit c then
        let '(ds, rest) := digitpart_tail s' in (String c ds, rest)
      else if Ascii.eqb c "_" then
        match s' with
        | String d s'' =>
            if isdigit d then
              let '(ds, rest) := digitpart_tail s'' in (String d ds, rest)
            else ("", s)
        | EmptyString => ("", s)
        end
      else ("", s)
  | EmptyString => ("", s)
  end.

Definition digitpart (s : string) : option (string * string) :=
  match s with
  | String c s' =>
      if isdigit c then
        let '(ds, rest) := digitpart_tail s' in Some (String c ds, rest)
      else None
  | EmptyString => None
  end.

Definition sign (s : string) : bool * string :=
  match s with
  | String c s' =>
      if Ascii.eqb c "-" then (true, s')
      else if Ascii.eqb c "+" then (false, s')
      else (false, s)
  | EmptyString => (false, s)
  end.

(** [int(s)] for a string: surrounding whitespace, an optional sign and
    digits, where an underscore may separate two digits.  [None] stands
    for [ValueError]. *)
Definition int_of_str (s : string) : option Z :=
  let '(neg, body) := sign (strip s) in
  match digitpart body with
  | Some (ds, EmptyString) =>
      match int_digits ds with
      | Some n => Some (if neg then - n else n)%Z
      | None => None
      end
  | _ => None
  end.

End PyStr.

(** ** [pathlib]: the last component of a path *)

Module PurePath.

(** [PurePath.suffix]: [name[i:]] where [i = name.rfind(".")], when
    [0 < i < len(name) - 1]; the empty string otherwise. *)
Definition suffix (name : string) : string :=
  match PyStr.rfind_dot name with
  | Some i =>
      if (0 <? i)%nat && (i <? String.length name - 1)%nat
      then PyStr.drop i name else ""
  | None => ""
  end.

(** [PurePath.stem]: the name without its suffix. *)
Definition stem (name : string) : string :=
  match PyStr.rfind_dot name with
  | Some i =>
      if (0 <? i)%nat && (i <? String.length name - 1)%nat
      then PyStr.take i name else name
  | None => name
  end.

(** [str(parent / name)] *)
Definition joinpath (parent name : string) : string :=
  parent +:+ "/" +:+ name.

End PurePath.

(** ** [re]: a backtracking matcher for the constructs the program uses *)

Module Re.

(** Character classes, greedy [+] over a class, sequence, ordered
    alternation, capture groups and the anchor [$]. *)
Inductive regex :=
| RSet (p : ascii -> bool)
| RPlus (p : ascii -> bool)
| RSeq (r1 r2 : regex)
| RAlt (r1 r2 : regex)
| RGroup (n : nat) (r : regex)
| REnd.

(** The text captured by each group that took part in the match. *)
Abbreviation groups := (gmap nat string).

(** What a sub-match consumed: the text between two suffixes. *)
Definition consumed (s rest : string) : string :=
  PyStr.take (String.length s - String.length rest) s.

(** [p+], greedy: the longest run first, then shorter ones. *)
Fixpoint plus (p : ascii -> bool) (s : string)
    (k : string -> option groups) : option groups :=
  match s with
  | EmptyString => None
  | String c s' =>
      if p c then
        match plus p s' k with
        | Some g => Some g
        | None => k s'
        end
      else None
  end.

(** [$] matches at the end of the text and just before a newline that
    ends the text. *)
Definition at_end (s : string) : bool :=
  match s with
  | EmptyString => true
  | String c EmptyString => Ascii.eqb c "010"
  | _ => false
  end.

(** [rmatch r s g k]: match [r] at the start of [s], then continue with
    [k] on the rest; a failing continuation makes the matcher backtrack. *)
Fixpoint rmatch (r : regex) (s : string) (g : groups)
    (k : string -> groups -> option groups) : option groups :=
  match r with
  | RSet p =>
      match s with
      | String c s' => if p c then k s' g else None
      | EmptyString => None
      end
  | RPlus p => plus p s (fun rest => k rest g)
  | RSeq r1 r2 => rmatch r1 s g (fun rest g' => rmatch r2 rest g' k)
  | RAlt r1 r2 =>
      match rmatch r1 s g k with
      | Some g' => Some g'
      | None => rmatch r2 s g k
      end
  | RGroup n r' =>
      rmatch r' s g (fun rest g' => k rest (<[n := consumed s rest]> g'))
  | REnd => if at_end s then k s g else None
  end.

Definition match_here (r : regex) (s : string) : option groups :=
  rmatch r s ∅ (fun _ g => Some g).

(** [re.search(r, s)]: the match at the leftmost start position. *)
Fixpoint search (r : regex) (s : string) : option groups :=
  match match_here r s with
  | Some g => Some g
  | None =>
      match s with
      | EmptyString => None
      | String _ s' => search r s'
      end
  end.

(** [m.group(n)]: [None] for a group that did not take part. *)
Definition group (g : groups) (n : nat) : option string := g !! n.

Definition one_of (a b : ascii) (c : ascii) : bool :=
  Ascii.eqb c a || Ascii.eqb c b.

End Re.

(** ** [VideohWindow._get_episode_number] *)

(** [x or y] on values that are [None] or a string. *)
Definition or_str (x y : option string) : option string :=
  match x with
  | Some (String _ _) => x
  | _ => y
  end.

(** [S<digits>E(<digits>)] *)
Definition re_season_episode : Re.regex :=
  Re.RSeq (Re.RSet (Re.one_of "S" "s"))
    (Re.RSeq (Re.RPlus PyStr.isdigit)
       (Re.RSeq (Re.RSet (Re.one_of "E" "e"))
          (Re.RGroup 1 (Re.RPlus PyStr.isdigit)))).

(** [E(<digits>)] *)
Definition re_episode : Re.regex :=
  Re.RSeq (Re.RSet (Re.one_of "E" "e")) (Re.RGroup 2 (Re.RPlus PyStr.isdigit)).

(** [(<digits>)$] *)
Definition re_trailing : Re.regex :=
  Re.RSeq (Re.RGroup 3 (Re.RPlus PyStr.isdigit)) Re.REnd.

(** [r'[Ss]\d+[Ee](\d+)|[Ee](\d+)|(\d+)$'] *)
Definition episode_regex : Re.regex :=
  Re.RAlt re_season_episode (Re.RAlt re_episode re_trailing).

(** [int(match.group(1) or match.group(2) or match.group(3))]; an
    exception of [int] would be caught by the method's [except] and turned
    into [None].  A group holds digits only, and fewer than [int] accepts
    at most. *)
Definition episode_of_groups (g : Re.groups) : option Z :=
  match or_str (or_str (Re.group g 1) (Re.group g 2)) (Re.group g 3) with
  | Some digits => PyStr.int_digits digits
  | None => None
  end.

Definition _get_episode_number (filename : string) : option Z :=
  match Re.search episode_regex filename with
  | Some g => episode_of_groups g
  | None => None
  end.

(** The reading of the extraction as three searches made one after the
    other, each over the whole name, the first pattern that matches
    anywhere giving the number. *)
Definition episode_number_in_pattern_order (filename : string) : option Z :=
  match Re.search re_season_episode filename with
  | Some g => episode_of_groups g
  | None =>
      match Re.search re_episode filename with
      | Some g => episode_of_groups g
      | None =>
          match Re.search re_trailing filename with
          | Some g => episode_of_groups g
          | None => None
          end
      end
  end.

(** ** Python values and exceptions *)

(** The values a JSON document can hold, which are also the values the
    providers return and the metadata records are made of. *)
Inductive pyval :=
| PNone
| PBool (b : bool)
| PInt (z : Z)
| PFloat (f : spec_float)
| PStr (s : string)
| PList (l : list pyval)
| PDict (d : gmap string pyval).

(** The exception classes that occur; [RequestError] stands for whatever a
    provider client or the HTTP library raises. *)
Inductive exn :=
| JSONDecodeError
| FileNotFoundError
| UnicodeDecodeError
| AttributeError
| TypeError
| ValueError
| KeyError
| IndexError
| OverflowError
| RequestError (msg : string).

Inductive result (A : Type) :=
| Ok (a : A)
| Raise (e : exn).
Arguments Ok {A} a.
Arguments Raise {A} e.

Definition rbind {A B} (r : result A) (f : A -> result B) : result B :=
  match r with
  | Ok a => f a
  | Raise e => Raise e
  end.

Declare Scope result_scope.
Delimit Scope result_scope with result.
Notation "x <- c1 ;; c2" := (rbind c1 (fun x => c2))
  (at level 100, c1 at next level, right associativity) : result_scope.

(** Evaluate [f] on each element in order; the first exception ends the
    evaluation, as in a list comprehension. *)
Fixpoint rmap {A B} (f : A -> result B) (l : list A) : result (list B) :=
  match l with
  | [] => Ok []
  | x :: l' =>
      (y <- f x ;; ys <- rmap f l' ;; Ok (y :: ys))%result
  end.

Module Float.

Definition prec : Z := 53.
Definition emax : Z := 1024.

Definition zero : spec_float := S754_zero false.
Definition one : spec_float := binary_normalize prec emax 1 0 false.

Definition is_nan (f : spec_float) : bool :=
  match f with S754_nan => true | _ => false end.

Definition is_zero (f : spec_float) : bool :=
  match f with S754_zero _ => true | _ => false end.

(** [a < b] and [a <= b] on floats; both are false when either side is
    NaN. *)
Definition ltb (a b : spec_float) : bool := SFltb a b.
Definition leb (a b : spec_float) : bool := SFleb a b.

(** [float(n)] for an [int]: the nearest double, ties to even;
    [OverflowError] when [n] is too large for a double. *)
Definition of_int (n : Z) : result spec_float :=
  match binary_normalize prec emax n 0 false with
  | S754_infinity _ => Raise OverflowError
  | f => Ok f
  end.

(** The double nearest to [(-1)^neg * m * 10^e]. *)
Definition of_decimal (neg : bool) (m : Z) (e : Z) : spec_float :=
  match m with
  | Zpos p =>
      match e with
      | Zneg k =>
          SFdiv prec emax (S754_finite neg p 0)
            (S754_finite false (Pos.pow 10 k) 0)
      | _ =>
          binary_normalize prec emax
            ((if neg then -1 else 1) * (m * 10 ^ e))%Z 0 false
      end
  | _ => S754_zero neg
  end.

(** [f == n] for an [int] [n]: the comparison is exact. *)
Definition eq_int (f : spec_float) (n : Z) : bool :=
  match f with
  | S754_zero _ => (n =? 0)%Z
  | S754_finite s m e =>
      let v := (if s then Z.neg m else Z.pos m) in
      match e with
      | Zneg k => (n * Z.pow 2 (Z.pos k) =? v)%Z
      | _ => (v * Z.pow 2 e =? n)%Z
      end
  | _ => false
  end.

(** *** The text form [float(s)] accepts

    After the surrounding whitespace is stripped: an optional sign, then
    [inf], [infinity] or [nan] in any case, or a decimal number
    [digits[.digits][e[sign]digits]] (also [.digits] and [digits.]); an
    underscore may separate two digits. *)

(** [number]: integer digits, fraction digits and the rest. *)
Definition number (s : string) : option (string * string * string) :=
  match PyStr.digitpart s with
  | Some (ip, String c rest) =>
      if Ascii.eqb c "." then
        match PyStr.digitpart rest with
        | Some (fp, rest') => Some (ip, fp, rest')
        | None => Some (ip, "", rest)
        end
      else Some (ip, "", String c rest)
  | Some (ip, EmptyString) => Some (ip, "", "")
  | None =>
      match s with
      | String c rest =>
          if Ascii.eqb c "." then
            match PyStr.digitpart rest with
            | Some (fp, rest') => Some ("", fp, rest')
            | None => None
            end
          else None
      | EmptyString => None
      end
  end.

(** [exponent]: absent when the text is over, otherwise [e] or [E], an
    optional sign and digits up to the end of the text. *)
Definition exponent (s : string) : option Z :=
  match s with
  | EmptyString => Some 0%Z
  | String c s' =>
      if Re.one_of "e" "E" c then
        let '(neg, s'') := PyStr.sign s' in
        match PyStr.digitpart s'' with
        | Some (ds, EmptyString) =>
            match PyStr.int_digits ds with
            | Some n => Some (if neg then - n else n)%Z
            | None => None
            end
        | _ => None
        end
      else None
  end.

Definition of_str (s : string) : result spec_float :=
  let '(neg, body) := PyStr.sign (PyStr.strip s) in
  let word := PyStr.lower body in
  if String.eqb word "inf" || String.eqb word "infinity"
  then Ok (S754_infinity neg)
  else if String.eqb word "nan" then Ok S754_nan
  else
    match number body with
    | Some (ip, fp, rest) =>
        match exponent rest, PyStr.int_digits_acc 0 (ip +:+ fp) with
        | Some e, Some m =>
            Ok (of_decimal neg m (e - Z.of_nat (String.length fp))%Z)
        | _, _ => Raise ValueError
        end
    | None => Raise ValueError
    end.

End Float.

Module Py.

(** [bool(v)] *)
Definition truthy (v : pyval) : bool :=
  match v with
  | PNone => false
  | PBool b => b
  | PInt z => negb (z =? 0)%Z
  | PFloat f => negb (Float.is_zero f)
  | PStr s => negb (String.eqb s "")
  | PList l => match l with [] => false | _ => true end
  | PDict d => negb (bool_decide (d = ∅))
  end.

(** [x or y] *)
Definition or (x y : pyval) : pyval := if truthy x then x else y.

(** [v.get(key, default)]: only a [dict] has the method. *)
Definition get (v : pyval) (key : string) (default : pyval) : result pyval :=
  match v with
  | PDict d => Ok (match d !! key with Some x => x | None => default end)
  | _ => Raise AttributeError
  end.

(** [v[key]] for a string [key]. *)
Definition getitem (v : pyval) (key : string) : result pyval :=
  match v with
  | PDict d =>
      match d !! key with
      | Some x => Ok x
      | None => Raise KeyError
      end
  | _ => Raise TypeError
  end.

(** [v[key] = x] for a string [key]. *)
Definition setitem (v : pyval) (key : string) (x : pyval) : result pyval :=
  match v with
  | PDict d => Ok (PDict (<[key := x]> d))
  | _ => Raise TypeError
  end.

(** [float(v)] *)
Definition float (v : pyval) : result spec_float :=
  match v with
  | PBool b => Ok (if b then Float.one else Float.zero)
  | PInt z => Float.of_int z
  | PFloat f => Ok f
  | PStr s => Float.of_str s
  | PNone | PList _ | PDict _ => Raise TypeError
  end.

(** [{**a, **b}]: the keys of both, [b] winning where both have one. *)
Definition merge (a b : pyval) : result pyval :=
  match a, b with
  | PDict da, PDict db => Ok (PDict (db ∪ da))
  | _, _ => Raise TypeError
  end.

(** [str(v)], as an f-string renders a value.  The text of a number, a
    list or a dict is left to [repr], a parameter of the model. *)
Definition str (repr : pyval -> string) (v : pyval) : string :=
  match v with
  | PStr s => s
  | PNone => "None"
  | PBool true => "True"
  | PBool false => "False"
  | _ => repr v
  end.

(** [v == n] for an [int] [n] *)
Definition eq_int (v : pyval) (n : Z) : bool :=
  match v with
  | PBool b => (Z.b2z b =? n)%Z
  | PInt z => (z =? n)%Z
  | PFloat f => Float.eq_int f n
  | _ => false
  end.

(** [v[0]] *)
Definition first (v : pyval) : result pyval :=
  match v with
  | PList (x :: _) => Ok x
  | PList [] => Raise IndexError
  | PStr (String c _) => Ok (PStr (String c ""))
  | PStr EmptyString => Raise IndexError
  | PDict _ => Raise KeyError
  | _ => Raise TypeError
  end.

(** [v[:n]]; a [dict] has no slices ([KeyError] since Python 3.12,
    [TypeError] before). *)
Definition slice_to (n : nat) (v : pyval) : result pyval :=
  match v with
  | PList l => Ok (PList (take n l))
  | PStr s => Ok (PStr (PyStr.take n s))
  | PDict _ => Raise KeyError
  | _ => Raise TypeError
  end.

(** [[p['name'] for p in v]]: the elements of a string or of a dict are
    strings, which have no ['name']. *)
Definition names (v : pyval) : result pyval :=
  match v with
  | PList l => rbind (rmap (fun p => getitem p "name") l) (fun ns => Ok (PList ns))
  | PStr s => if String.eqb s "" then Ok (PList []) else Raise TypeError
  | PDict d => if bool_decide (d = ∅) then Ok (PList []) else Raise TypeError
  | _ => Raise TypeError
  end.

(** [v.split('-')[0]] *)
Fixpoint before_dash (s : string) : string :=
  match s with
  | EmptyString => EmptyString
  | String c s' => if Ascii.eqb c "-" then EmptyString else String c (before_dash s')
  end.

Definition split_dash_first (v : pyval) : result pyval :=
  match v with
  | PStr s => Ok (PStr (before_dash s))
  | _ => Raise AttributeError
  end.

End Py.

(** ** [json]: the codec of the metadata document

    [json.dump] and [json.load] belong to the Python library.  The store
    relies on one law: loading what was dumped gives the value back.  A
    text that is not JSON makes [json_load] raise [JSONDecodeError]. *)

Class JsonCodec := {
  document : Type;
  (** the text ["{}"] *)
  empty_object_text : document;
  (** [json.dump(v, f, indent=2)] *)
  json_dump : pyval -> document;
  (** [json.load(f)] *)
  json_load : document -> result pyval;
  json_load_dump : forall v, json_load (json_dump v) = Ok v;
  json_load_empty_object : json_load empty_object_text = Ok (PDict ∅)
}.

(** Documents up to the value they denote: a JSON text is identified with
    its value, any other text is kept as it is, and so is a file whose
    bytes are not text in the encoding of [open], on which reading raises
    [UnicodeDecodeError]. *)
Inductive text_document :=
| JsonText (v : pyval)
| Malformed (text : string)
| NotText (bytes : string).

#[export] Instance reference_codec : JsonCodec := {|
  document := text_document;
  empty_object_text := JsonText (PDict ∅);
  json_dump := JsonText;
  json_load d :=
    match d with
    | JsonText v => Ok v
    | Malformed _ => Raise JSONDecodeError
    | NotText _ => Raise UnicodeDecodeError
    end;
  json_load_dump := fun v => eq_refl;
  json_load_empty_object := eq_refl
|}.

(** ** Insertion-ordered dictionaries

    [self.shows] and the [seasons] of a show are Python dictionaries whose
    order shows (the sort action reorders [self.shows]); they are
    association lists in insertion order, without repeated keys. *)

Module ODict.

Section Ops.
Context {V : Type}.

(** [d.get(k)] *)
Fixpoint get (k : string) (d : list (string * V)) : option V :=
  match d with
  | [] => None
  | (k', v) :: d' => if String.eqb k' k then Some v else get k d'
  end.

(** [d[k] = v]: an existing key keeps its place, a new one goes last. *)
Fixpoint set (k : string) (v : V) (d : list (string * V)) : list (string * V) :=
  match d with
  | [] => [(k, v)]
  | (k', v') :: d' =>
      if String.eqb k' k then (k, v) :: d' else (k', v') :: set k v d'
  end.

(** [dict(items)] *)
Definition of_items (items : list (string * V)) : list (string * V) :=
  fold_left (fun d kv => set (fst kv) (snd kv) d) items [].

Definition keys (d : list (string * V)) : list string := map fst d.

End Ops.

End ODict.

(** ** The file system under the videos directory *)

(** What a name in a directory stands for: a regular file, a directory
    with its children in listing order, or something that is neither. *)
Inductive node :=
| File
| Other
| Dir (children : list (string * node)).

(** A [Path] the scanner holds: where it is, its last component and what
    it points to. *)
Record dir_entry := {
  parent : string;
  name : string;
  target : node
}.

(** [str(p)] *)
Definition path_str (p : dir_entry) : string :=
  PurePath.joinpath (parent p) (name p).

Definition is_file (p : dir_entry) : bool :=
  match target p with File => true | _ => false end.

Definition is_dir (p : dir_entry) : bool :=
  match target p with Dir _ => true | _ => false end.

(** The entries of the directory [dir] with the given children, in the
    order the system lists them. *)
Definition entries (dir : string) (children : list (string * node)) : list dir_entry :=
  map (fun c => {| parent := dir; name := fst c; target := snd c |}) children.

(** [p.iterdir()] and [p.glob("*")] of a directory entry. *)
Definition iterdir (p : dir_entry) : list dir_entry :=
  match target p with
  | Dir children => entries (path_str p) children
  | _ => []
  end.

(** [Path(dir).glob("**/*")]: the entries of [dir], then those of each
    subdirectory in turn, recursively. *)
Fixpoint rglob_node (dir : string) (x : node) : list dir_entry :=
  match x with
  | Dir children =>
      entries dir children ++
      flat_map (fun c => rglob_node (PurePath.joinpath dir (fst c)) (snd c)) children
  | _ => []
  end.

Definition rglob (dir : string) (children : list (string * node)) : list dir_entry :=
  rglob_node dir (Dir children).

(** [p.suffix.lower() in ['.mp4', '.mkv', '.avi', '.webm']] *)
Definition video_suffixes : list string := [".mp4"; ".mkv"; ".avi"; ".webm"].

Definition has_video_suffix (file_name : string) : bool :=
  existsb (String.eqb (PyStr.lower (PurePath.suffix file_name))) video_suffixes.

(** ** The catalog *)

(** [movie_data] and [episode_data]: dictionaries with the keys [path],
    [title], [metadata] and, for an episode, [season]. *)
Record media := {
  path : string;
  title : string;
  season : option string;
  metadata : pyval
}.

Definition seasons_dict := list (string * list media).
Definition shows_dict := list (string * seasons_dict).

(** ** [VideohWindow.get_episode_metadata] *)

Section EpisodeMetadata.

(** [repr] gives the text of a number, list or dict inside an f-string. *)
Variable repr : pyval -> string.

(** The method reads [self.metadata], here its first argument. *)
Definition get_episode_metadata (self_metadata : pyval) (episode_path : string)
    : result pyval :=
  (metadata <- Py.get self_metadata episode_path (PDict ∅) ;;
   is_episode <- Py.get metadata "is_episode" PNone ;;
   if Py.truthy is_episode then
     show_name <- Py.get metadata "show_name" PNone ;;
     let show_key := "show:" +:+ Py.str repr show_name in
     show_metadata <- Py.get self_metadata show_key (PDict ∅) ;;
     Py.merge show_metadata metadata
   else Ok metadata)%result.

End EpisodeMetadata.

(** ** The window: its state and the effects of its methods *)

(** What the program does that is visible from outside the window state:
    requests to the providers, lines printed, dialogs and callbacks. *)
Inductive event :=
| SearchMovie (movie_title : string)
| GetMovie (movie_id : pyval)
| SearchShows (show_name : string)
| GetShowEpisodes (show_id : pyval)
| HttpGet (url : string)
| PrintError (subject : string) (e : exn)
| ShowErrorDialog (e : exn)
| FinishMetadataRefresh
| CloseProgressDialog.

Section Window.

Context {codec : JsonCodec}.

Record filesystem := {
  (** [config_dir / "metadata.json"], when the file exists *)
  metadata_file : option document;
  (** the children of [videos_dir / "Movies"] and [videos_dir / "Shows"] *)
  movies_dir : list (string * node);
  shows_dir : list (string * node);
  (** the files that exist below [cache_dir] *)
  cache_files : gset string
}.

Record window := {
  videos_dir : string;
  cache_dir : string;
  disk : filesystem;
  self_metadata : pyval;
  self_movies : list media;
  self_shows : shows_dict;
  (** the progress dialog: [Some n] when the user closes it after [n]
      more looks at [get_visible()], [None] when it stays open *)
  dialog_closes_after : option nat;
  trace : list event
}.

Definition with_disk (d : filesystem) (w : window) : window :=
  {| videos_dir := videos_dir w; cache_dir := cache_dir w; disk := d;
     self_metadata := self_metadata w; self_movies := self_movies w;
     self_shows := self_shows w;
     dialog_closes_after := dialog_closes_after w; trace := trace w |}.

Definition with_metadata (v : pyval) (w : window) : window :=
  {| videos_dir := videos_dir w; cache_dir := cache_dir w; disk := disk w;
     self_metadata := v; self_movies := self_movies w;
     self_shows := self_shows w;
     dialog_closes_after := dialog_closes_after w; trace := trace w |}.

Definition with_movies (l : list media) (w : window) : window :=
  {| videos_dir := videos_dir w; cache_dir := cache_dir w; disk := disk w;
     self_metadata := self_metadata w; self_movies := l;
     self_shows := self_shows w;
     dialog_closes_after := dialog_closes_after w; trace := trace w |}.

Definition with_shows (s : shows_dict) (w : window) : window :=
  {| videos_dir := videos_dir w; cache_dir := cache_dir w; disk := disk w;
     self_metadata := self_metadata w; self_movies := self_movies w;
     self_shows := s;
     dialog_closes_after := dialog_closes_after w; trace := trace w |}.

Definition with_dialog (c : option nat) (w : window) : window :=
  {| videos_dir := videos_dir w; cache_dir := cache_dir w; disk := disk w;
     self_metadata := self_metadata w; self_movies := self_movies w;
     self_shows := self_shows w;
     dialog_closes_after := c; trace := trace w |}.

Definition with_trace (t : list event) (w : window) : window :=
  {| videos_dir := videos_dir w; cache_dir := cache_dir w; disk := disk w;
     self_metadata := self_metadata w; self_movies := self_movies w;
     self_shows := self_shows w;
     dialog_closes_after := dialog_closes_after w; trace := t |}.

Definition write_metadata_file (d : document) (fs : filesystem) : filesystem :=
  {| metadata_file := Some d; movies_dir := movies_dir fs;
     shows_dir := shows_dir fs; cache_files := cache_files fs |}.

Definition create_cache_file (p : string) (fs : filesystem) : filesystem :=
  {| metadata_file := metadata_file fs; movies_dir := movies_dir fs;
     shows_dir := shows_dir fs; cache_files := {[p]} ∪ cache_files fs |}.

(** A method is a function of the window that returns a value or raises,
    and leaves the window as the statements run so far have made it. *)
Definition M (A : Type) : Type := window -> result A * window.

Definition ret {A} (a : A) : M A := fun w => (Ok a, w).

Definition raise {A} (e : exn) : M A := fun w => (Raise e, w).

Definition bind {A B} (m : M A) (f : A -> M B) : M B :=
  fun w =>
    match m w with
    | (Ok a, w') => f a w'
    | (Raise e, w') => (Raise e, w')
    end.

Definition lift {A} (r : result A) : M A := fun w => (r, w).

Definition gets {A} (f : window -> A) : M A := fun w => (Ok (f w), w).

Definition modify (f : window -> window) : M unit := fun w => (Ok tt, f w).

Definition emit (e : event) : M unit :=
  modify (fun w => with_trace (trace w ++ [e]) w).

(** [try: body except Exception as e: handler(e)] *)
Definition try_except {A} (body : M A) (handler : exn -> M A) : M A :=
  fun w =>
    match body w with
    | (Ok a, w') => (Ok a, w')
    | (Raise e, w') => handler e w'
    end.

(** [for x in l: body(x)] *)
Fixpoint for_each {A} (l : list A) (body : A -> M unit) : M unit :=
  match l with
  | [] => ret tt
  | x :: l' => bind (body x) (fun _ => for_each l' body)
  end.

End Window.

Declare Scope method_scope.
Delimit Scope method_scope with method.
Notation "x <- c1 ;; c2" := (bind c1 (fun x => c2))
  (at level 100, c1 at next level, right associativity) : method_scope.
Notation "c1 ;; c2" := (bind c1 (fun _ => c2))
  (at level 100, right associativity) : method_scope.

(** ** The scanner and the metadata store *)

(** [item.name.lower().replace("season", "").strip()] *)
Definition season_number (dir_name : string) : string :=
  PyStr.strip (PyStr.remove_all "season" (PyStr.lower dir_name)).

(** [item.is_dir() and item.name.lower().startswith("season")] *)
Definition is_season_dir (item : dir_entry) : bool :=
  is_dir item && PyStr.startswith (PyStr.lower (name item)) "season".

(** [f.is_file() and f.suffix.lower() in [...]] *)
Definition is_video_file (f : dir_entry) : bool :=
  is_file f && has_video_suffix (name f).

(** The dictionary built for one file; [self.metadata.get(str(f), {})]
    raises when the loaded document is not an object. *)
Definition media_data (self_metadata : pyval) (f : dir_entry)
    (season_num : option string) : result media :=
  (m <- Py.get self_metadata (path_str f) (PDict ∅) ;;
   Ok {| path := path_str f; title := PurePath.stem (name f);
         season := season_num; metadata := m |})%result.

(** The loop over [item.glob("*")] of a season directory. *)
Fixpoint scan_episodes (self_metadata : pyval) (season_num : string)
    (files : list dir_entry) (episodes : list media) : result (list media) :=
  match files with
  | [] => Ok episodes
  | f :: rest =>
      if is_video_file f then
        (e <- media_data self_metadata f (Some season_num) ;;
         scan_episodes self_metadata season_num rest (episodes ++ [e]))%result
      else scan_episodes self_metadata season_num rest episodes
  end.

(** [seasons["1"].append(e)] *)
Definition append_episode (season_num : string) (e : media)
    (seasons : seasons_dict) : seasons_dict :=
  match ODict.get season_num seasons with
  | Some episodes => ODict.set season_num (episodes ++ [e])%list seasons
  | None => seasons
  end.

(** The loop over [show_dir.iterdir()]. *)
Fixpoint scan_show (self_metadata : pyval) (items : list dir_entry)
    (seasons : seasons_dict) : result seasons_dict :=
  match items with
  | [] => Ok seasons
  | item :: rest =>
      if is_season_dir item then
        let season_num := season_number (name item) in
        (episodes <- scan_episodes self_metadata season_num (iterdir item) [] ;;
         scan_show self_metadata rest
           match episodes with
           | [] => seasons
           | _ => ODict.set season_num episodes seasons
           end)%result
      else if is_video_file item then
        let seasons1 :=
          match ODict.get "1" seasons with
          | None => ODict.set "1" [] seasons
          | Some _ => seasons
          end in
        (e <- media_data self_metadata item (Some "1") ;;
         scan_show self_metadata rest (append_episode "1" e seasons1))%result
      else scan_show self_metadata rest seasons
  end.

Section Store.

Context {codec : JsonCodec}.
#[local] Open Scope method_scope.

(** [setup_directories]: the four directories exist in this model of the
    disk; what remains is the creation of a missing metadata file. *)
Definition setup_directories : M unit :=
  modify (fun w =>
    match metadata_file (disk w) with
    | Some _ => w
    | None => with_disk (write_metadata_file empty_object_text (disk w)) w
    end).

(** [open(self.metadata_file, 'r')] *)
Definition open_metadata_file : M document :=
  fun w =>
    match metadata_file (disk w) with
    | Some d => (Ok d, w)
    | None => (Raise FileNotFoundError, w)
    end.

(** The [try] at the head of [load_library]. *)
Definition load_metadata : M unit :=
  try_except
    (f <- open_metadata_file ;;
     v <- lift (json_load f) ;;
     modify (with_metadata v))
    (fun e =>
       match e with
       | JSONDecodeError => modify (with_metadata (PDict ∅))
       | _ => raise e
       end).

Definition scan_movies : M unit :=
  modify (with_movies []) ;;
  movies_path <- gets (fun w => PurePath.joinpath (videos_dir w) "Movies") ;;
  children <- gets (fun w => movies_dir (disk w)) ;;
  for_each (rglob movies_path children) (fun movie_file =>
    if is_video_file movie_file then
      self_metadata <- gets self_metadata ;;
      movie_data <- lift (media_data self_metadata movie_file None) ;;
      modify (fun w => with_movies (self_movies w ++ [movie_data]) w)
    else ret tt).

Definition scan_shows : M unit :=
  modify (with_shows []) ;;
  shows_path <- gets (fun w => PurePath.joinpath (videos_dir w) "Shows") ;;
  children <- gets (fun w => shows_dir (disk w)) ;;
  for_each (entries shows_path children) (fun show_dir =>
    if is_dir show_dir then
      self_metadata <- gets self_metadata ;;
      seasons <- lift (scan_show self_metadata (iterdir show_dir) []) ;;
      match seasons with
      | [] => ret tt
      | _ => modify (fun w =>
               with_shows (ODict.set (name show_dir) seasons (self_shows w)) w)
      end
    else ret tt).

Definition load_library : M unit :=
  load_metadata ;; scan_movies ;; scan_shows.

(** [json.dump(self.metadata, f, indent=2)] into the file opened with
    ['w']. *)
Definition save_metadata : M unit :=
  modify (fun w =>
    with_disk (write_metadata_file (json_dump (self_metadata w)) (disk w)) w).

(** [update_metadata]; the redraw [populate_ui] that ends it belongs to
    the toolkit and is not part of the model. *)
Definition update_metadata (file_path : string) (metadata : pyval) : M unit :=
  store <- gets self_metadata ;;
  store' <- lift (Py.setitem store file_path metadata) ;;
  modify (with_metadata store') ;;
  save_metadata ;;
  load_library.

(** The start of [__init__]: the directories, then the first load. *)
Definition init_library : M unit :=
  setup_directories ;; load_library.

End Store.

(** ** [VideohWindow.on_view_sorting], sorting by rating *)

(** [sorted(items, key=key_func)]: the keys are computed first, in order;
    the sort is stable and compares keys with [<].  For keys on which [<]
    is a strict weak order (no NaN) every stable sort gives this result. *)
Fixpoint insert_keyed {A} (kx : spec_float) (x : A)
    (l : list (spec_float * A)) : list (spec_float * A) :=
  match l with
  | [] => [(kx, x)]
  | (ky, y) :: l' =>
      if Float.ltb ky kx then (ky, y) :: insert_keyed kx x l'
      else (kx, x) :: (ky, y) :: l'
  end.

Definition sort_keyed {A} (l : list (spec_float * A)) : list (spec_float * A) :=
  fold_right (fun kx acc => insert_keyed (fst kx) (snd kx) acc) [] l.

Definition sorted {A} (items : list A) (key_func : A -> result spec_float)
    : result (list A) :=
  (keys <- rmap key_func items ;;
   Ok (map snd (sort_keyed (combine keys items))))%result.

(** [float(record.get('rating', 0) or 0)] *)
Definition rating_key (record : pyval) : result spec_float :=
  (rating <- Py.get record "rating" (PInt 0) ;;
   Py.float (Py.or rating (PInt 0)))%result.

(** [lambda x: float(x.get('metadata', {}).get('rating', 0) or 0)]; every
    catalog entry has the key ['metadata']. *)
Definition movie_rating_key (x : media) : result spec_float :=
  rating_key (metadata x).

(** [lambda x: float(self.metadata.get(f"show:{x[0]}", {}).get('rating', 0) or 0)] *)
Definition show_rating_key (self_metadata : pyval) (x : string * seasons_dict)
    : result spec_float :=
  (record <- Py.get self_metadata ("show:" +:+ fst x) (PDict ∅) ;;
   rating_key record)%result.

Section Sorting.

Context {codec : JsonCodec}.
#[local] Open Scope method_scope.

(** The branch [sort_type == 'rating'] of [on_view_sorting]; the redraw
    that follows is not part of the model. *)
Definition on_view_sorting_rating : M unit :=
  movies <- gets self_movies ;;
  movies' <- lift (sorted movies movie_rating_key) ;;
  modify (with_movies movies') ;;
  shows <- gets self_shows ;;
  self_metadata <- gets self_metadata ;;
  shows' <- lift (sorted shows (show_rating_key self_metadata)) ;;
  modify (with_shows (ODict.of_items shows')).

End Sorting.

(** ** The metadata refresh *)

(** The provider clients [videoh.imdb.IMDb] and [videoh.tvmaze.TVMaze] and
    the HTTP library are parameters: any answer, any exception. *)

(** A search result of the movie provider: an object with [getID()], or a
    value read with [.get('movieID')]. *)
Inductive imdb_result :=
| ResultObject (movie_id : pyval)
| ResultValue (v : pyval).

Record imdb_api := {
  search_movie : string -> result (list imdb_result);
  get_movie : pyval -> result pyval
}.

Record tvmaze_api := {
  search_shows : string -> result pyval;
  get_show_episodes : pyval -> result pyval
}.

(** ["".join(c for c in title if c.isalnum() or c in (' ', '-', '_')).rstrip()] *)
Fixpoint keep_safe (s : string) : string :=
  match s with
  | EmptyString => EmptyString
  | String c s' =>
      if PyStr.isalnum c || Ascii.eqb c " " || Ascii.eqb c "-" || Ascii.eqb c "_"
      then String c (keep_safe s') else keep_safe s'
  end.

Definition safe_title (movie_title : string) : string :=
  PyStr.rstrip (keep_safe movie_title).

(** The generator handed to [next(..., None)] in [_fetch_show_metadata]:
    the first provider episode [e] with [e['season'] == int(season_num)]
    and [e['number'] == episode_number]. *)
Fixpoint find_episode (episodes_data : list pyval) (season_num : string)
    (episode_number : Z) : result pyval :=
  match episodes_data with
  | [] => Ok PNone
  | e :: rest =>
      (e_season <- Py.getitem e "season" ;;
       n <- match PyStr.int_of_str season_num with
            | Some n => Ok n
            | None => Raise ValueError
            end ;;
       if Py.eq_int e_season n then
         e_number <- Py.getitem e "number" ;;
         if Py.eq_int e_number episode_number then Ok e
         else find_episode rest season_num episode_number
       else find_episode rest season_num episode_number)%result
  end.

(** Iterating a string or a dict gives strings, on which [e['season']]
    raises. *)
Definition next_episode (episodes_data : pyval) (season_num : string)
    (episode_number : Z) : result pyval :=
  match episodes_data with
  | PList l => find_episode l season_num episode_number
  | PStr s => if String.eqb s "" then Ok PNone else Raise TypeError
  | PDict d => if bool_decide (d = ∅) then Ok PNone else Raise TypeError
  | _ => Raise TypeError
  end.

(** The [metadata] literal of [_fetch_movie_metadata]. *)
Definition movie_metadata (movie_data : pyval) : result (gmap string pyval) :=
  (m_title <- Py.get movie_data "title" PNone ;;
   m_year <- Py.get movie_data "year" PNone ;;
   m_rating <- Py.get movie_data "rating" PNone ;;
   m_plot <- Py.get movie_data "plot outline" (PStr "") ;;
   directors <- Py.get movie_data "director" (PList []) ;;
   m_director <- Py.names directors ;;
   cast <- Py.get movie_data "cast" (PList []) ;;
   cast5 <- Py.slice_to 5 cast ;;
   m_cast <- Py.names cast5 ;;
   m_genres <- Py.get movie_data "genres" (PList []) ;;
   Ok (<["title" := m_title]> (<["year" := m_year]> (<["rating" := m_rating]>
       (<["plot" := m_plot]> (<["director" := m_director]>
       (<["cast" := m_cast]> (<["genres" := m_genres]>
       (<["type" := PStr "movie"]> ∅)))))))))%result.

(** The [show_metadata] literal of [_fetch_show_metadata]. *)
Definition show_metadata (show_data : pyval) : result (gmap string pyval) :=
  (s_title <- Py.get show_data "name" PNone ;;
   premiered <- Py.get show_data "premiered" (PStr "") ;;
   s_year <- Py.split_dash_first premiered ;;
   rating <- Py.get show_data "rating" (PDict ∅) ;;
   s_rating <- Py.get rating "average" PNone ;;
   s_plot <- Py.get show_data "summary" (PStr "") ;;
   s_genres <- Py.get show_data "genres" (PList []) ;;
   s_status <- Py.get show_data "status" PNone ;;
   network <- Py.get show_data "network" (PDict ∅) ;;
   s_network <- Py.get network "name" PNone ;;
   Ok (<["title" := s_title]> (<["year" := s_year]> (<["rating" := s_rating]>
       (<["plot" := s_plot]> (<["genres" := s_genres]>
       (<["type" := PStr "show"]> (<["status" := s_status]>
       (<["network" := s_network]> ∅)))))))))%result.

(** The [episode_metadata] literal. *)
Definition episode_metadata (tvmaze_episode : pyval) (season_num : string)
    (episode_number : Z) (show_name : string) : result (gmap string pyval) :=
  (e_title <- Py.get tvmaze_episode "name" PNone ;;
   e_plot <- Py.get tvmaze_episode "summary" (PStr "") ;;
   e_air_date <- Py.get tvmaze_episode "airdate" PNone ;;
   Ok (<["title" := e_title]> (<["plot" := e_plot]> (<["air_date" := e_air_date]>
       (<["season" := PStr season_num]> (<["episode" := PInt episode_number]>
       (<["is_episode" := PBool true]> (<["show_name" := PStr show_name]> ∅))))))))%result.

(** [if episode_number:] *)
Definition episode_number_set (n : option Z) : option Z :=
  match n with
  | Some z => if (z =? 0)%Z then None else Some z
  | None => None
  end.

Section Refresh.

Context {codec : JsonCodec}.
#[local] Open Scope method_scope.

(** [IMDb()] and [TVMaze()]: a client, or the exception of its
    constructor. *)
Variable IMDb : result imdb_api.
Variable TVMaze : result tvmaze_api.

(** [requests.get(url, stream=True)] with [raise_for_status()]; when it
    answers, whether reading the chunks into the opened file succeeds. *)
Variable requests_get : string -> result (result unit).

(** The body of [download_poster] below its [try]. *)
Definition download (url : pyval) (poster_path : string) : M pyval :=
  u <- lift match url with
            | PStr u => Ok u
            | _ => Raise (RequestError "invalid URL")
            end ;;
  emit (HttpGet u) ;;
  chunks <- lift (requests_get u) ;;
  modify (fun w => with_disk (create_cache_file poster_path (disk w)) w) ;;
  lift chunks ;;
  ret (PStr poster_path).

(** [download_poster]; the directory [posters] is implied by the files
    below it. *)
Definition download_poster (url : pyval) (movie_title : string) : M pyval :=
  if negb (Py.truthy url) then ret PNone
  else
    poster_path <- gets (fun w =>
      PurePath.joinpath (PurePath.joinpath (cache_dir w) "posters")
        (safe_title movie_title +:+ ".jpg")) ;;
    exists_ <- gets (fun w => bool_decide (poster_path ∈ cache_files (disk w))) ;;
    if negb exists_ then
      try_except (download url poster_path)
        (fun e => emit (PrintError movie_title e) ;; ret PNone)
    else ret (PStr poster_path).

(** [first_result.getID() if hasattr(first_result, 'getID') else
    first_result.get('movieID')] *)
Definition result_id (first_result : imdb_result) : result pyval :=
  match first_result with
  | ResultObject movie_id => Ok movie_id
  | ResultValue v => Py.get v "movieID" PNone
  end.

(** The statements inside the [try] of [_fetch_movie_metadata]. *)
Definition fetch_movie_body (imdb : imdb_api) (movie : media) : M unit :=
  emit (SearchMovie (title movie)) ;;
  search_results <- lift (search_movie imdb (title movie)) ;;
  match search_results with
  | [] => ret tt
  | first_result :: _ =>
      movie_id <- lift (result_id first_result) ;;
      if Py.truthy movie_id then
        emit (GetMovie movie_id) ;;
        movie_data <- lift (get_movie imdb movie_id) ;;
        metadata <- lift (movie_metadata movie_data) ;;
        cover <- lift (Py.get movie_data "full-size cover url" PNone) ;;
        metadata' <-
          (if Py.truthy cover then
             url <- lift (Py.getitem movie_data "full-size cover url") ;;
             poster_path <- download_poster url (title movie) ;;
             ret (if Py.truthy poster_path
                  then <["poster" := poster_path]> metadata else metadata)
           else ret metadata) ;;
        update_metadata (path movie) (PDict metadata')
      else ret tt
  end.

Definition _fetch_movie_metadata (imdb : imdb_api) (movie : media) : M unit :=
  try_except (fetch_movie_body imdb movie)
    (fun e => emit (PrintError (title movie) e)).

(** The body of [for episode in episodes]. *)
Definition fetch_episode (episodes_data : pyval) (show_name season_num : string)
    (episode : media) : M unit :=
  match episode_number_set (_get_episode_number (title episode)) with
  | Some episode_number =>
      tvmaze_episode <- lift (next_episode episodes_data season_num episode_number) ;;
      if Py.truthy tvmaze_episode then
        metadata <- lift (episode_metadata tvmaze_episode season_num
                            episode_number show_name) ;;
        update_metadata (path episode) (PDict metadata)
      else ret tt
  | None => ret tt
  end.

(** The statements inside the [try] of [_fetch_show_metadata]. *)
Definition fetch_show_body (tvmaze : tvmaze_api) (show_name : string)
    (seasons : seasons_dict) : M unit :=
  emit (SearchShows show_name) ;;
  search_results <- lift (search_shows tvmaze show_name) ;;
  if Py.truthy search_results then
    first_result <- lift (Py.first search_results) ;;
    show_data <- lift (Py.getitem first_result "show") ;;
    metadata <- lift (show_metadata show_data) ;;
    image <- lift (Py.get show_data "image" (PDict ∅)) ;;
    original <- lift (Py.get image "original" PNone) ;;
    metadata' <-
      (if Py.truthy original then
         image' <- lift (Py.getitem show_data "image") ;;
         url <- lift (Py.getitem image' "original") ;;
         poster_path <- download_poster url show_name ;;
         ret (if Py.truthy poster_path
              then <["poster" := poster_path]> metadata else metadata)
       else ret metadata) ;;
    store <- gets self_metadata ;;
    store' <- lift (Py.setitem store ("show:" +:+ show_name) (PDict metadata')) ;;
    modify (with_metadata store') ;;
    show_id <- lift (Py.getitem show_data "id") ;;
    emit (GetShowEpisodes show_id) ;;
    episodes_data <- lift (get_show_episodes tvmaze show_id) ;;
    for_each seasons (fun season =>
      for_each (snd season) (fetch_episode episodes_data show_name (fst season)))
  else ret tt.

Definition _fetch_show_metadata (tvmaze : tvmaze_api) (show_name : string)
    (seasons : seasons_dict) : M unit :=
  try_except (fetch_show_body tvmaze show_name seasons)
    (fun e => emit (PrintError show_name e)).

(** [progress_dialog.get_visible()] *)
Definition get_visible : M bool :=
  fun w =>
    match dialog_closes_after w with
    | None => (Ok true, w)
    | Some O => (Ok false, w)
    | Some (S n) => (Ok true, with_dialog (Some n) w)
    end.

(** [get_imdb] and [get_tvmaze] *)
Definition get_client {api} (constructor : result api) : M (option api) :=
  match constructor with
  | Ok client => ret (Some client)
  | Raise e => emit (ShowErrorDialog e) ;; ret None
  end.

(** [for movie in self.movies: ...]; [false] when the loop left the
    function through [return].  The progress text set in between belongs
    to the toolkit. *)
Fixpoint fetch_movies (imdb : imdb_api) (movies : list media) : M bool :=
  match movies with
  | [] => ret true
  | movie :: rest =>
      visible <- get_visible ;;
      if visible then
        _fetch_movie_metadata imdb movie ;; fetch_movies imdb rest
      else ret false
  end.

(** [for show_name, seasons in self.shows.items(): ...] *)
Fixpoint fetch_shows (tvmaze : tvmaze_api) (shows : shows_dict) : M bool :=
  match shows with
  | [] => ret true
  | (show_name, seasons) :: rest =>
      visible <- get_visible ;;
      if visible then
        _fetch_show_metadata tvmaze show_name seasons ;; fetch_shows tvmaze rest
      else ret false
  end.

(** The thread body of [on_fetch_metadata]; [use_imdb] and [use_tvmaze]
    are the two settings. *)
Definition fetch_metadata_async (use_imdb use_tvmaze : bool) : M unit :=
  try_except
    (movies_done <-
       (if use_imdb then
          imdb <- get_client IMDb ;;
          match imdb with
          | Some client =>
              movies <- gets self_movies ;; fetch_movies client movies
          | None => ret true
          end
        else ret true) ;;
     if movies_done then
       shows_done <-
         (if use_tvmaze then
            tvmaze <- get_client TVMaze ;;
            match tvmaze with
            | Some client =>
                shows <- gets self_shows ;; fetch_shows client shows
            | None => ret true
            end
          else ret true) ;;
       if shows_done then
         save_metadata ;;
         emit FinishMetadataRefresh ;;
         emit CloseProgressDialog
       else ret tt
     else ret tt)
    (fun e => emit (ShowErrorDialog e)) ;;
  emit CloseProgressDialog.

End Refresh.

(** ** Vocabulary of the statements *)

(** *** Strings *)

(** Every character of [s] satisfies [p]. *)
Fixpoint all_chars (p : ascii -> bool) (s : string) : bool :=
  match s with
  | EmptyString => true
  | String c s' => p c && all_chars p s'
  end.

(** *** Episode numbers *)

(** The three patterns tried in their order at the start of [s]. *)
Definition episode_match_here (s : string) : option Re.groups :=
  match Re.match_here re_season_episode s with
  | Some g => Some g
  | None =>
      match Re.match_here re_episode s with
      | Some g => Some g
      | None => Re.match_here re_trailing s
      end
  end.

(** The match at the leftmost position where one of the three matches. *)
Fixpoint episode_match_leftmost (s : string) : option Re.groups :=
  match episode_match_here s with
  | Some g => Some g
  | None =>
      match s with
      | EmptyString => None
      | String _ s' => episode_match_leftmost s'
      end
  end.

(** *** Directory trees *)

Fixpoint has_slash (s : string) : bool :=
  match s with
  | EmptyString => false
  | String c s' => Ascii.eqb c "/" || has_slash s'
  end.





(** *** The catalog of a disk *)

(** The entry the scanner builds for the file [f] when the store is the
    dictionary [store]. *)
Definition media_entry (store : gmap string pyval) (season_num : option string)
    (f : dir_entry) : media :=
  {| path := path_str f;
     title := PurePath.stem (name f);
     season := season_num;
     metadata := match store !! path_str f with
                 | Some record => record
                 | None => PDict ∅
                 end |}.

(** The movie list of a disk: the video files below the movies root, in
    the order of the walk. *)
Definition movie_catalog (store : gmap string pyval) (videos : string)
    (children : list (string * node)) : list media :=
  map (media_entry store None)
      (List.filter is_video_file (rglob (PurePath.joinpath videos "Movies") children)).

(** Where an episode [e] listed under the season [k] of a show comes
    from, [items] being the entries of the show directory: a video file of
    a season directory numbered [k], or, for ["1"], a video file placed
    directly in the show directory. *)
Definition episode_source (store : gmap string pyval) (items : list dir_entry)
    (k : string) (e : media) : Prop :=
  (exists item f,
      In item items /\ is_season_dir item = true /\
      season_number (name item) = k /\
      In f (iterdir item) /\ is_video_file f = true /\
      e = media_entry store (Some k) f) \/
  (exists item,
      In item items /\ is_season_dir item = false /\
      is_video_file item = true /\ k = "1" /\
      e = media_entry store (Some "1") item).

(** The seasons of one show: none is empty and every episode has its
    source. *)
Definition seasons_ok (store : gmap string pyval) (items : list dir_entry)
    (seasons : seasons_dict) : Prop :=
  forall k episodes,
    In (k, episodes) seasons ->
    episodes <> [] /\ forall e, In e episodes -> episode_source store items k e.

(** The show map: every show is a directory of the shows root, has a season
    and has seasons that are in order. *)
Definition shows_ok (store : gmap string pyval) (show_dirs : list dir_entry)
    (shows : shows_dict) : Prop :=
  forall show seasons,
    In (show, seasons) shows ->
    seasons <> [] /\
    exists show_dir,
      In show_dir show_dirs /\ is_dir show_dir = true /\
      name show_dir = show /\ seasons_ok store (iterdir show_dir) seasons.

(** *** Seasons *)


(** [sub] occurs in [s]. *)
Fixpoint contains (sub s : string) : bool :=
  String.prefix sub s ||
  match s with
  | EmptyString => false
  | String _ s' => contains sub s'
  end.

(** A season directory with a supported video file in it. *)
Definition season_with_video (item : dir_entry) : bool :=
  is_season_dir item && existsb is_video_file (iterdir item).

(** What makes the scanner give a show the season [k]: a season directory
    numbered [k] that has a video file, or, for ["1"], a video file placed
    directly in the show directory. *)
Definition season_source (item : dir_entry) (k : string) : bool :=
  (season_with_video item && String.eqb (season_number (name item)) k) ||
  (negb (is_season_dir item) && is_video_file item && String.eqb k "1").

(** A show directory without a supported video file, neither directly in
    it nor in one of its season directories. *)
Definition no_video (show_dir : dir_entry) : bool :=
  forallb (fun item => negb (season_with_video item) &&
                       negb (negb (is_season_dir item) && is_video_file item))
          (iterdir show_dir).

(** *** Sorting *)

(** A rating the sort can use: the key is computed and is not NaN. *)
Definition usable_key (k : result spec_float) : bool :=
  match k with
  | Ok f => negb (Float.is_nan f)
  | Raise _ => false
  end.

(** The key of an entry whose key is computed; [0.0] stands in otherwise. *)
Definition key_value (k : result spec_float) : spec_float :=
  match k with
  | Ok f => f
  | Raise _ => Float.zero
  end.

(** Two items paired with their keys are in order. *)
Definition keys_le {A} (p q : spec_float * A) : Prop :=
  Float.leb (fst p) (fst q) = true.

(** [l] is in ascending order of the keys of its items. *)
Definition ascending {A} (key : A -> result spec_float) (l : list A) : Prop :=
  StronglySorted
    (fun a b => Float.leb (key_value (key a)) (key_value (key b)) = true) l.

(** *** The trace of a refresh *)

(** The titles searched at the movie provider, in the order of the
    requests. *)
Definition searched_movies (t : list event) : list string :=
  flat_map (fun e => match e with SearchMovie s => [s] | _ => [] end) t.

(** The show names searched at the show provider. *)
Definition searched_shows (t : list event) : list string :=
  flat_map (fun e => match e with SearchShows s => [s] | _ => [] end) t.


(** An event other than a search at a provider. *)
Definition no_search (e : event) : Prop :=
  match e with
  | SearchMovie _ | SearchShows _ => False
  | _ => True
  end.

Section StoreVocabulary.

Context {codec : JsonCodec}.

(** The store [load_library] makes of the document [d]: the dictionary the
    document holds, or the empty dictionary when the document is not
    JSON. *)
Definition loads_as (d : document) (store : gmap string pyval) : Prop :=
  json_load d = Ok (PDict store) \/
  (json_load d = Raise JSONDecodeError /\ store = ∅).

End StoreVocabulary.

Section TraceVocabulary.

Context {codec : JsonCodec}.

(** From [w] to [w'] the movie provider was searched for [ms] and the
    show provider for [ss], in this order each, and the progress dialog
    was left as it was. *)
Definition searched_between (ms ss : list string) (w w' : window) : Prop :=
  searched_movies (trace w') = (searched_movies (trace w) ++ ms)%list /\
  searched_shows (trace w') = (searched_shows (trace w) ++ ss)%list /\
  dialog_closes_after w' = dialog_closes_after w.

(** A method that searches at no provider and leaves the dialog alone,
    whether it returns or raises. *)
Definition quiet {A} (m : M A) : Prop :=
  forall w, searched_between [] [] w (snd (m w)).

End TraceVocabulary.

(** ** Example data *)

Module Examples.

(** A videos directory with movies at three depths, a show with a season
    directory and a file of its own, and a show without videos. *)
Definition movies : list (string * node) :=
  [("Heat.mp4", File);
   ("notes.txt", File);
   ("Classics", Dir [("Alien.MKV", File);
                     ("cover.jpg", File);
                     ("Old", Dir [("Metropolis.webm", File)])]);
   ("Broken.avi", Other)].

Definition shows : list (string * node) :=
  [("Show", Dir [("Season 2", Dir [("ep.mp4", File)]);
                 ("direct.mkv", File);
                 ("Season 7", Dir [("readme.txt", File)])]);
   ("Empty", Dir [("Season 1", Dir [])])].

Definition files (file : option text_document) : filesystem :=
  {| metadata_file := file; movies_dir := movies; shows_dir := shows;
     cache_files := ∅ |}.

(** A window before its first load. *)
Definition start (file : option text_document) : window :=
  {| videos_dir := "/home/u/Videos"; cache_dir := "/home/u/.cache/videoh";
     disk := files file; self_metadata := PDict ∅; self_movies := [];
     self_shows := []; dialog_closes_after := None; trace := [] |}.

(** The show record and the episode record of the merge example. *)
Definition show_record : gmap string pyval :=
  {["genres" := PList [PStr "A"]]}.

Definition episode_record : gmap string pyval :=
  <["is_episode" := PBool true]>
    (<["show_name" := PStr "X"]> {["title" := PStr "Ep1"]}).

Definition merged_record : gmap string pyval :=
  <["genres" := PList [PStr "A"]]>
    (<["is_episode" := PBool true]>
       (<["show_name" := PStr "X"]> {["title" := PStr "Ep1"]})).

Definition store : gmap string pyval :=
  <["show:X" := PDict show_record]>
    {["/home/u/Videos/Shows/X/ep1.mp4" := PDict episode_record]}.


(** The window after its start on a disk without metadata file. *)
Definition started : @window reference_codec :=
  snd (init_library (start None)).

(** The window after the user has typed a text into the rating field of
    the movie [Heat.mp4]. *)
Definition rating_edited : @window reference_codec :=
  snd (update_metadata "/home/u/Videos/Movies/Heat.mp4"
         (PDict {["rating" := PStr "N/A"]}) started).

(** Three movies: rated 7.5, not rated, rated 3. *)
Definition rated_movies : list media :=
  [{| path := "/m/a.mp4"; title := "a"; season := None;
      metadata := PDict {["rating" := PFloat (S754_finite false 8444249301319680 (-50))]} |};
   {| path := "/m/b.mp4"; title := "b"; season := None; metadata := PDict ∅ |};
   {| path := "/m/c.mp4"; title := "c"; season := None;
      metadata := PDict {["rating" := PInt 3]} |}].

(** A movie provider that fails on the first movie of the example disk
    and finds nothing for the others, a show provider that always
    fails, and a network that is down. *)
Definition flaky_imdb : imdb_api :=
  {| search_movie t :=
       if String.eqb t "Heat" then Raise (RequestError "timeout") else Ok [];
     get_movie _ := Raise (RequestError "timeout") |}.

Definition failing_tvmaze : tvmaze_api :=
  {| search_shows _ := Raise (RequestError "unreachable");
     get_show_episodes _ := Raise (RequestError "unreachable") |}.

Definition no_network (url : string) : result (result unit) :=
  Raise (RequestError "unreachable").

(** A text form for the values the model does not print. *)
Definition repr (v : pyval) : string := "?".

End Examples.

(** ** Further methods of the window *)

(** *** [VideohWindow._title_matches] *)

(** [''.join(c for c in title if c.isalnum())] *)
Fixpoint clean_title (title : string) : string :=
  match title with
  | EmptyString => EmptyString
  | String c s =>
      if PyStr.isalnum c then String c (clean_title s) else clean_title s
  end.

Definition _title_matches (file_title imdb_title : string) : bool :=
  String.eqb (clean_title file_title) (clean_title imdb_title).

(** *** [VideohWindow.edit_metadata] *)

(** [v.copy()]: a [dict] and a [list] have the method; the values of the
    model are immutable, so the copy is the value. *)
Definition py_copy (v : pyval) : result pyval :=
  match v with
  | PDict _ | PList _ => Ok v
  | _ => Raise AttributeError
  end.

Section Editing.

Context {codec : JsonCodec}.
#[local] Open Scope method_scope.

(** The handler [on_response] of the edit dialog; [new_value] is the text
    of the entry when the user answers.  Closing the dialog belongs to the
    toolkit. *)
Definition edit_metadata_on_response (movie : media) (key : string)
    (response new_value : string) : M unit :=
  if String.eqb response "save" then
    metadata <- lift (py_copy (metadata movie)) ;;
    metadata' <- lift (Py.setitem metadata key (PStr new_value)) ;;
    update_metadata (path movie) metadata'
  else ret tt.

End Editing.

(** *** [VideohWindow.populate_ui]: the record shown on a show card *)

(** [next] on an iterator that is at its end raises [StopIteration], which
    no other method of the window meets. *)
Inductive ui_exn :=
| StopIteration
| Exn (e : exn).

(** [next(iter(seasons.values()))[0]] *)
Definition first_episode (seasons : seasons_dict) : ui_exn + media :=
  match seasons with
  | [] => inl StopIteration
  | (_, first_season) :: _ =>
      match first_season with
      | [] => inl (Exn IndexError)
      | episode :: _ => inr episode
      end
  end.

(** The [show_metadata] handed to [create_poster_card]: the record under
    [show:<name>], or, when that is missing or empty, the record of the
    first episode of the first season. *)
Definition show_card_metadata (self_metadata : pyval) (show_name : string)
    (seasons : seasons_dict) : ui_exn + pyval :=
  match Py.get self_metadata ("show:" +:+ show_name) (PDict ∅) with
  | Raise e => inl (Exn e)
  | Ok show_metadata =>
      if negb (Py.truthy show_metadata) then
        match first_episode seasons with
        | inl e => inl e
        | inr episode => inr (metadata episode)
        end
      else inr show_metadata
  end.

(** *** [VideohWindow.on_search_changed]: the two tests *)

(** [v.lower()]: a method of [str]. *)
Definition py_lower (v : pyval) : result string :=
  match v with
  | PStr s => Ok (PyStr.lower s)
  | _ => Raise AttributeError
  end.

(** [[g.lower() for g in v]].  Iterating a string gives its characters,
    iterating a dict its keys; the order of the keys plays no part in
    [any]. *)
Definition lowered (v : pyval) : result (list string) :=
  match v with
  | PList l => rmap py_lower l
  | PStr s => Ok (map (fun c => PyStr.lower (String c "")) (list_ascii_of_string s))
  | PDict d => Ok (map (fun kv => PyStr.lower (fst kv)) (map_to_list d))
  | _ => Raise TypeError
  end.

(** [genres = [g.lower() for g in record.get('genres', [])]], then
    [any(search_text in genre for genre in genres)] *)
Definition genre_search (search_text : string) (record : pyval) : result bool :=
  (genres <- Py.get record "genres" (PList []) ;;
   genres' <- lowered genres ;;
   Ok (existsb (contains search_text) genres'))%result.

(** [title = metadata.get('title', movie['title']).lower()], then
    [search_text in title] *)
Definition title_search (search_text : string) (movie : media) : result bool :=
  (shown <- Py.get (metadata movie) "title" (PStr (title movie)) ;;
   shown' <- py_lower shown ;;
   Ok (contains search_text shown'))%result.

(** The test that decides whether [_add_movie_to_ui(movie)] is called;
    [search_text] is the lower-cased text of the entry, [search_mode] is 0
    for the title and 1 for the genre. *)
Definition movie_found (search_text : string) (search_mode : nat)
    (movie : media) : result bool :=
  match search_mode with
  | O => title_search search_text movie
  | _ => genre_search search_text (metadata movie)
  end.

(** The test that decides whether [_add_show_to_ui] is called. *)
Definition show_found (self_metadata : pyval) (search_text : string)
    (search_mode : nat) (show_name : string) : result bool :=
  (show_metadata <- Py.get self_metadata ("show:" +:+ show_name) (PDict ∅) ;;
   match search_mode with
   | O => Ok (contains search_text (PyStr.lower show_name))
   | _ => genre_search search_text show_metadata
   end)%result.

(** *** [VideohWindow.on_view_sorting], sorting by title *)

(** [sorted(items, key=key_func)] for keys that are strings: [<] on [str]
    compares character by character, by code, a proper prefix coming
    first, which is [String.ltb].  The sort is stable; the order being
    total, every stable sort gives this result. *)
Fixpoint insert_titled {A} (kx : string) (x : A)
    (l : list (string * A)) : list (string * A) :=
  match l with
  | [] => [(kx, x)]
  | (ky, y) :: l' =>
      if String.ltb ky kx then (ky, y) :: insert_titled kx x l'
      else (kx, x) :: (ky, y) :: l'
  end.

Definition sort_titled {A} (l : list (string * A)) : list (string * A) :=
  fold_right (fun kx acc => insert_titled (fst kx) (snd kx) acc) [] l.

Definition sorted_titled {A} (items : list A) (key_func : A -> result string)
    : result (list A) :=
  (keys <- rmap key_func items ;;
   Ok (map snd (sort_titled (combine keys items))))%result.

(** [lambda x: x.get('metadata', {}).get('title', x['title']).lower()] *)
Definition movie_title_key (x : media) : result string :=
  (shown <- Py.get (metadata x) "title" (PStr (title x)) ;;
   py_lower shown)%result.

(** [lambda x: x[0].lower()] *)
Definition show_title_key (x : string * seasons_dict) : result string :=
  Ok (PyStr.lower (fst x)).

Section TitleSorting.

Context {codec : JsonCodec}.
#[local] Open Scope method_scope.

(** The branch [sort_type == 'az'] of [on_view_sorting]; the redraw that
    follows is not part of the model. *)
Definition on_view_sorting_az : M unit :=
  movies <- gets self_movies ;;
  movies' <- lift (sorted_titled movies movie_title_key) ;;
  modify (with_movies movies') ;;
  shows <- gets self_shows ;;
  shows' <- lift (sorted_titled shows show_title_key) ;;
  modify (with_shows (ODict.of_items shows')).

End TitleSorting.

(** ** Further vocabulary *)

(** The key of an entry whose key is computed; the empty text stands in
    otherwise. *)
Definition text_value (k : result string) : string :=
  match k with
  | Ok s => s
  | Raise _ => ""
  end.

(** Two items paired with their keys are in order. *)
Definition texts_le {A} (p q : string * A) : Prop :=
  String.leb (fst p) (fst q) = true.

(** [l] is in ascending order of the text keys of its items. *)
Definition title_ascending {A} (key : A -> result string) (l : list A) : Prop :=
  StronglySorted
    (fun a b => String.leb (text_value (key a)) (text_value (key b)) = true) l.

(** The key of the title sort is computed. *)
Definition has_text_key {A} (key : A -> result string) (x : A) : bool :=
  match key x with
  | Ok _ => true
  | Raise _ => false
  end.


(** A character a poster file name is made of. *)
Definition safe_char (c : ascii) : bool :=
  PyStr.isalnum c || Ascii.eqb c " " || Ascii.eqb c "-" || Ascii.eqb c "_".

(** [store.get(key, {})] of a store that is a dictionary. *)
Definition record_of (store : gmap string pyval) (key : string) : pyval :=
  match store !! key with
  | Some record => record
  | None => PDict ∅
  end.

(** The file [download_poster] keeps the poster of a title in. *)
Definition poster_file (cache : string) (movie_title : string) : string :=
  PurePath.joinpath (PurePath.joinpath cache "posters")
    (safe_title movie_title +:+ ".jpg").

(** The show map of a disk for a store that is a dictionary: what the loop
    of [load_library] over the show directories adds for one of them, and
    the map it ends with. *)
Definition add_show (store : gmap string pyval) (shows : shows_dict)
    (show_dir : dir_entry) : shows_dict :=
  if is_dir show_dir then
    match scan_show (PDict store) (iterdir show_dir) [] with
    | Ok (season :: seasons) => ODict.set (name show_dir) (season :: seasons) shows
    | _ => shows
    end
  else shows.

Definition show_catalog (store : gmap string pyval) (videos : string)
    (children : list (string * node)) : shows_dict :=
  fold_left (add_show store) (entries (PurePath.joinpath videos "Shows") children) [].



(** A value that is not a [dict]. *)
Definition not_dict (v : pyval) : bool :=
  match v with
  | PDict _ => false
  | _ => true
  end.

(** A value that is not a [str]. *)
Definition not_str (v : pyval) : bool :=
  match v with
  | PStr _ => false
  | _ => true
  end.

(** A field of a provider record that is present with a value of the
    wrong kind, [null] for one. *)
Definition present_but (wrong : pyval -> bool) (record : gmap string pyval)
    (key : string) : bool :=
  match record !! key with
  | Some v => wrong v
  | None => false
  end.

(** A show record of the provider in which [premiered] is not a string,
    or [rating], [network] or [image] is not an object. *)
Definition field_of_wrong_kind (show_data : gmap string pyval) : bool :=
  present_but not_str show_data "premiered" ||
  present_but not_dict show_data "rating" ||
  present_but not_dict show_data "network" ||
  present_but not_dict show_data "image".

(** The keys of the store that belong to a show: its own and the paths of
    its episodes. *)
Definition show_keys (show_name : string) (seasons : seasons_dict)
    (k : string) : Prop :=
  k = "show:" +:+ show_name \/
  exists season_num episodes e,
    In (season_num, episodes) seasons /\ In e episodes /\ k = path e.

(** The fields of the record [_fetch_show_metadata] writes for an
    episode. *)
Definition episode_fields : list string :=
  ["title"; "plot"; "air_date"; "season"; "episode"; "is_episode"; "show_name"].

(** The events of processing one movie. *)
Definition movie_event (e : event) : Prop :=
  match e with
  | SearchMovie _ | GetMovie _ | HttpGet _ | PrintError _ _ => True
  | _ => False
  end.

(** The events of processing one show. *)
Definition show_event (e : event) : Prop :=
  match e with
  | SearchShows _ | GetShowEpisodes _ | HttpGet _ | PrintError _ _ => True
  | _ => False
  end.

Section EventVocabulary.

Context {codec : JsonCodec}.

(** A method after which the window stands in the relation [R] to the
    window before it, whether the method returns or raises. *)
Definition ensures {A} (R : window -> window -> Prop) (m : M A) : Prop :=
  forall w, R w (snd (m w)).

(** A store that is a dictionary is one afterwards, with the records it
    had under the keys outside [K]. *)
Definition changes_only (K : string -> Prop) (w w' : window) : Prop :=
  forall store,
    self_metadata w = PDict store ->
    exists store',
      self_metadata w' = PDict store' /\
      forall k, ~ K k -> store' !! k = store !! k.

(** The trace has grown by events that satisfy [P]. *)
Definition adds_events (P : event -> Prop) (w w' : window) : Prop :=
  exists t, trace w' = (trace w ++ t)%list /\ Forall P t.

(** The window [load_library] leaves when the store it loaded is the
    dictionary [store]. *)
Definition loaded (store : gmap string pyval) (w : window) : window :=
  with_shows (show_catalog store (videos_dir w) (shows_dir (disk w)))
    (with_movies (movie_catalog store (videos_dir w) (movies_dir (disk w)))
       (with_metadata (PDict store) w)).

(** The window after [save_metadata] has written the store [store]. *)
Definition saved (store : gmap string pyval) (w : window) : window :=
  with_disk (write_metadata_file (json_dump (PDict store)) (disk w)) w.

End EventVocabulary.

(** ** Further example data *)

Module Cases.

(** A disk whose metadata document holds a JSON list. *)
Definition list_document : @window reference_codec :=
  Examples.start (Some (JsonText (PList []))).

(** The movie [Heat.mp4] of the example disk as the catalog lists it when
    its record holds a year. *)
Definition heat : media :=
  {| path := "/home/u/Videos/Movies/Heat.mp4"; title := "Heat"; season := None;
     metadata := PDict {["year" := PInt 1995]} |}.

(** A provider record of a show that no network carries. *)
Definition web_show : gmap string pyval :=
  <["name" := PStr "Show"]> (<["id" := PInt 7]> {["network" := PNone]}).

(** A provider record of a show without image. *)
Definition plain_show : gmap string pyval :=
  <["name" := PStr "Show"]> (<["id" := PInt 7]> {["premiered" := PStr "2001-09-01"]}).

(** A show directory with a video file of its own and a directory
    [Season 1]. *)
Definition pilot : dir_entry :=
  {| parent := "/home/u/Videos/Shows/Show"; name := "pilot.mkv"; target := File |}.

Definition season_1 : dir_entry :=
  {| parent := "/home/u/Videos/Shows/Show"; name := "Season 1";
     target := Dir [("ep.mp4", File)] |}.

(** A network that answers every request, with a body that can be read or
    with one that breaks off. *)
Definition network_up (url : string) : result (result unit) := Ok (Ok tt).

Definition network_breaks (url : string) : result (result unit) :=
  Ok (Raise (RequestError "connection reset")).

(** Three movies: one titled by its record, two by their file names. *)
Definition titled_movies : list media :=
  [{| path := "/m/z.mp4"; title := "zulu"; season := None; metadata := PDict ∅ |};
   {| path := "/m/b.mp4"; title := "x"; season := None;
      metadata := PDict {["title" := PStr "Bravo"]} |};
   {| path := "/m/a.mp4"; title := "alpha"; season := None; metadata := PDict ∅ |}].

(** The same with a movie whose record has [None] for its title. *)
Definition untitled_movies : list media :=
  titled_movies ++
  [{| path := "/m/n.mp4"; title := "n"; season := None;
      metadata := PDict {["title" := PNone]} |}].

Definition tvmaze_of (show_data : gmap string pyval) : tvmaze_api :=
  {| search_shows _ := Ok (PList [PDict {["show" := PDict show_data]}]);
     get_show_episodes _ := Raise (RequestError "unreachable") |}.

(** A movie provider that knows every title under the id 1 and has the
    year of it. *)
Definition imdb_1995 : imdb_api :=
  {| search_movie _ := Ok [ResultObject (PInt 1)];
     get_movie _ := Ok (PDict {["year" := PInt 1995]}) |}.

(** A window whose dialog the user closes after one movie. *)
Definition closing : @window reference_codec :=
  with_dialog (Some 1) Examples.started.

End Cases.

(** * Properties *)

(** ** Episode numbers *)

Section EpisodeNumberFacts.

Lemma length_append (s1 s2 : string) :
  String.length (s1 +:+ s2) = (String.length s1 + String.length s2)%nat.
Proof. induction s1 as [|c s1 IH]; simpl; [done | by rewrite IH]. Qed.

Lemma consumed_app (pre rest : string) :
  Re.consumed (pre +:+ rest) rest = pre.
Proof.
  unfold Re.consumed.
  induction pre as [|c pre IH]; simpl.
  - rewrite Nat.sub_diag. destruct rest; reflexivity.
  - rewrite length_append in *.
    replace (S (String.length pre + String.length rest) - String.length rest)%nat
      with (S (String.length pre + String.length rest - String.length rest))%nat by lia.
    simpl. f_equal. exact IH.
Qed.

(** A successful [p+] consumed a non-empty run of [p] and handed the rest
    to its continuation. *)
Lemma plus_some p s k g :
  Re.plus p s k = Some g ->
  exists pre rest,
    s = pre +:+ rest /\ pre <> "" /\ all_chars p pre = true /\ k rest = Some g.
Proof.
  revert g. induction s as [|c s IH]; simpl; intros g Hm; [discriminate|].
  destruct (p c) eqn:Hc; [|discriminate].
  destruct (Re.plus p s k) as [g'|] eqn:Hrec.
  - injection Hm as <-.
    destruct (IH g' eq_refl) as (pre & rest & -> & _ & Hall & Hk).
    exists (String c pre), rest. simpl. rewrite Hc, Hall. done.
  - exists (String c ""), s. simpl. rewrite Hc. done.
Qed.

Lemma int_digits_acc_some s :
  all_chars PyStr.isdigit s = true ->
  forall acc, exists n, PyStr.int_digits_acc acc s = Some n.
Proof.
  induction s as [|c s IH]; simpl; intros Hall acc; [eauto|].
  apply andb_prop in Hall as [Hc Hall]. rewrite Hc. apply IH, Hall.
Qed.

Lemma int_digits_some s :
  s <> "" -> all_chars PyStr.isdigit s = true ->
  exists n, PyStr.int_digits s = Some n.
Proof.
  intros Hne Hall. destruct s; [done|].
  unfold PyStr.int_digits. by apply int_digits_acc_some.
Qed.

(** Each of the three patterns, when it matches, captures digits in its
    group and in no group before it. *)
Lemma season_episode_groups s g :
  Re.match_here re_season_episode s = Some g ->
  exists ds, ds <> "" /\ all_chars PyStr.isdigit ds = true /\ g !! 1%nat = Some ds.
Proof.
  unfold Re.match_here, re_season_episode. simpl.
  destruct s as [|c s]; [discriminate|].
  destruct (Re.one_of "S" "s" c); [|discriminate].
  intros Hm. apply plus_some in Hm as (_ & rest & _ & _ & _ & Hk).
  destruct rest as [|c' rest]; [discriminate|].
  destruct (Re.one_of "E" "e" c'); [|discriminate].
  apply plus_some in Hk as (ds & rest' & -> & Hne & Hall & Hk).
  injection Hk as <-. exists ds. rewrite consumed_app.
  by rewrite lookup_insert_eq.
Qed.

Lemma episode_groups s g :
  Re.match_here re_episode s = Some g ->
  exists ds, ds <> "" /\ all_chars PyStr.isdigit ds = true /\
             g !! 1%nat = None /\ g !! 2%nat = Some ds.
Proof.
  unfold Re.match_here, re_episode. simpl.
  destruct s as [|c s]; [discriminate|].
  destruct (Re.one_of "E" "e" c); [|discriminate].
  intros Hk. apply plus_some in Hk as (ds & rest' & -> & Hne & Hall & Hk).
  injection Hk as <-. exists ds. rewrite consumed_app.
  repeat split; try done; by simplify_map_eq.
Qed.

Lemma trailing_groups s g :
  Re.match_here re_trailing s = Some g ->
  exists ds, ds <> "" /\ all_chars PyStr.isdigit ds = true /\
             g !! 1%nat = None /\ g !! 2%nat = None /\ g !! 3%nat = Some ds.
Proof.
  unfold Re.match_here, re_trailing. simpl.
  intros Hk. apply plus_some in Hk as (ds & rest' & -> & Hne & Hall & Hk).
  destruct (Re.at_end rest'); [|discriminate].
  injection Hk as <-. exists ds. rewrite consumed_app.
  repeat split; try done; by simplify_map_eq.
Qed.

Lemma episode_of_groups_here s g :
  episode_match_here s = Some g -> exists n, episode_of_groups g = Some n.
Proof.
  unfold episode_match_here, episode_of_groups, Re.group.
  destruct (Re.match_here re_season_episode s) as [g1|] eqn:H1.
  { intros [= <-]. apply season_episode_groups in H1 as (ds & Hne & Hall & ->).
    destruct ds; [done|]. cbn [or_str]. by apply int_digits_some. }
  destruct (Re.match_here re_episode s) as [g2|] eqn:H2.
  { intros [= <-]. apply episode_groups in H2 as (ds & Hne & Hall & -> & ->).
    destruct ds; [done|]. cbn [or_str]. by apply int_digits_some. }
  intros H3. apply trailing_groups in H3 as (ds & Hne & Hall & -> & -> & ->).
  destruct ds; [done|]. cbn [or_str]. by apply int_digits_some.
Qed.

Lemma match_here_alt r1 r2 s :
  Re.match_here (Re.RAlt r1 r2) s =
  match Re.match_here r1 s with
  | Some g => Some g
  | None => Re.match_here r2 s
  end.
Proof. reflexivity. Qed.

Lemma episode_regex_here s :
  Re.match_here episode_regex s = episode_match_here s.
Proof. reflexivity. Qed.

Lemma search_leftmost s :
  Re.search episode_regex s = episode_match_leftmost s.
Proof.
  induction s as [|c s IH]; cbn [Re.search episode_match_leftmost];
    rewrite episode_regex_here; destruct (episode_match_here _); done.
Qed.

Lemma leftmost_number s g :
  episode_match_leftmost s = Some g -> exists n, episode_of_groups g = Some n.
Proof.
  induction s as [|c s IH]; cbn [episode_match_leftmost];
    destruct (episode_match_here _) eqn:H; try done;
    intros [= <-]; by eapply episode_of_groups_here.
Qed.

Lemma search_none_alt r1 r2 s :
  Re.search (Re.RAlt r1 r2) s = None <->
  Re.search r1 s = None /\ Re.search r2 s = None.
Proof.
  induction s as [|c s IH]; cbn [Re.search]; rewrite match_here_alt;
    destruct (Re.match_here r1 _), (Re.match_here r2 _); try tauto;
    split; try done; intros [? ?]; done.
Qed.

End EpisodeNumberFacts.

(** C3, as stated, fails: the three patterns are one alternation, so the
    leftmost match wins whatever its pattern.  In ["Love2 S01E03"] the
    pattern [E<number>] matches ["e2"] before [S<season>E<number>] matches
    ["S01E03"]: the method returns 2, three searches in pattern order
    return 3. *)
Lemma episode_number_pattern_order_fails :
  _get_episode_number "Love2 S01E03" = Some 2%Z /\
  episode_number_in_pattern_order "Love2 S01E03" = Some 3%Z /\
  _get_episode_number "Love2 S01E03" <> episode_number_in_pattern_order "Love2 S01E03".
Proof. repeat split; try (vm_compute; reflexivity). vm_compute. discriminate. Qed.

(** On a name that still has its extension the trailing-digits pattern
    reads the digit of the extension. *)
Example episode_number_with_extension :
  _get_episode_number "Show 12.mp4" = Some 4%Z /\
  _get_episode_number "Show.mp4" = Some 4%Z.
Proof. split; vm_compute; reflexivity. Qed.

(** C3, amended: the extraction takes the leftmost position of the name at
    which [S<season>E<number>], [E<number>] or digits that reach the end
    matches, the three tried in this order at that position, and returns
    the number captured there; it returns no number exactly when none of
    the three patterns matches anywhere.  On the titles of the files
    ["Show S02E05.mp4"], ["Show E07.mkv"], ["Show 12.mp4"] and
    ["Show.mp4"], which are the names without extension, it returns 5, 7,
    12 and no number. *)
Theorem episode_number_leftmost_match :
  (forall s,
     _get_episode_number s =
     match episode_match_leftmost s with
     | Some g => episode_of_groups g
     | None => None
     end) /\
  (forall s,
     _get_episode_number s = None <->
     Re.search re_season_episode s = None /\
     Re.search re_episode s = None /\
     Re.search re_trailing s = None) /\
  _get_episode_number (PurePath.stem "Show S02E05.mp4") = Some 5%Z /\
  _get_episode_number (PurePath.stem "Show E07.mkv") = Some 7%Z /\
  _get_episode_number (PurePath.stem "Show 12.mp4") = Some 12%Z /\
  _get_episode_number (PurePath.stem "Show.mp4") = None.
Proof.
  split; [|split].
  - intros s. unfold _get_episode_number. by rewrite search_leftmost.
  - intros s. unfold _get_episode_number.
    destruct (Re.search episode_regex s) as [g|] eqn:Hs.
    + split.
      * intros Hnone. rewrite search_leftmost in Hs.
        apply leftmost_number in Hs as [n Hn]. congruence.
      * intros (H1 & H2 & H3).
        assert (Re.search episode_regex s = None) as Hnone; [|congruence].
        unfold episode_regex. rewrite !search_none_alt. done.
    + split; [|done]. intros _.
      unfold episode_regex in Hs. by rewrite !search_none_alt in Hs.
  - repeat split; vm_compute; reflexivity.
Qed.

(** ** Ordered dictionaries *)

Section ODictFacts.

Context {V : Type}.
Implicit Types (d : list (string * V)) (k : string) (v : V).

Lemma odict_in_set k v d k' v' :
  In (k', v') (ODict.set k v d) -> (k', v') = (k, v) \/ In (k', v') d.
Proof.
  induction d as [|[k0 v0] d IH]; simpl.
  - intros [H|[]]; auto.
  - destruct (String.eqb k0 k); simpl; intros [H|H]; auto.
    destruct (IH H); auto.
Qed.

Lemma odict_set_set k v1 v2 d :
  ODict.set k v2 (ODict.set k v1 d) = ODict.set k v2 d.
Proof.
  induction d as [|[k0 v0] d IH]; simpl.
  - by rewrite String.eqb_refl.
  - destruct (String.eqb k0 k) eqn:E; simpl.
    + by rewrite String.eqb_refl.
    + by rewrite E, IH.
Qed.

Lemma odict_get_in k v d : ODict.get k d = Some v -> In (k, v) d.
Proof.
  induction d as [|[k0 v0] d IH]; simpl; [done|].
  destruct (String.eqb k0 k) eqn:E.
  - apply String.eqb_eq in E as ->. intros [= ->]. by left.
  - intros H. right. by apply IH.
Qed.

Lemma odict_get_none k d : ODict.get k d = None -> ~ In k (ODict.keys d).
Proof.
  induction d as [|[k0 v0] d IH]; simpl; [tauto|].
  destruct (String.eqb k0 k) eqn:E; [done|].
  apply String.eqb_neq in E. intros H [?|?]; [done | by apply IH].
Qed.

Lemma odict_set_fresh k v d :
  ~ In k (ODict.keys d) -> ODict.set k v d = (d ++ [(k, v)])%list.
Proof.
  induction d as [|[k0 v0] d IH]; simpl; [done|].
  intros H. destruct (String.eqb k0 k) eqn:E.
  - apply String.eqb_eq in E. tauto.
  - rewrite IH; tauto.
Qed.

(** [dict(items)] of pairs with distinct keys lists them as they come. *)
Lemma odict_of_items_nodup_acc (items d : list (string * V)) :
  NoDup (ODict.keys (d ++ items)%list) ->
  fold_left (fun d kv => ODict.set (fst kv) (snd kv) d) items d = (d ++ items)%list.
Proof.
  revert d. induction items as [|[k v] items IH]; intros d Hnd; simpl.
  - by rewrite app_nil_r.
  - assert (~ In k (ODict.keys d)) as Hfresh.
    { unfold ODict.keys in *. rewrite map_app in Hnd. simpl in Hnd.
      apply NoDup_ListNoDup in Hnd. apply List.NoDup_remove_2 in Hnd.
      intros Hin. apply Hnd. apply in_or_app. by left. }
    rewrite odict_set_fresh by done.
    rewrite IH; rewrite <- app_assoc; done.
Qed.

Lemma odict_of_items_nodup (items : list (string * V)) :
  NoDup (ODict.keys items) -> ODict.of_items items = items.
Proof. intros H. unfold ODict.of_items. by rewrite odict_of_items_nodup_acc. Qed.

End ODictFacts.

(** ** The scanner on a store that is a dictionary *)

Section ScannerFacts.

Variable store : gmap string pyval.

Lemma media_data_dict f season_num :
  media_data (PDict store) f season_num = Ok (media_entry store season_num f).
Proof. reflexivity. Qed.

Lemma scan_episodes_dict season_num files episodes :
  scan_episodes (PDict store) season_num files episodes =
  Ok (episodes ++ map (media_entry store (Some season_num))
                      (List.filter is_video_file files))%list.
Proof.
  revert episodes. induction files as [|f files IH]; intros episodes; simpl.
  - by rewrite app_nil_r.
  - destruct (is_video_file f); simpl; rewrite IH; [|done].
    by rewrite <- app_assoc.
Qed.

(** The invariant of the loop over the items of a show directory. *)
Lemma scan_show_dict items :
  forall seen seasons,
    seasons_ok store seen seasons ->
    exists seasons',
      scan_show (PDict store) items seasons = Ok seasons' /\
      seasons_ok store (seen ++ items)%list seasons'.
Proof.
  induction items as [|item items IH]; intros seen seasons Hok.
  - exists seasons. split; [done|]. by rewrite app_nil_r.
  - assert (forall seasons1,
              seasons_ok store (seen ++ [item])%list seasons1 ->
              exists seasons',
                scan_show (PDict store) items seasons1 = Ok seasons' /\
                seasons_ok store (seen ++ item :: items)%list seasons') as Hnext.
    { intros seasons1 H1. destruct (IH _ _ H1) as (s' & Hs & Hs').
      exists s'. split; [done|]. by rewrite <- app_assoc in Hs'. }
    assert (seasons_ok store (seen ++ [item])%list seasons) as Hweak.
    { intros k eps Hin. destruct (Hok k eps Hin) as [Hne Hsrc].
      split; [done|]. intros e He.
      destruct (Hsrc e He) as [(it & f & ? & ?)|(it & ? & ?)];
        [left; exists it, f | right; exists it];
        (split; [apply in_or_app; by left | done]). }
    cbn [scan_show].
    destruct (is_season_dir item) eqn:Hseason.
    + rewrite scan_episodes_dict. cbn [rbind app].
      destruct (map _ (List.filter is_video_file (iterdir item))) as [|e0 eps0] eqn:Heps.
      * by apply Hnext.
      * apply Hnext. intros k eps Hin.
        apply odict_in_set in Hin as [[= -> ->]|Hin]; [|by apply Hweak].
        split; [done|]. intros e He. left.
        rewrite <- Heps in He. apply in_map_iff in He as (f & <- & Hf).
        apply filter_In in Hf as [Hf Hvid].
        exists item, f. repeat split; try done.
        apply in_or_app. right. by left.
    + destruct (is_video_file item) eqn:Hvideo; [|by apply Hnext].
      rewrite media_data_dict. cbn [rbind].
      apply Hnext. intros k eps Hin.
      assert (episode_source store (seen ++ [item])%list "1"
                (media_entry store (Some "1") item)) as Hnew.
      { right. exists item. repeat split; try done.
        apply in_or_app. right. by left. }
      unfold append_episode in Hin.
      destruct (ODict.get "1" seasons) as [old|] eqn:Hget.
      * rewrite Hget in Hin.
        apply odict_in_set in Hin as [[= -> ->]|Hin]; [|by apply Hweak].
        split; [by destruct old|]. intros e He.
        apply in_app_or in He as [He|[<-|[]]]; [|done].
        apply odict_get_in in Hget. by apply (Hweak "1" old Hget).
      * apply odict_get_none in Hget.
        rewrite odict_set_fresh in Hin by done.
        assert (ODict.get "1" (seasons ++ [("1", [])])%list = Some []) as Hget1.
        { rewrite <- (odict_set_fresh "1" [] seasons) by done.
          clear. induction seasons as [|[k0 v0] d IHd]; simpl; [done|].
          destruct (String.eqb k0 "1") eqn:E; simpl; by rewrite ?E. }
        rewrite Hget1 in Hin.
        rewrite <- (odict_set_fresh "1" [] seasons) in Hin by done.
        rewrite odict_set_set in Hin.
        apply odict_in_set in Hin as [[= -> ->]|Hin]; [|by apply Hweak].
        split; [done|]. by intros e [<-|[]].
Qed.

End ScannerFacts.

(** ** The methods of the store *)

Section StoreFacts.

Context {codec : JsonCodec}.

Lemma with_shows_same (w : window) : with_shows (self_shows w) w = w.
Proof. by destruct w. Qed.

(** A loop whose body cannot raise while the invariant [I] holds; [I] is
    indexed by the items already handled. *)
Lemma for_each_ok {A} (I : list A -> window -> Prop) (body : A -> M unit) l :
  (forall seen x w, I seen w ->
     exists w', body x w = (Ok tt, w') /\ I (seen ++ [x])%list w') ->
  forall seen w, I seen w ->
    exists w', for_each l body w = (Ok tt, w') /\ I (seen ++ l)%list w'.
Proof.
  intros Hbody. induction l as [|x l IH]; intros seen w HI.
  - exists w. by rewrite app_nil_r.
  - destruct (Hbody seen x w HI) as (w1 & Hx & HI1).
    destruct (IH _ _ HI1) as (w2 & Hl & HI2).
    exists w2. cbn [for_each]. unfold bind. rewrite Hx.
    split; [done|]. by rewrite <- app_assoc in HI2.
Qed.

Lemma load_metadata_loaded (w : window) d v :
  metadata_file (disk w) = Some d -> json_load d = Ok v ->
  load_metadata w = (Ok tt, with_metadata v w).
Proof.
  intros Hfile Hload.
  unfold load_metadata, try_except, bind, open_metadata_file, lift, modify.
  by rewrite Hfile, Hload.
Qed.

Lemma load_metadata_malformed (w : window) d :
  metadata_file (disk w) = Some d -> json_load d = Raise JSONDecodeError ->
  load_metadata w = (Ok tt, with_metadata (PDict ∅) w).
Proof.
  intros Hfile Hload.
  unfold load_metadata, try_except, bind, open_metadata_file, lift, modify.
  by rewrite Hfile, Hload.
Qed.

Lemma load_metadata_missing (w : window) :
  metadata_file (disk w) = None ->
  load_metadata w = (Raise FileNotFoundError, w).
Proof.
  intros Hfile.
  unfold load_metadata, try_except, bind, open_metadata_file, raise.
  by rewrite Hfile.
Qed.

Lemma scan_movies_loop store files :
  forall w : window,
    self_metadata w = PDict store ->
    for_each files (fun movie_file =>
      if is_video_file movie_file then
        bind (gets self_metadata) (fun self_metadata =>
        bind (lift (media_data self_metadata movie_file None)) (fun movie_data =>
        modify (fun w => with_movies (self_movies w ++ [movie_data]) w)))
      else ret tt) w =
    (Ok tt, with_movies (self_movies w ++
                         map (media_entry store None)
                             (List.filter is_video_file files)) w).
Proof.
  induction files as [|f files IH]; intros w Hmd; cbn [for_each].
  - unfold ret. cbn [List.filter map]. rewrite app_nil_r. by destruct w.
  - unfold bind at 1. cbn [List.filter].
    destruct (is_video_file f).
    + unfold bind, gets, lift, modify. rewrite Hmd, media_data_dict.
      fold (@bind codec). rewrite IH by done.
      cbn [self_movies with_movies map].
      by rewrite <- app_assoc.
    + unfold ret. by rewrite IH.
Qed.

Lemma scan_movies_dict (w : window) store :
  self_metadata w = PDict store ->
  scan_movies w =
  (Ok tt, with_movies (movie_catalog store (videos_dir w) (movies_dir (disk w))) w).
Proof.
  intros Hmd. unfold scan_movies.
  unfold bind at 1. unfold modify at 1.
  unfold bind at 1. unfold gets at 1.
  unfold bind at 1. unfold gets at 1.
  cbn [videos_dir disk with_movies].
  by rewrite (scan_movies_loop store).
Qed.

Lemma shows_ok_weaken store seen more shows :
  shows_ok store seen shows -> shows_ok store (seen ++ more)%list shows.
Proof.
  intros Hok show seasons Hin. destruct (Hok _ _ Hin) as (Hne & d & Hd & ?).
  split; [done|]. exists d. split; [|done]. apply in_or_app. by left.
Qed.

Lemma scan_shows_loop store show_dirs :
  forall seen (w : window),
    self_metadata w = PDict store ->
    shows_ok store seen (self_shows w) ->
    exists shows,
      for_each show_dirs (fun show_dir =>
        if is_dir show_dir then
          bind (gets self_metadata) (fun self_metadata =>
          bind (lift (scan_show self_metadata (iterdir show_dir) [])) (fun seasons =>
          match seasons with
          | [] => ret tt
          | _ => modify (fun w =>
                   with_shows (ODict.set (name show_dir) seasons (self_shows w)) w)
          end))
        else ret tt) w = (Ok tt, with_shows shows w) /\
      shows_ok store (seen ++ show_dirs)%list shows.
Proof.
  intros seen w Hmd Hok.
  match goal with |- exists _, for_each _ ?b _ = _ /\ _ => set (body := b) end.
  destruct (for_each_ok
    (fun seen w' => exists shows, w' = with_shows shows w /\ shows_ok store seen shows)
    body show_dirs) with (seen := seen) (w := w) as (w' & Hrun & shows & -> & Hok').
  - clear seen Hok. intros seen d w1 (shows & -> & Hok). subst body. cbn beta.
    destruct (is_dir d) eqn:Hdir.
    + unfold bind, gets, lift. cbn [self_metadata with_shows]. rewrite Hmd.
      destruct (scan_show_dict store (iterdir d) [] []) as (seasons & -> & Hseasons).
      { by intros k eps []. }
      destruct seasons as [|s0 seasons].
      * eexists. split; [reflexivity|]. exists shows. split; [done|].
        by apply shows_ok_weaken.
      * eexists. split; [reflexivity|]. eexists. split; [reflexivity|].
        cbn [self_shows with_shows].
        intros show ss Hin. apply odict_in_set in Hin as [[= -> ->]|Hin].
        -- split; [done|]. exists d.
           split; [apply in_or_app; right; by left|].
           split; [done|]. split; [done|]. exact Hseasons.
        -- by apply (shows_ok_weaken store seen [d] shows Hok).
    + eexists. split; [reflexivity|]. exists shows. split; [done|].
      by apply shows_ok_weaken.
  - exists (self_shows w). by rewrite with_shows_same.
  - by exists shows.
Qed.

Lemma scan_shows_dict (w : window) store :
  self_metadata w = PDict store ->
  exists shows,
    scan_shows w = (Ok tt, with_shows shows w) /\
    shows_ok store
      (entries (PurePath.joinpath (videos_dir w) "Shows") (shows_dir (disk w)))
      shows.
Proof.
  intros Hmd. unfold scan_shows.
  unfold bind at 1. unfold modify at 1.
  unfold bind at 1. unfold gets at 1.
  unfold bind at 1. unfold gets at 1.
  cbn [videos_dir disk with_shows].
  destruct (scan_shows_loop store
              (entries (PurePath.joinpath (videos_dir w) "Shows") (shows_dir (disk w)))
              [] (with_shows [] w)) as (shows & Hrun & Hok); [done | by intros ? ? [] |].
  exists shows. by rewrite Hrun.
Qed.

End StoreFacts.

Section LoadFacts.

Context {codec : JsonCodec}.

(** The catalog [load_library] leaves when the store it loaded is the
    dictionary [store]. *)
Lemma load_library_after_metadata (w : window) store :
  load_metadata w = (Ok tt, with_metadata (PDict store) w) ->
  exists shows,
    load_library w =
    (Ok tt,
     with_shows shows
       (with_movies (movie_catalog store (videos_dir w) (movies_dir (disk w)))
          (with_metadata (PDict store) w))) /\
    shows_ok store
      (entries (PurePath.joinpath (videos_dir w) "Shows") (shows_dir (disk w)))
      shows.
Proof.
  intros Hload. unfold load_library.
  unfold bind at 1. rewrite Hload.
  unfold bind at 1. rewrite (scan_movies_dict _ store) by done.
  destruct (scan_shows_dict
              (with_movies (movie_catalog store (videos_dir w) (movies_dir (disk w)))
                 (with_metadata (PDict store) w)) store eq_refl)
    as (shows & Hrun & Hok).
  exists shows. split; [|exact Hok]. exact Hrun.
Qed.

Lemma load_library_dict (w : window) d store :
  metadata_file (disk w) = Some d -> loads_as d store ->
  exists shows,
    load_library w =
    (Ok tt,
     with_shows shows
       (with_movies (movie_catalog store (videos_dir w) (movies_dir (disk w)))
          (with_metadata (PDict store) w))) /\
    shows_ok store
      (entries (PurePath.joinpath (videos_dir w) "Shows") (shows_dir (disk w)))
      shows.
Proof.
  intros Hfile [Hjson|[Hjson ->]]; apply load_library_after_metadata.
  - by apply load_metadata_loaded with d.
  - by apply load_metadata_malformed with d.
Qed.



Lemma update_metadata_dict (w : window) store file_path record :
  self_metadata w = PDict store ->
  let store' := <[file_path := record]> store in
  let w1 := with_disk (write_metadata_file (json_dump (PDict store')) (disk w))
              (with_metadata (PDict store') w) in
  exists shows,
    update_metadata file_path record w =
    (Ok tt,
     with_shows shows
       (with_movies (movie_catalog store' (videos_dir w) (movies_dir (disk w))) w1)) /\
    shows_ok store'
      (entries (PurePath.joinpath (videos_dir w) "Shows") (shows_dir (disk w)))
      shows.
Proof.
  intros Hmd store' w1.
  destruct (load_library_dict w1 (json_dump (PDict store')) store')
    as (shows & Hrun & Hok); [done | left; apply json_load_dump |].
  exists shows. split; [|exact Hok].
  unfold update_metadata, bind, gets, lift, modify, save_metadata.
  rewrite Hmd. cbn [Py.setitem]. exact Hrun.
Qed.

End LoadFacts.

(** ** The metadata store *)

(** C1: [update_metadata(key, record)] on a store that is a dictionary
    sets the key, writes the whole store to the metadata file and returns;
    a [load_library] that follows returns with a store that holds exactly
    [record] at [key]. *)
Theorem update_then_load_round_trip {codec : JsonCodec}
    (w : window) (store : gmap string pyval) (key : string) (record : pyval) :
  self_metadata w = PDict store ->
  exists w1 w2 store2,
    update_metadata key record w = (Ok tt, w1) /\
    self_metadata w1 = PDict (<[key := record]> store) /\
    metadata_file (disk w1) = Some (json_dump (PDict (<[key := record]> store))) /\
    load_library w1 = (Ok tt, w2) /\
    self_metadata w2 = PDict store2 /\
    store2 !! key = Some record.
Proof.
  intros Hmd.
  destruct (update_metadata_dict w store key record Hmd) as (shows & Hupd & _).
  cbv zeta in Hupd.
  eexists. destruct (load_library_dict
    (with_shows shows
       (with_movies (movie_catalog (<[key:=record]> store) (videos_dir w) (movies_dir (disk w)))
          (with_disk (write_metadata_file (json_dump (PDict (<[key:=record]> store))) (disk w))
             (with_metadata (PDict (<[key:=record]> store)) w))))
    (json_dump (PDict (<[key:=record]> store))) (<[key:=record]> store))
    as (shows2 & Hload & _); [done | left; apply json_load_dump |].
  eexists. exists (<[key := record]> store).
  split; [exact Hupd|]. split; [done|]. split; [done|].
  split; [exact Hload|]. split; [done|]. apply lookup_insert_eq.
Qed.

(** The round trip on the example disk, from an empty store. *)
Lemma update_then_load_round_trip_witness :
  exists w1 w2 store2,
    update_metadata "/home/u/Videos/Movies/Heat.mp4"
      (PDict {["title" := PStr "Heat"]}) (Examples.start None) = (Ok tt, w1) /\
    self_metadata w1 =
      PDict (<["/home/u/Videos/Movies/Heat.mp4" := PDict {["title" := PStr "Heat"]}]> ∅) /\
    metadata_file (disk w1) =
      Some (json_dump
              (PDict (<["/home/u/Videos/Movies/Heat.mp4" := PDict {["title" := PStr "Heat"]}]> ∅))) /\
    load_library w1 = (Ok tt, w2) /\
    self_metadata w2 = PDict store2 /\
    store2 !! "/home/u/Videos/Movies/Heat.mp4" = Some (PDict {["title" := PStr "Heat"]}).
Proof.
  apply (update_then_load_round_trip (Examples.start None) ∅). reflexivity.
Defined.






(** ** The merged read of an episode *)

(** C4: for an episode record whose [is_episode] flag is set, the merged
    read returns the show record stored under the key [show:<show_name>]
    (the empty record when there is none) overlaid by the episode record:
    a key of the episode record keeps the episode's value, any other key
    has the show's value. *)
Theorem merged_episode_read (repr : pyval -> string)
    (store episode show : gmap string pyval)
    (episode_path : string) (flag show_name : pyval) :
  store !! episode_path = Some (PDict episode) ->
  episode !! "is_episode" = Some flag ->
  Py.truthy flag = true ->
  show_name = match episode !! "show_name" with Some v => v | None => PNone end ->
  match store !! ("show:" +:+ Py.str repr show_name) with
  | Some record => record
  | None => PDict ∅
  end = PDict show ->
  exists merged,
    get_episode_metadata repr (PDict store) episode_path = Ok (PDict merged) /\
    forall k,
      merged !! k = match episode !! k with
                    | Some v => Some v
                    | None => show !! k
                    end.
Proof.
  intros Hep Hflag Htrue Hname Hshow.
  exists (episode ∪ show). split.
  - unfold get_episode_metadata. cbn [Py.get rbind].
    rewrite Hep. cbn [rbind Py.get]. rewrite Hflag, Htrue.
    cbn [rbind]. rewrite <- Hname, Hshow. reflexivity.
  - intros k. rewrite lookup_union.
    destruct (episode !! k), (show !! k); reflexivity.
Qed.

(** The example of the specification: the show record [{genres: [A]}] at
    [show:X] and the episode record [{is_episode: true, show_name: "X",
    title: "Ep1"}]. *)
Lemma merged_episode_read_witness :
  get_episode_metadata Examples.repr (PDict Examples.store)
    "/home/u/Videos/Shows/X/ep1.mp4" = Ok (PDict Examples.merged_record).
Proof.
  destruct (merged_episode_read Examples.repr Examples.store
              Examples.episode_record Examples.show_record
              "/home/u/Videos/Shows/X/ep1.mp4" (PBool true) (PStr "X")
              eq_refl eq_refl eq_refl eq_refl eq_refl) as (merged & Hread & Hkeys).
  rewrite Hread. do 2 f_equal. apply map_eq. intros k. rewrite Hkeys.
  unfold Examples.merged_record, Examples.episode_record, Examples.show_record.
  destruct (decide (k = "genres")) as [->|?]; [reflexivity|].
  rewrite (lookup_insert_ne _ "genres" k) by done.
  rewrite (lookup_singleton_ne "genres" k) by done.
  by destruct (_ !! k).
Defined.

(** ** The movie scan *)

Section WalkFacts.

Lemma append_cons (c : ascii) (a b : string) :
  String c a +:+ b = String c (a +:+ b).
Proof. reflexivity. Qed.















End WalkFacts.



(** ** The show scan *)

Section SeasonFacts.








Lemma episode_source_item store items k e :
  episode_source store items k e ->
  exists item, In item items /\ season_source item k = true.
Proof.
  unfold season_source, season_with_video.
  intros [(item & f & Hin & Hdir & Hk & Hf & Hvid & _)|(item & Hin & Hdir & Hvid & -> & _)];
    exists item; (split; [done|]).
  - rewrite Hdir, Hk, String.eqb_refl. cbn [andb].
    rewrite orb_true_iff, andb_true_r. left. apply existsb_exists. eauto.
  - rewrite Hdir, Hvid. cbn. by rewrite ?orb_true_r.
Qed.

End SeasonFacts.


(** C10: after a load, every show of the show map has a season, every
    season has an episode, every season of a show is backed by an entry of
    the show directory that holds a video file (a season directory with a
    video file in it, or a video file of the show directory itself), and a
    show name none of whose directories holds such a file is not in the
    map. *)
Theorem catalog_has_no_empty_entry {codec : JsonCodec}
    (w : window) (d : document) (store : gmap string pyval) :
  metadata_file (disk w) = Some d ->
  loads_as d store ->
  exists w',
    load_library w = (Ok tt, w') /\
    (forall show seasons,
       In (show, seasons) (self_shows w') ->
       seasons <> [] /\
       (forall k episodes, In (k, episodes) seasons -> episodes <> []) /\
       exists show_dir,
         In show_dir (entries (PurePath.joinpath (videos_dir w) "Shows")
                              (shows_dir (disk w))) /\
         is_dir show_dir = true /\ name show_dir = show /\
         forall k episodes,
           In (k, episodes) seasons ->
           exists item, In item (iterdir show_dir) /\ season_source item k = true) /\
    (forall show,
       (forall show_dir,
          In show_dir (entries (PurePath.joinpath (videos_dir w) "Shows")
                               (shows_dir (disk w))) ->
          name show_dir = show -> no_video show_dir = true) ->
       ~ In show (ODict.keys (self_shows w'))).
Proof.
  intros Hfile Hjson.
  destruct (load_library_dict w d store Hfile Hjson) as (shows & Hrun & Hok).
  eexists. split; [exact Hrun|]. cbn [self_shows with_shows].
  assert (forall show seasons,
            In (show, seasons) shows ->
            seasons <> [] /\
            (forall k episodes, In (k, episodes) seasons -> episodes <> []) /\
            exists show_dir,
              In show_dir (entries (PurePath.joinpath (videos_dir w) "Shows")
                                   (shows_dir (disk w))) /\
              is_dir show_dir = true /\ name show_dir = show /\
              forall k episodes,
                In (k, episodes) seasons ->
                exists item, In item (iterdir show_dir) /\ season_source item k = true)
    as Hall.
  { intros show seasons Hshow.
    destruct (Hok _ _ Hshow) as (Hne & show_dir & Hdir & Hisdir & Hname & Hseasons).
    split; [done|]. split; [intros k eps Hk; by apply (Hseasons k eps)|].
    exists show_dir. repeat (split; [done|]).
    intros k eps Hk. destruct (Hseasons _ _ Hk) as [Heps Hsrc].
    destruct eps as [|e eps]; [done|].
    eapply episode_source_item, Hsrc. by left. }
  split; [exact Hall|].
  intros show Hnone Hkey. unfold ODict.keys in Hkey.
  apply in_map_iff in Hkey as ([show' seasons] & Hfst & Hin). cbn in Hfst. subst show'.
  destruct (Hall _ _ Hin) as (Hne & _ & show_dir & Hdir & _ & Hname & Hsrc).
  destruct seasons as [|[k eps] seasons]; [done|].
  destruct (Hsrc k eps) as (item & Hitem & Hsource); [by left|].
  specialize (Hnone show_dir Hdir Hname). unfold no_video in Hnone.
  rewrite forallb_forall in Hnone. specialize (Hnone item Hitem).
  unfold season_source in Hsource.
  apply andb_prop in Hnone as [Hn1 Hn2].
  apply negb_true_iff in Hn1, Hn2. rewrite Hn1, Hn2 in Hsource. done.
Qed.

(** On the example disk the show [Empty], whose only season directory is
    empty, is left out, and [Season 7], which holds no video, gives the
    show [Show] no season. *)
Lemma catalog_has_no_empty_entry_witness :
  (exists w',
     load_library (Examples.start (Some (JsonText (PDict ∅)))) = (Ok tt, w') /\
     (forall show seasons,
        In (show, seasons) (self_shows w') ->
        seasons <> [] /\
        (forall k episodes, In (k, episodes) seasons -> episodes <> []) /\
        exists show_dir,
          In show_dir (entries "/home/u/Videos/Shows" Examples.shows) /\
          is_dir show_dir = true /\ name show_dir = show /\
          forall k episodes,
            In (k, episodes) seasons ->
            exists item, In item (iterdir show_dir) /\ season_source item k = true) /\
     (forall show,
        (forall show_dir,
           In show_dir (entries "/home/u/Videos/Shows" Examples.shows) ->
           name show_dir = show -> no_video show_dir = true) ->
        ~ In show (ODict.keys (self_shows w')))) /\
  ODict.keys (self_shows (snd (load_library
    (Examples.start (Some (JsonText (PDict ∅))))))) = ["Show"] /\
  ODict.keys match self_shows (snd (load_library
                 (Examples.start (Some (JsonText (PDict ∅)))))) with
             | (_, seasons) :: _ => seasons
             | [] => []
             end = ["2"; "1"].
Proof.
  split.
  - apply (catalog_has_no_empty_entry (Examples.start (Some (JsonText (PDict ∅))))
             (JsonText (PDict ∅)) ∅ eq_refl (or_introl eq_refl)).
  - split; vm_compute; reflexivity.
Defined.

(** ** Sorting by rating *)

Section FloatOrder.

#[local] Ltac compare_cases :=
  repeat match goal with
  | |- context [Z.compare ?a ?b] => destruct (Z.compare_spec a b); subst
  | |- context [Pos.compare_cont Eq ?a ?b] =>
      change (Pos.compare_cont Eq a b) with (Pos.compare a b);
      destruct (Pos.compare_spec a b); subst
  | H : context [Z.compare ?a ?b] |- _ => destruct (Z.compare_spec a b); subst
  | H : context [Pos.compare_cont Eq ?a ?b] |- _ =>
      change (Pos.compare_cont Eq a b) with (Pos.compare a b) in H;
      destruct (Pos.compare_spec a b); subst
  end.

Lemma float_leb_trans a b c :
  Float.leb a b = true -> Float.leb b c = true -> Float.leb a c = true.
Proof.
  unfold Float.leb, SFleb, SFcompare.
  destruct a as [[]|[]| |[] ma ea], b as [[]|[]| |[] mb eb],
           c as [[]|[]| |[] mc ec];
    cbn; intros H1 H2; try discriminate; try reflexivity;
    compare_cases; cbn in *; try discriminate; try reflexivity; try lia.
Qed.

Lemma float_not_ltb_leb a b :
  Float.is_nan a = false -> Float.is_nan b = false ->
  Float.ltb b a = false -> Float.leb a b = true.
Proof.
  unfold Float.leb, Float.ltb, SFleb, SFltb, SFcompare.
  destruct a as [[]|[]| |[] ma ea], b as [[]|[]| |[] mb eb];
    cbn; intros H1 H2 H3; try discriminate; try reflexivity;
    compare_cases; cbn in *; try discriminate; try reflexivity; try lia.
Qed.

Lemma float_ltb_leb a b : Float.ltb a b = true -> Float.leb a b = true.
Proof.
  unfold Float.leb, Float.ltb, SFleb, SFltb.
  by destruct (SFcompare a b) as [[]|].
Qed.

End FloatOrder.

Section SortFacts.

Context {A : Type}.
Implicit Types (l : list (spec_float * A)).

Lemma insert_keyed_perm kx (x : A) l :
  Permutation (insert_keyed kx x l) ((kx, x) :: l).
Proof.
  induction l as [|[ky y] l IH]; cbn [insert_keyed]; [done|].
  destruct (Float.ltb ky kx); [|done].
  rewrite IH. apply perm_swap.
Qed.

Lemma sort_keyed_perm l : Permutation (sort_keyed l) l.
Proof.
  induction l as [|[k x] l IH]; cbn [sort_keyed fold_right]; [done|].
  cbn [fst snd]. fold (sort_keyed l). rewrite insert_keyed_perm. by constructor.
Qed.

Lemma insert_keyed_sorted kx (x : A) l :
  Float.is_nan kx = false ->
  Forall (fun p => Float.is_nan (fst p) = false) l ->
  StronglySorted keys_le l ->
  StronglySorted keys_le (insert_keyed kx x l).
Proof.
  intros Hkx Hnan Hsorted.
  induction l as [|[ky y] l IH]; cbn [insert_keyed].
  - repeat constructor.
  - apply StronglySorted_inv in Hsorted as [Hs Hall].
    apply Forall_cons_1 in Hnan as [Hky Hnan]. cbn [fst] in Hky.
    destruct (Float.ltb ky kx) eqn:Hlt.
    + constructor; [by apply IH|].
      apply Forall_forall. intros p Hp. apply list_elem_of_In in Hp.
      apply (Permutation_in _ (insert_keyed_perm kx x l)) in Hp.
      destruct Hp as [<-|Hp].
      * by apply float_ltb_leb.
      * rewrite Forall_forall in Hall. apply Hall. by apply list_elem_of_In.
    + assert (Float.leb kx ky = true) as Hle by by apply float_not_ltb_leb.
      constructor; [by constructor|].
      constructor; [done|].
      apply Forall_forall. intros p Hp. rewrite Forall_forall in Hall.
      unfold keys_le. cbn [fst]. eapply float_leb_trans; [exact Hle|].
      by apply Hall.
Qed.

Lemma sort_keyed_sorted l :
  Forall (fun p => Float.is_nan (fst p) = false) l ->
  StronglySorted keys_le (sort_keyed l).
Proof.
  induction l as [|[k x] l IH]; intros Hnan; cbn [sort_keyed fold_right];
    [constructor|].
  apply Forall_cons_1 in Hnan as [Hk Hnan]. fold (sort_keyed l).
  apply insert_keyed_sorted; [done | | by apply IH].
  apply Forall_forall. intros p Hp. apply list_elem_of_In in Hp.
  apply (Permutation_in _ (sort_keyed_perm l)) in Hp.
  rewrite Forall_forall in Hnan. apply Hnan. by apply list_elem_of_In.
Qed.

Variable key_func : A -> result spec_float.

Lemma rmap_usable (items : list A) :
  (forall x, In x items -> usable_key (key_func x) = true) ->
  rmap key_func items = Ok (map (fun x => key_value (key_func x)) items).
Proof.
  induction items as [|x items IH]; intros Hall; cbn [rmap map]; [done|].
  pose proof (Hall x (or_introl eq_refl)) as Hx.
  destruct (key_func x) as [k|e]; [|done]. cbn [rbind key_value].
  rewrite IH; [done|]. intros y Hy. apply Hall. by right.
Qed.

Lemma combine_keys (items : list A) :
  combine (map (fun x => key_value (key_func x)) items) items =
  map (fun x => (key_value (key_func x), x)) items.
Proof. induction items as [|x items IH]; cbn; [done | by rewrite IH]. Qed.

Lemma sorted_by_keys (l : list (spec_float * A)) :
  Forall (fun p => fst p = key_value (key_func (snd p))) l ->
  StronglySorted keys_le l ->
  ascending key_func (map snd l).
Proof.
  unfold ascending. induction l as [|p l IH]; intros Hkeys Hsorted; cbn [map];
    [constructor|].
  apply Forall_cons_1 in Hkeys as [Hp Hkeys].
  apply StronglySorted_inv in Hsorted as [Hs Hall].
  constructor; [by apply IH|].
  apply Forall_forall. intros y Hy. apply list_elem_of_In in Hy.
  apply in_map_iff in Hy as (q & <- & Hq).
  rewrite Forall_forall in Hall, Hkeys. apply list_elem_of_In in Hq.
  specialize (Hall q Hq). specialize (Hkeys q Hq).
  unfold keys_le in Hall. by rewrite Hp, Hkeys in Hall.
Qed.

(** [sorted] on items whose keys are all computed and none NaN. *)
Lemma sorted_usable (items : list A) :
  (forall x, In x items -> usable_key (key_func x) = true) ->
  exists items',
    sorted items key_func = Ok items' /\
    Permutation items' items /\
    ascending key_func items'.
Proof.
  intros Hall. unfold sorted. rewrite rmap_usable by done. cbn [rbind].
  rewrite combine_keys.
  set (keyed := map (fun x => (key_value (key_func x), x)) items).
  exists (map snd (sort_keyed keyed)). split; [done|].
  assert (map snd keyed = items) as Hsnd.
  { subst keyed. rewrite map_map. cbn [snd]. apply map_id. }
  split.
  - transitivity (map snd keyed); [apply Permutation_map, sort_keyed_perm|].
    by rewrite Hsnd.
  - apply sorted_by_keys.
    + apply Forall_forall. intros p Hp. apply list_elem_of_In in Hp.
      apply (Permutation_in _ (sort_keyed_perm keyed)) in Hp.
      subst keyed. by apply in_map_iff in Hp as (x & <- & _).
    + apply sort_keyed_sorted. apply Forall_forall. intros p Hp.
      apply list_elem_of_In in Hp. subst keyed.
      apply in_map_iff in Hp as (x & <- & Hx). cbn [fst].
      specialize (Hall x Hx). destruct (key_func x); [|done].
      by apply negb_true_iff in Hall.
Qed.

End SortFacts.

(** A rating that is missing or falsy ([None], [0], [0.0], [""], [[]])
    counts as [0.0]. *)
Lemma rating_key_missing (record : gmap string pyval) :
  match record !! "rating" with
  | Some rating => Py.truthy rating = false
  | None => True
  end ->
  rating_key (PDict record) = Ok Float.zero.
Proof.
  unfold rating_key. cbn [Py.get rbind].
  destruct (record !! "rating") as [rating|]; [|done].
  intros Hfalse. unfold Py.or. by rewrite Hfalse.
Qed.

(** C7, as stated, fails: a rating that is a text without a number makes
    [float] raise and the sort with it.  After the user has typed ["N/A"]
    into the rating of a movie, sorting by rating ends with [ValueError]
    and leaves the catalog as it was. *)
Lemma rating_sort_fails_on_text :
  on_view_sorting_rating Examples.rating_edited =
  (Raise ValueError, Examples.rating_edited).
Proof. vm_compute. reflexivity. Qed.

(** C7, amended: when every rating of the catalog is missing, falsy or
    converts to a float that is not NaN, sorting by rating returns, and
    movies and shows are each a rearrangement of the former list in
    ascending order of the rating, a missing or falsy rating counting as
    [0.0]. *)
Theorem rating_sort_ascending {codec : JsonCodec} (w : window) :
  (forall x, In x (self_movies w) -> usable_key (movie_rating_key x) = true) ->
  (forall x, In x (self_shows w) ->
             usable_key (show_rating_key (self_metadata w) x) = true) ->
  NoDup (ODict.keys (self_shows w)) ->
  (exists movies' shows',
     on_view_sorting_rating w = (Ok tt, with_shows shows' (with_movies movies' w)) /\
     Permutation movies' (self_movies w) /\
     ascending movie_rating_key movies' /\
     Permutation shows' (self_shows w) /\
     ascending (show_rating_key (self_metadata w)) shows') /\
  (forall record : gmap string pyval,
     match record !! "rating" with
     | Some rating => Py.truthy rating = false
     | None => True
     end ->
     rating_key (PDict record) = Ok Float.zero).
Proof.
  intros Hmovies Hshows Hnodup. split; [|exact rating_key_missing].
  destruct (sorted_usable movie_rating_key (self_movies w) Hmovies)
    as (movies' & Hsort1 & Hperm1 & Hasc1).
  destruct (sorted_usable (show_rating_key (self_metadata w)) (self_shows w) Hshows)
    as (shows' & Hsort2 & Hperm2 & Hasc2).
  exists movies', shows'.
  split; [|done].
  unfold on_view_sorting_rating, bind, gets, lift, modify.
  rewrite Hsort1. cbn [self_shows self_metadata with_movies]. rewrite Hsort2.
  rewrite odict_of_items_nodup; [done|].
  unfold ODict.keys. apply NoDup_ListNoDup.
  eapply Permutation_NoDup; [apply Permutation_map, Permutation_sym, Hperm2|].
  by apply NoDup_ListNoDup.
Qed.

(** Three movies rated 7.5, not rated and rated 3 come out as: not rated,
    3, 7.5. *)
Lemma rating_sort_ascending_witness :
  (exists movies' shows',
     on_view_sorting_rating (with_movies Examples.rated_movies (Examples.start None)) =
       (Ok tt, with_shows shows'
                 (with_movies movies'
                    (with_movies Examples.rated_movies (Examples.start None)))) /\
     Permutation movies' Examples.rated_movies /\
     ascending movie_rating_key movies' /\
     Permutation shows' [] /\
     ascending (show_rating_key (PDict ∅)) shows') /\
  map title (self_movies (snd (on_view_sorting_rating
     (with_movies Examples.rated_movies (Examples.start None))))) = ["b"; "c"; "a"].
Proof.
  split.
  - apply (rating_sort_ascending (with_movies Examples.rated_movies (Examples.start None))).
    + intros x [<-|[<-|[<-|[]]]]; vm_compute; reflexivity.
    + intros x [].
    + apply NoDup_nil_2.
  - vm_compute. reflexivity.
Defined.

(** ** The metadata refresh *)

Section RefreshFacts.

Context {codec : JsonCodec}.
Variable requests_get : string -> result (result unit).

Lemma searched_between_refl (w : window) : searched_between [] [] w w.
Proof. unfold searched_between. by rewrite !app_nil_r. Qed.

Lemma searched_between_trans ms1 ss1 ms2 ss2 (w1 w2 w3 : window) :
  searched_between ms1 ss1 w1 w2 -> searched_between ms2 ss2 w2 w3 ->
  searched_between (ms1 ++ ms2) (ss1 ++ ss2) w1 w3.
Proof.
  intros (Hm1 & Hs1 & Hd1) (Hm2 & Hs2 & Hd2). unfold searched_between.
  rewrite Hm2, Hm1, Hs2, Hs1, Hd2, Hd1, !app_assoc. done.
Qed.

Lemma quiet_ret {A} (a : A) : quiet (ret a).
Proof. intros w. apply searched_between_refl. Qed.

Lemma quiet_raise {A} e : quiet (@raise _ A e).
Proof. intros w. apply searched_between_refl. Qed.

Lemma quiet_lift {A} (r : result A) : quiet (lift r).
Proof. intros w. apply searched_between_refl. Qed.

Lemma quiet_gets {A} (f : window -> A) : quiet (gets f).
Proof. intros w. apply searched_between_refl. Qed.

Lemma quiet_modify (f : window -> window) :
  (forall w, trace (f w) = trace w /\
             dialog_closes_after (f w) = dialog_closes_after w) ->
  quiet (modify f).
Proof.
  intros Hf w. destruct (Hf w) as [Ht Hd]. unfold searched_between.
  cbn [modify snd]. by rewrite Ht, Hd, !app_nil_r.
Qed.

Lemma quiet_bind {A B} (m : M A) (f : A -> M B) :
  quiet m -> (forall a, quiet (f a)) -> quiet (bind m f).
Proof.
  intros Hm Hf w. unfold bind. specialize (Hm w).
  destruct (m w) as [[a|e] w1]; cbn [snd] in *; [|done].
  apply (searched_between_trans [] [] [] [] w w1); [done | apply Hf].
Qed.

Lemma quiet_try_except {A} (body : M A) (handler : exn -> M A) :
  quiet body -> (forall e, quiet (handler e)) -> quiet (try_except body handler).
Proof.
  intros Hm Hf w. unfold try_except. specialize (Hm w).
  destruct (body w) as [[a|e] w1]; cbn [snd] in *; [done|].
  apply (searched_between_trans [] [] [] [] w w1); [done | apply Hf].
Qed.

Lemma quiet_for_each {A} (l : list A) (body : A -> M unit) :
  (forall x, quiet (body x)) -> quiet (for_each l body).
Proof.
  intros Hbody. induction l as [|x l IH]; cbn [for_each];
    [apply quiet_ret | by apply quiet_bind].
Qed.

Lemma quiet_emit e : no_search e -> quiet (emit e).
Proof.
  intros He w. unfold searched_between, emit, modify. cbn [snd trace with_trace].
  unfold searched_movies, searched_shows. rewrite !flat_map_app.
  cbn [dialog_closes_after].
  destruct e; try done; cbn [flat_map app]; by rewrite ?app_nil_r.
Qed.

Lemma quiet_open_metadata_file : quiet open_metadata_file.
Proof.
  intros w. unfold open_metadata_file.
  destruct (metadata_file (disk w)); apply searched_between_refl.
Qed.

#[local] Ltac quiet_step :=
  first
    [ apply quiet_ret | apply quiet_raise | apply quiet_lift | apply quiet_gets
    | apply quiet_open_metadata_file
    | apply quiet_modify; intros ?; split; reflexivity
    | apply quiet_emit; exact I
    | apply quiet_bind; [|intros ?]
    | apply quiet_try_except; [|intros ?]
    | apply quiet_for_each; intros ?
    | match goal with
      | |- quiet (if ?b then _ else _) => destruct b
      | |- quiet (match ?x with _ => _ end) => destruct x
      end ].

Lemma quiet_load_library : quiet load_library.
Proof.
  unfold load_library, load_metadata, scan_movies, scan_shows.
  repeat quiet_step.
Qed.

Lemma quiet_update_metadata file_path metadata :
  quiet (update_metadata file_path metadata).
Proof.
  unfold update_metadata, save_metadata.
  repeat first [apply quiet_load_library | quiet_step].
Qed.

Lemma quiet_download_poster url movie_title :
  quiet (download_poster requests_get url movie_title).
Proof. unfold download_poster, download. repeat quiet_step. Qed.

#[local] Ltac quiet_auto :=
  repeat first
    [ apply quiet_update_metadata | apply quiet_download_poster | quiet_step ].

Lemma emit_then {A} e (k : unit -> M A) (w : window) :
  bind (emit e) k w = k tt (with_trace (trace w ++ [e]) w).
Proof. reflexivity. Qed.

Lemma searched_between_movie t (w : window) :
  searched_between [t] [] w (with_trace (trace w ++ [SearchMovie t]) w).
Proof.
  unfold searched_between, searched_movies, searched_shows.
  cbn [trace with_trace dialog_closes_after].
  by rewrite !flat_map_app.
Qed.

Lemma searched_between_show t (w : window) :
  searched_between [] [t] w (with_trace (trace w ++ [SearchShows t]) w).
Proof.
  unfold searched_between, searched_movies, searched_shows.
  cbn [trace with_trace dialog_closes_after].
  by rewrite !flat_map_app.
Qed.

(** The statements of the [try] search once for the movie, wherever they
    stop. *)
Lemma fetch_movie_body_searches imdb movie (w : window) :
  searched_between [title movie] [] w
    (snd (fetch_movie_body requests_get imdb movie w)).
Proof.
  unfold fetch_movie_body. rewrite emit_then.
  apply (searched_between_trans [title movie] [] [] [] w _ _
           (searched_between_movie (title movie) w)).
  match goal with |- searched_between [] [] ?w0 (snd (?m ?w0)) =>
    generalize w0; change (quiet m) end.
  quiet_auto.
Qed.

Lemma fetch_show_body_searches tvmaze show_name seasons (w : window) :
  searched_between [] [show_name] w
    (snd (fetch_show_body requests_get tvmaze show_name seasons w)).
Proof.
  unfold fetch_show_body. rewrite emit_then.
  apply (searched_between_trans [] [show_name] [] [] w _ _
           (searched_between_show show_name w)).
  match goal with |- searched_between [] [] ?w0 (snd (?m ?w0)) =>
    generalize w0; change (quiet m) end.
  quiet_auto. unfold fetch_episode. quiet_auto.
Qed.

Lemma print_error_between subject e (w : window) :
  searched_between [] [] w (with_trace (trace w ++ [PrintError subject e]) w).
Proof. apply (quiet_emit (PrintError subject e) I w). Qed.

(** [_fetch_movie_metadata] returns whatever happens inside its [try];
    an exception raised there is printed. *)
Lemma fetch_movie_returns imdb movie (w : window) :
  exists w',
    _fetch_movie_metadata requests_get imdb movie w = (Ok tt, w') /\
    searched_between [title movie] [] w w' /\
    forall e w1,
      fetch_movie_body requests_get imdb movie w = (Raise e, w1) ->
      w' = with_trace (trace w1 ++ [PrintError (title movie) e]) w1.
Proof.
  pose proof (fetch_movie_body_searches imdb movie w) as Hbody.
  unfold _fetch_movie_metadata, try_except.
  destruct (fetch_movie_body requests_get imdb movie w) as [[[]|e] w1];
    cbn [snd] in Hbody.
  - exists w1. split; [done|]. split; [done|]. intros ? ? [=].
  - eexists. split; [reflexivity|]. split.
    + apply (searched_between_trans [title movie] [] [] [] w w1 _ Hbody).
      apply print_error_between.
    + by intros ? ? [= <- <-].
Qed.

Lemma fetch_show_returns tvmaze show_name seasons (w : window) :
  exists w',
    _fetch_show_metadata requests_get tvmaze show_name seasons w = (Ok tt, w') /\
    searched_between [] [show_name] w w' /\
    forall e w1,
      fetch_show_body requests_get tvmaze show_name seasons w = (Raise e, w1) ->
      w' = with_trace (trace w1 ++ [PrintError show_name e]) w1.
Proof.
  pose proof (fetch_show_body_searches tvmaze show_name seasons w) as Hbody.
  unfold _fetch_show_metadata, try_except.
  destruct (fetch_show_body requests_get tvmaze show_name seasons w) as [[[]|e] w1];
    cbn [snd] in Hbody.
  - exists w1. split; [done|]. split; [done|]. intros ? ? [=].
  - eexists. split; [reflexivity|]. split.
    + apply (searched_between_trans [] [show_name] [] [] w w1 _ Hbody).
      apply print_error_between.
    + by intros ? ? [= <- <-].
Qed.

Lemma get_visible_open (w : window) :
  dialog_closes_after w = None -> get_visible w = (Ok true, w).
Proof. intros H. unfold get_visible. by rewrite H. Qed.

(** While the dialog stays open the loop over the movies reaches its
    end and has searched for every movie. *)
Lemma fetch_movies_all imdb movies :
  forall w : window,
    dialog_closes_after w = None ->
    exists w',
      fetch_movies requests_get imdb movies w = (Ok true, w') /\
      searched_between (map title movies) [] w w'.
Proof.
  induction movies as [|movie movies IH]; intros w Hopen; cbn [fetch_movies map].
  - exists w. split; [done|]. apply searched_between_refl.
  - unfold bind at 1. rewrite get_visible_open by done.
    destruct (fetch_movie_returns imdb movie w) as (w1 & Hrun & Hbetween & _).
    unfold bind. rewrite Hrun.
    destruct (IH w1) as (w2 & Hrest & Hbetween2).
    { destruct Hbetween as (_ & _ & ->). done. }
    exists w2. split; [exact Hrest|].
    apply (searched_between_trans [title movie] [] (map title movies) [] w w1 w2);
      done.
Qed.

Lemma fetch_shows_all tvmaze shows :
  forall w : window,
    dialog_closes_after w = None ->
    exists w',
      fetch_shows requests_get tvmaze shows w = (Ok true, w') /\
      searched_between [] (map fst shows) w w'.
Proof.
  induction shows as [|[show_name seasons] shows IH]; intros w Hopen;
    cbn [fetch_shows map fst].
  - exists w. split; [done|]. apply searched_between_refl.
  - unfold bind at 1. rewrite get_visible_open by done.
    destruct (fetch_show_returns tvmaze show_name seasons w)
      as (w1 & Hrun & Hbetween & _).
    unfold bind. rewrite Hrun.
    destruct (IH w1) as (w2 & Hrest & Hbetween2).
    { destruct Hbetween as (_ & _ & ->). done. }
    exists w2. split; [exact Hrest|].
    apply (searched_between_trans [] [show_name] [] (map fst shows) w w1 w2);
      done.
Qed.

(** With both providers enabled and the dialog left open, the thread
    body runs to its end. *)
Lemma fetch_metadata_async_completes imdb tvmaze (w : window) :
  dialog_closes_after w = None ->
  exists w1 w2,
    fetch_movies requests_get imdb (self_movies w) w = (Ok true, w1) /\
    fetch_shows requests_get tvmaze (self_shows w1) w1 = (Ok true, w2) /\
    fetch_metadata_async (Ok imdb) (Ok tvmaze) requests_get true true w =
    (Ok tt,
     with_trace
       (trace w2 ++ [FinishMetadataRefresh; CloseProgressDialog; CloseProgressDialog])
       (with_disk (write_metadata_file (json_dump (self_metadata w2)) (disk w2)) w2)).
Proof.
  intros Hopen.
  destruct (fetch_movies_all imdb (self_movies w) w Hopen) as (w1 & Hrun1 & Hb1).
  destruct (fetch_shows_all tvmaze (self_shows w1) w1) as (w2 & Hrun2 & Hb2).
  { destruct Hb1 as (_ & _ & ->). done. }
  exists w1, w2. split; [done|]. split; [done|].
  unfold fetch_metadata_async, try_except, bind, get_client, ret, gets.
  rewrite Hrun1, Hrun2.
  unfold save_metadata, emit, modify. cbn [trace with_trace with_disk].
  by rewrite <- !app_assoc.
Qed.

End RefreshFacts.

(** C8: while the progress dialog stays open, the loop over a batch of
    movies, and the loop over a batch of shows, reaches its end whatever
    the providers and the network answer or raise, and has searched for
    every item of the batch, in order; processing one item always returns,
    an exception raised while processing it being printed; and the thread
    body as a whole returns and posts the completion callback. *)
Theorem refresh_isolates_item_failures {codec : JsonCodec}
    (requests_get : string -> result (result unit))
    (imdb : imdb_api) (tvmaze : tvmaze_api) (w : window) :
  dialog_closes_after w = None ->
  (forall movies,
     exists w',
       fetch_movies requests_get imdb movies w = (Ok true, w') /\
       searched_movies (trace w') = (searched_movies (trace w) ++ map title movies)%list) /\
  (forall shows,
     exists w',
       fetch_shows requests_get tvmaze shows w = (Ok true, w') /\
       searched_shows (trace w') = (searched_shows (trace w) ++ map fst shows)%list) /\
  (forall movie,
     exists w',
       _fetch_movie_metadata requests_get imdb movie w = (Ok tt, w') /\
       forall e w1,
         fetch_movie_body requests_get imdb movie w = (Raise e, w1) ->
         w' = with_trace (trace w1 ++ [PrintError (title movie) e]) w1) /\
  (forall show_name seasons,
     exists w',
       _fetch_show_metadata requests_get tvmaze show_name seasons w = (Ok tt, w') /\
       forall e w1,
         fetch_show_body requests_get tvmaze show_name seasons w = (Raise e, w1) ->
         w' = with_trace (trace w1 ++ [PrintError show_name e]) w1) /\
  (exists w',
     fetch_metadata_async (Ok imdb) (Ok tvmaze) requests_get true true w = (Ok tt, w') /\
     In FinishMetadataRefresh (trace w') /\
     searched_movies (trace w') =
     (searched_movies (trace w) ++ map title (self_movies w))%list).
Proof.
  intros Hopen. repeat split.
  - intros movies.
    destruct (fetch_movies_all requests_get imdb movies w Hopen) as (w' & Hrun & Hb & _).
    by exists w'.
  - intros shows.
    destruct (fetch_shows_all requests_get tvmaze shows w Hopen) as (w' & Hrun & _ & Hb & _).
    by exists w'.
  - intros movie.
    destruct (fetch_movie_returns requests_get imdb movie w) as (w' & Hrun & _ & Hprint).
    by exists w'.
  - intros show_name seasons.
    destruct (fetch_show_returns requests_get tvmaze show_name seasons w)
      as (w' & Hrun & _ & Hprint).
    by exists w'.
  - destruct (fetch_metadata_async_completes requests_get imdb tvmaze w Hopen)
      as (w1 & w2 & Hrun1 & Hrun2 & Hrun).
    eexists. split; [exact Hrun|]. cbn [trace with_trace]. split.
    + apply in_or_app. right. by left.
    + destruct (fetch_movies_all requests_get imdb (self_movies w) w Hopen)
        as (w1' & Hrun1' & Hm1 & _).
      rewrite Hrun1 in Hrun1'. injection Hrun1' as <-.
      destruct (fetch_shows_all requests_get tvmaze (self_shows w1) w1)
        as (w2' & Hrun2' & Hm2 & _).
      { destruct (fetch_movies_all requests_get imdb (self_movies w) w Hopen)
          as (w1' & Hrun1' & _ & _ & Hd).
        rewrite Hrun1 in Hrun1'. injection Hrun1' as <-. by rewrite Hd. }
      rewrite Hrun2 in Hrun2'. injection Hrun2' as <-.
      unfold searched_movies in *. rewrite flat_map_app.
      cbn [flat_map app]. rewrite !app_nil_r. rewrite Hm2, app_nil_r. exact Hm1.
Qed.

(** The movie provider fails on the first of the three movies of the
    example disk: the other two are searched all the same, the failure is
    printed, and the refresh completes. *)
Lemma refresh_isolates_item_failures_witness :
  ((forall movies,
      exists w',
        fetch_movies Examples.no_network Examples.flaky_imdb movies Examples.started =
          (Ok true, w') /\
        searched_movies (trace w') =
          (searched_movies (trace Examples.started) ++ map title movies)%list) /\
   (forall shows,
      exists w',
        fetch_shows Examples.no_network Examples.failing_tvmaze shows Examples.started =
          (Ok true, w') /\
        searched_shows (trace w') =
          (searched_shows (trace Examples.started) ++ map fst shows)%list) /\
   (forall movie,
      exists w',
        _fetch_movie_metadata Examples.no_network Examples.flaky_imdb movie
          Examples.started = (Ok tt, w') /\
        forall e w1,
          fetch_movie_body Examples.no_network Examples.flaky_imdb movie
            Examples.started = (Raise e, w1) ->
          w' = with_trace (trace w1 ++ [PrintError (title movie) e]) w1) /\
   (forall show_name seasons,
      exists w',
        _fetch_show_metadata Examples.no_network Examples.failing_tvmaze show_name
          seasons Examples.started = (Ok tt, w') /\
        forall e w1,
          fetch_show_body Examples.no_network Examples.failing_tvmaze show_name
            seasons Examples.started = (Raise e, w1) ->
          w' = with_trace (trace w1 ++ [PrintError show_name e]) w1) /\
   (exists w',
      fetch_metadata_async (Ok Examples.flaky_imdb) (Ok Examples.failing_tvmaze)
        Examples.no_network true true Examples.started = (Ok tt, w') /\
      In FinishMetadataRefresh (trace w') /\
      searched_movies (trace w') =
      (searched_movies (trace Examples.started) ++
       map title (self_movies Examples.started))%list)) /\
  trace (snd (fetch_metadata_async (Ok Examples.flaky_imdb) (Ok Examples.failing_tvmaze)
                Examples.no_network true true Examples.started)) =
    [SearchMovie "Heat"; PrintError "Heat" (RequestError "timeout");
     SearchMovie "Alien"; SearchMovie "Metropolis";
     SearchShows "Show"; PrintError "Show" (RequestError "unreachable");
     FinishMetadataRefresh; CloseProgressDialog; CloseProgressDialog].
Proof.
  split.
  - apply (refresh_isolates_item_failures Examples.no_network Examples.flaky_imdb
             Examples.failing_tvmaze Examples.started).
    reflexivity.
  - vm_compute. reflexivity.
Defined.

(** * Further properties *)

(** ** Episode numbers, continued *)

Section EpisodeNumberBounds.

Lemma digit_value_nonneg c :
  PyStr.isdigit c = true -> (0 <= PyStr.digit_value c)%Z.
Proof.
  unfold PyStr.isdigit, PyStr.in_range, PyStr.digit_value.
  intros H. apply andb_prop in H as [H _]. apply N.leb_le in H. lia.
Qed.

Lemma int_digits_acc_nonneg s :
  forall acc n,
    (0 <= acc)%Z -> PyStr.int_digits_acc acc s = Some n -> (0 <= n)%Z.
Proof.
  induction s as [|c s IH]; simpl; intros acc n Hacc Hn.
  - by injection Hn as <-.
  - destruct (PyStr.isdigit c) eqn:Hc; [|discriminate].
    pose proof (digit_value_nonneg c Hc) as Hd.
    apply (IH (10 * acc + PyStr.digit_value c)%Z n); [lia | exact Hn].
Qed.

Lemma int_digits_nonneg s n :
  PyStr.int_digits s = Some n -> (0 <= n)%Z.
Proof.
  destruct s; [discriminate|]. unfold PyStr.int_digits.
  by apply int_digits_acc_nonneg.
Qed.

(** Where the search finds nothing, the expression matches at no
    position. *)
Lemma search_none_suffix r pre :
  forall s, Re.search r (pre +:+ s) = None -> Re.match_here r s = None.
Proof.
  induction pre as [|c pre IH]; intros s.
  - change ("" +:+ s) with s. destruct s; cbn [Re.search];
      by destruct (Re.match_here r _).
  - rewrite append_cons. cbn [Re.search].
    destruct (Re.match_here r (String c (pre +:+ s))); [discriminate|].
    apply IH.
Qed.

Lemma trailing_digit_here c :
  PyStr.isdigit c = true -> episode_match_here (String c "") <> None.
Proof.
  intros Hc. unfold episode_match_here.
  destruct (Re.match_here re_season_episode _); [done|].
  destruct (Re.match_here re_episode _); [done|].
  unfold Re.match_here, re_trailing. simpl. by rewrite Hc.
Qed.

End EpisodeNumberBounds.

(** X1: the number [_get_episode_number] extracts is never negative: the
    groups of the expression capture digits only. *)
Theorem episode_number_not_negative (filename : string) (n : Z) :
  _get_episode_number filename = Some n -> (0 <= n)%Z.
Proof.
  unfold _get_episode_number, episode_of_groups.
  destruct (Re.search episode_regex filename) as [g|]; [|discriminate].
  destruct (or_str _ _) as [digits|]; [|discriminate].
  apply int_digits_nonneg.
Qed.

Lemma episode_number_not_negative_witness :
  _get_episode_number "Show S02E05" = Some 5%Z /\ (0 <= 5)%Z.
Proof.
  split; [vm_compute; reflexivity|].
  apply (episode_number_not_negative "Show S02E05"). vm_compute. reflexivity.
Defined.

(** X2: a title whose last character is a digit always has an episode
    number: the third pattern matches at the last position at the
    latest. *)
Theorem episode_number_of_trailing_digit (s : string) (c : ascii) :
  PyStr.isdigit c = true ->
  exists n, _get_episode_number (s +:+ String c "") = Some n.
Proof.
  intros Hc. unfold _get_episode_number.
  destruct (Re.search episode_regex (s +:+ String c "")) as [g|] eqn:Hs.
  - rewrite search_leftmost in Hs. by apply leftmost_number in Hs.
  - apply search_none_suffix in Hs. rewrite episode_regex_here in Hs.
    by apply trailing_digit_here in Hs.
Qed.

Lemma episode_number_of_trailing_digit_witness :
  exists n, _get_episode_number ("Part " +:+ String "7" "") = Some n.
Proof.
  apply (episode_number_of_trailing_digit "Part " "7"). reflexivity.
Defined.

(** ** The poster file name *)

Section SlugFacts.

Lemma keep_safe_all s : all_chars safe_char (keep_safe s) = true.
Proof.
  induction s as [|c s IH]; simpl; [done|].
  fold (safe_char c). destruct (safe_char c) eqn:Hc; simpl; [|done].
  by rewrite Hc.
Qed.

Lemma keep_safe_fixed s : all_chars safe_char s = true -> keep_safe s = s.
Proof.
  induction s as [|c s IH]; simpl; [done|].
  fold (safe_char c). intros H. apply andb_prop in H as [-> H].
  by rewrite IH.
Qed.

Lemma rstrip_all p s :
  all_chars p s = true -> all_chars p (PyStr.rstrip s) = true.
Proof.
  induction s as [|c s IH]; simpl; [done|].
  intros H. apply andb_prop in H as [Hc H]. specialize (IH H).
  destruct (PyStr.rstrip s) as [|c' r].
  - destruct (PyStr.isspace c); simpl; by rewrite ?Hc.
  - cbn [all_chars]. by rewrite Hc.
Qed.

Lemma rstrip_rstrip s : PyStr.rstrip (PyStr.rstrip s) = PyStr.rstrip s.
Proof.
  induction s as [|c s IH]; simpl; [done|].
  destruct (PyStr.rstrip s) as [|c' r] eqn:Hr.
  - destruct (PyStr.isspace c) eqn:Hc; simpl; by rewrite ?Hc.
  - cbn [PyStr.rstrip]. cbn [PyStr.rstrip] in IH. by rewrite IH.
Qed.

Lemma safe_char_no_slash c : safe_char c = true -> Ascii.eqb c "/" = false.
Proof.
  intros H. destruct (Ascii.eqb_spec c "/") as [->|]; [|done].
  vm_compute in H. discriminate.
Qed.

Lemma safe_no_slash s : all_chars safe_char s = true -> has_slash s = false.
Proof.
  induction s as [|c s IH]; simpl; [done|].
  intros H. apply andb_prop in H as [Hc H].
  by rewrite (safe_char_no_slash c Hc), IH.
Qed.

End SlugFacts.

(** X3: the file name [download_poster] makes of a title holds only
    letters, digits, spaces, hyphens and underscores, so no path
    separator; it does not end in whitespace; and making a file name of
    it again changes nothing. *)
Theorem safe_title_is_slug (movie_title : string) :
  all_chars safe_char (safe_title movie_title) = true /\
  has_slash (safe_title movie_title) = false /\
  PyStr.rstrip (safe_title movie_title) = safe_title movie_title /\
  safe_title (safe_title movie_title) = safe_title movie_title.
Proof.
  assert (all_chars safe_char (safe_title movie_title) = true) as Hall.
  { apply rstrip_all, keep_safe_all. }
  split; [exact Hall|]. split; [by apply safe_no_slash|].
  split; [apply rstrip_rstrip|].
  unfold safe_title at 1. rewrite (keep_safe_fixed _ Hall). apply rstrip_rstrip.
Qed.

(** ** Title comparison *)

Section TitleFacts.

Lemma clean_title_app a b :
  clean_title (a +:+ b) = clean_title a +:+ clean_title b.
Proof.
  induction a as [|c a IH]; [done|].
  rewrite append_cons. cbn [clean_title].
  destruct (PyStr.isalnum c); [|done]. by rewrite append_cons, IH.
Qed.

Lemma isupper_isalnum c : PyStr.isupper c = true -> PyStr.isalnum c = true.
Proof.
  unfold PyStr.isalnum. intros ->. by rewrite orb_true_r.
Qed.

Lemma lower_char_isalnum c :
  PyStr.isalnum (PyStr.lower_char c) = PyStr.isalnum c.
Proof. destruct c as [[] [] [] [] [] [] [] []]; vm_compute; reflexivity. Qed.

Lemma lower_char_same c :
  Ascii.eqb c (PyStr.lower_char c) = negb (PyStr.isupper c).
Proof. destruct c as [[] [] [] [] [] [] [] []]; vm_compute; reflexivity. Qed.

End TitleFacts.

(** X4: [_title_matches] ignores the characters that are neither letters
    nor digits: a title matches with or without such a character. *)
Theorem title_matches_ignores_special (a b other : string) (c : ascii) :
  PyStr.isalnum c = false ->
  _title_matches (a +:+ String c b) other = _title_matches (a +:+ b) other /\
  _title_matches other (a +:+ String c b) = _title_matches other (a +:+ b).
Proof.
  intros Hc. unfold _title_matches. rewrite !clean_title_app.
  cbn [clean_title]. by rewrite Hc.
Qed.

Lemma title_matches_ignores_special_witness :
  _title_matches ("Spider" +:+ String "-" "Man") "SpiderMan" =
  _title_matches ("Spider" +:+ "Man") "SpiderMan" /\
  _title_matches "SpiderMan" ("Spider" +:+ String "-" "Man") =
  _title_matches "SpiderMan" ("Spider" +:+ "Man").
Proof.
  apply (title_matches_ignores_special "Spider" "Man" "SpiderMan" "-").
  reflexivity.
Defined.

(** X5: [_title_matches] compares letters with their case: a title matches
    its own lower-cased form exactly when it has no upper-case letter. *)
Theorem title_matches_keeps_case (t : string) :
  _title_matches t (PyStr.lower t) =
  all_chars (fun c => negb (PyStr.isupper c)) t.
Proof.
  unfold _title_matches. induction t as [|c t IH]; [done|].
  cbn [PyStr.lower clean_title all_chars].
  rewrite lower_char_isalnum.
  destruct (PyStr.isalnum c) eqn:Hc.
  - cbn [String.eqb]. rewrite <- IH, <- lower_char_same.
    by destruct (Ascii.eqb c (PyStr.lower_char c)).
  - rewrite IH. destruct (PyStr.isupper c) eqn:Hu; [|done].
    apply isupper_isalnum in Hu. congruence.
Qed.

(** ** The store and the scanner, continued *)

Section CatalogFacts.

Context {codec : JsonCodec}.

Lemma odict_get_set_eq {V} k (v : V) d : ODict.get k (ODict.set k v d) = Some v.
Proof.
  induction d as [|[k0 v0] d IH]; simpl.
  - by rewrite String.eqb_refl.
  - destruct (String.eqb k0 k) eqn:E; simpl; rewrite ?E; [|done].
    by rewrite String.eqb_refl.
Qed.

Lemma odict_get_set_ne {V} k k' (v : V) d :
  k <> k' -> ODict.get k (ODict.set k' v d) = ODict.get k d.
Proof.
  intros Hne. induction d as [|[k0 v0] d IH]; simpl.
  - destruct (String.eqb_spec k' k); [by subst|done].
  - destruct (String.eqb_spec k0 k') as [->|Hk0]; simpl.
    + destruct (String.eqb_spec k' k); [by subst|].
      by destruct (String.eqb_spec k' k).
    + destruct (String.eqb_spec k0 k); [done|exact IH].
Qed.

(** The loop over the show directories, for a store that is a
    dictionary. *)
Lemma scan_shows_loop_catalog store show_dirs :
  forall w : window,
    self_metadata w = PDict store ->
    for_each show_dirs (fun show_dir =>
      if is_dir show_dir then
        bind (gets self_metadata) (fun self_metadata =>
        bind (lift (scan_show self_metadata (iterdir show_dir) [])) (fun seasons =>
        match seasons with
        | [] => ret tt
        | _ => modify (fun w =>
                 with_shows (ODict.set (name show_dir) seasons (self_shows w)) w)
        end))
      else ret tt) w =
    (Ok tt, with_shows (fold_left (add_show store) show_dirs (self_shows w)) w).
Proof.
  induction show_dirs as [|d dirs IH]; intros w Hmd; cbn [for_each fold_left].
  - unfold ret. by rewrite with_shows_same.
  - unfold bind at 1. unfold add_show at 2.
    destruct (is_dir d).
    + unfold bind, gets, lift. rewrite Hmd.
      destruct (scan_show_dict store (iterdir d) [] []) as (seasons & Hs & _).
      { by intros k eps []. }
      rewrite Hs. fold (@bind codec). destruct seasons as [|s0 seasons].
      * unfold ret. by apply IH.
      * unfold modify. rewrite IH by done. reflexivity.
    + unfold ret. by apply IH.
Qed.

Lemma scan_shows_catalog (w : window) store :
  self_metadata w = PDict store ->
  scan_shows w =
  (Ok tt, with_shows (show_catalog store (videos_dir w) (shows_dir (disk w))) w).
Proof.
  intros Hmd. unfold scan_shows.
  unfold bind at 1. unfold modify at 1.
  unfold bind at 1. unfold gets at 1.
  unfold bind at 1. unfold gets at 1.
  cbn [videos_dir disk with_shows].
  by rewrite (scan_shows_loop_catalog store).
Qed.

Lemma load_library_loaded (w : window) d store :
  metadata_file (disk w) = Some d -> loads_as d store ->
  load_library w = (Ok tt, loaded store w).
Proof.
  intros Hfile Hd.
  assert (load_metadata w = (Ok tt, with_metadata (PDict store) w)) as Hload.
  { destruct Hd as [Hjson|[Hjson ->]].
    - by apply load_metadata_loaded with d.
    - by apply load_metadata_malformed with d. }
  unfold load_library.
  unfold bind at 1. rewrite Hload.
  unfold bind at 1. rewrite (scan_movies_dict _ store) by done.
  by rewrite (scan_shows_catalog _ store).
Qed.

Lemma update_metadata_loaded (w : window) store file_path record :
  self_metadata w = PDict store ->
  update_metadata file_path record w =
  (Ok tt, loaded (<[file_path := record]> store)
            (saved (<[file_path := record]> store) w)).
Proof.
  intros Hmd.
  pose proof (load_library_loaded
                (saved (<[file_path := record]> store)
                   (with_metadata (PDict (<[file_path := record]> store)) w))
                (json_dump (PDict (<[file_path := record]> store)))
                (<[file_path := record]> store) eq_refl
                (or_introl (json_load_dump _))) as Hrun.
  unfold update_metadata, bind, gets, lift, modify, save_metadata.
  rewrite Hmd. cbn [Py.setitem].
  etransitivity; [exact Hrun|]. by destruct w.
Qed.

Lemma loaded_loaded store store' (w : window) :
  loaded store' (loaded store w) = loaded store' w.
Proof. by destruct w. Qed.

(** A store that is not a dictionary stops the movie scan at the first
    video file. *)
Lemma scan_movies_loop_not_dict files :
  forall w : window,
    not_dict (self_metadata w) = true ->
    existsb is_video_file files = true ->
    for_each files (fun movie_file =>
      if is_video_file movie_file then
        bind (gets self_metadata) (fun self_metadata =>
        bind (lift (media_data self_metadata movie_file None)) (fun movie_data =>
        modify (fun w => with_movies (self_movies w ++ [movie_data]) w)))
      else ret tt) w = (Raise AttributeError, w).
Proof.
  induction files as [|f files IH]; intros w Hmd Hex; [done|].
  cbn [for_each existsb] in *. unfold bind at 1.
  destruct (is_video_file f).
  - unfold bind, gets, lift, media_data.
    by destruct (self_metadata w).
  - unfold ret. by apply IH.
Qed.

Lemma scan_show_app md a b :
  forall seasons,
    scan_show md (a ++ b) seasons =
    rbind (scan_show md a seasons) (scan_show md b).
Proof.
  induction a as [|x a IH]; intros seasons; [done|].
  cbn [app scan_show].
  destruct (is_season_dir x).
  - destruct (scan_episodes md _ _ _); [|done]. cbn [rbind]. apply IH.
  - destruct (is_video_file x); [|apply IH].
    destruct (media_data md x _); [|done]. cbn [rbind]. apply IH.
Qed.

Lemma odict_get_append_episode_ne k e seasons :
  k <> "1" ->
  ODict.get k (append_episode "1" e seasons) = ODict.get k seasons.
Proof.
  intros Hne. unfold append_episode.
  destruct (ODict.get "1" seasons); [|done]. by apply odict_get_set_ne.
Qed.

(** The items that are no source of the season [k] leave it as it is. *)
Lemma scan_show_keeps_season store k items :
  (forall x, In x items -> season_source x k = false) ->
  forall seasons, exists seasons',
    scan_show (PDict store) items seasons = Ok seasons' /\
    ODict.get k seasons' = ODict.get k seasons.
Proof.
  induction items as [|x items IH]; intros Hno seasons; [by exists seasons|].
  assert (forall x', In x' items -> season_source x' k = false) as Hrest.
  { intros x' Hx'. apply Hno. by right. }
  specialize (Hno x (or_introl eq_refl)).
  unfold season_source, season_with_video in Hno.
  cbn [scan_show]. destruct (is_season_dir x) eqn:Hdir.
  - rewrite scan_episodes_dict. cbn [rbind app].
    destruct (List.filter is_video_file (iterdir x)) as [|f fs] eqn:Hf.
    + apply (IH Hrest).
    + cbn [map].
      destruct (IH Hrest (ODict.set (season_number (name x))
                 (media_entry store (Some (season_number (name x))) f ::
                  map (media_entry store (Some (season_number (name x)))) fs)
                 seasons)) as (s' & Hs & Hget).
      exists s'. split; [done|]. rewrite Hget.
      apply odict_get_set_ne.
      assert (existsb is_video_file (iterdir x) = true) as Hex.
      { apply existsb_exists. exists f.
        assert (In f (List.filter is_video_file (iterdir x))) as Hin
          by (rewrite Hf; by left).
        apply filter_In in Hin. done. }
      rewrite Hex in Hno. cbn [andb orb negb] in Hno.
      rewrite orb_false_r in Hno.
      destruct (String.eqb_spec (season_number (name x)) k); [done|].
      congruence.
  - destruct (is_video_file x) eqn:Hvid; [|apply (IH Hrest)].
    rewrite media_data_dict. cbn [rbind].
    cbn [andb orb negb] in Hno.
    assert (k <> "1") as Hk.
    { intros ->. by rewrite String.eqb_refl in Hno. }
    destruct (IH Hrest (append_episode "1" (media_entry store (Some "1") x)
                 match ODict.get "1" seasons with
                 | Some _ => seasons
                 | None => ODict.set "1" [] seasons
                 end)) as (s' & Hs & Hget).
    exists s'. split; [done|]. rewrite Hget.
    rewrite odict_get_append_episode_ne by done.
    destruct (ODict.get "1" seasons); [done|].
    by apply odict_get_set_ne.
Qed.

End CatalogFacts.

(** ** Season assignment *)

Section SeasonListing.

Variable store : gmap string pyval.







End SeasonListing.



(** X6: without a metadata file [load_library] raises
    [FileNotFoundError] and leaves store and catalog as they were, while
    [update_metadata] returns on the same window and creates the file:
    it writes before it loads. *)
Theorem load_without_file_raises {codec : JsonCodec} (w : window)
    (store : gmap string pyval) (key : string) (record : pyval) :
  metadata_file (disk w) = None ->
  self_metadata w = PDict store ->
  load_library w = (Raise FileNotFoundError, w) /\
  exists w',
    update_metadata key record w = (Ok tt, w') /\
    metadata_file (disk w') = Some (json_dump (PDict (<[key := record]> store))).
Proof.
  intros Hfile Hmd. split.
  - unfold load_library, bind. by rewrite load_metadata_missing.
  - eexists. split; [by apply update_metadata_loaded|]. reflexivity.
Qed.

Lemma load_without_file_raises_witness :
  load_library (Examples.start None) = (Raise FileNotFoundError, Examples.start None) /\
  exists w',
    update_metadata "k" PNone (Examples.start None) = (Ok tt, w') /\
    metadata_file (disk w') = Some (json_dump (PDict (<["k" := PNone]> ∅))).
Proof.
  apply (load_without_file_raises (Examples.start None) ∅ "k" PNone);
    reflexivity.
Defined.

(** X7: a metadata document that is JSON but not an object is not taken
    for an empty store: with a video file below the movies root
    [load_library] raises [AttributeError] at the first of them, the store
    being the value of the document and the movie list empty. *)
Theorem load_rejects_document_without_object {codec : JsonCodec} (w : window)
    (d : document) (v : pyval) :
  metadata_file (disk w) = Some d ->
  json_load d = Ok v ->
  not_dict v = true ->
  existsb is_video_file
    (rglob (PurePath.joinpath (videos_dir w) "Movies") (movies_dir (disk w))) = true ->
  load_library w = (Raise AttributeError, with_movies [] (with_metadata v w)).
Proof.
  intros Hfile Hjson Hv Hex. unfold load_library.
  unfold bind at 1. rewrite (load_metadata_loaded w d v) by done.
  unfold bind at 1. unfold scan_movies.
  unfold bind at 1. unfold modify at 1.
  unfold bind at 1. unfold gets at 1.
  unfold bind at 1. unfold gets at 1.
  cbn [videos_dir disk with_movies with_metadata].
  rewrite scan_movies_loop_not_dict; done.
Qed.

Lemma load_rejects_document_without_object_witness :
  load_library Cases.list_document =
  (Raise AttributeError,
   with_movies [] (with_metadata (PList []) Cases.list_document)).
Proof.
  apply (load_rejects_document_without_object Cases.list_document
           (JsonText (PList [])) (PList [])); reflexivity.
Defined.

(** X8: after a load every catalog entry carries the record the store has
    for its path (the empty record when it has none); a movie has no
    season, an episode has the key of the season it is listed under. *)
Theorem catalog_entries_carry_records {codec : JsonCodec} (w : window)
    (d : document) (store : gmap string pyval) :
  metadata_file (disk w) = Some d -> loads_as d store ->
  exists w',
    load_library w = (Ok tt, w') /\
    (forall e, In e (self_movies w') ->
       season e = None /\ metadata e = record_of store (path e)) /\
    (forall show seasons k episodes e,
       In (show, seasons) (self_shows w') -> In (k, episodes) seasons ->
       In e episodes ->
       season e = Some k /\ metadata e = record_of store (path e)).
Proof.
  intros Hfile Hd.
  destruct (load_library_dict w d store Hfile Hd) as (shows & Hrun & Hok).
  eexists. split; [exact Hrun|]. cbn [self_movies self_shows with_shows with_movies].
  split.
  - intros e He. unfold movie_catalog in He.
    apply in_map_iff in He as (f & <- & _). done.
  - intros show seasons k episodes e Hshow Hseason He.
    destruct (Hok _ _ Hshow) as (_ & show_dir & _ & _ & _ & Hseasons).
    destruct (Hseasons _ _ Hseason) as (_ & Hsrc).
    destruct (Hsrc e He) as [(item & f & _ & _ & _ & _ & _ & ->)|
                             (item & _ & _ & _ & -> & ->)]; done.
Qed.

Lemma catalog_entries_carry_records_witness :
  exists w',
    load_library (Examples.start (Some (JsonText (PDict Examples.store)))) = (Ok tt, w') /\
    (forall e, In e (self_movies w') ->
       season e = None /\ metadata e = record_of Examples.store (path e)) /\
    (forall show seasons k episodes e,
       In (show, seasons) (self_shows w') -> In (k, episodes) seasons ->
       In e episodes ->
       season e = Some k /\ metadata e = record_of Examples.store (path e)).
Proof.
  apply (catalog_entries_carry_records
           (Examples.start (Some (JsonText (PDict Examples.store))))
           (JsonText (PDict Examples.store)) Examples.store).
  - reflexivity.
  - left. reflexivity.
Defined.

(** X9: within one show directory a season directory with a video file
    replaces whatever the items listed before it gave its season: when no
    later item is a source of that season, the season holds the video
    files of this directory and nothing else. *)
Theorem later_season_directory_wins (store : gmap string pyval)
    (before after : list dir_entry) (item : dir_entry) :
  is_season_dir item = true ->
  existsb is_video_file (iterdir item) = true ->
  (forall x, In x after -> season_source x (season_number (name item)) = false) ->
  exists seasons,
    scan_show (PDict store) (before ++ item :: after) [] = Ok seasons /\
    ODict.get (season_number (name item)) seasons =
    Some (map (media_entry store (Some (season_number (name item))))
              (List.filter is_video_file (iterdir item))).
Proof.
  intros Hdir Hex Hafter.
  destruct (scan_show_dict store before [] []) as (s1 & Hs1 & _).
  { by intros k eps []. }
  rewrite scan_show_app. cbn [app] in Hs1. rewrite Hs1. cbn [rbind scan_show].
  rewrite Hdir, scan_episodes_dict. cbn [rbind app].
  destruct (List.filter is_video_file (iterdir item)) as [|f fs] eqn:Hf.
  { apply existsb_exists in Hex as (f & Hin & Hvid).
    assert (In f (List.filter is_video_file (iterdir item))) as Hin'
      by (by apply filter_In).
    rewrite Hf in Hin'. destruct Hin'. }
  cbn [map].
  destruct (scan_show_keeps_season store (season_number (name item)) after Hafter
              (ODict.set (season_number (name item))
                 (media_entry store (Some (season_number (name item))) f ::
                  map (media_entry store (Some (season_number (name item)))) fs) s1))
    as (s' & Hs & Hget).
  exists s'. split; [done|]. rewrite Hget. apply odict_get_set_eq.
Qed.

(** X10: for a document that holds an object, or a text that is not JSON,
    the window [load_library] leaves is a function of the disk: the store
    and the catalog the window had before play no part, and a second load
    changes nothing. *)
Theorem load_library_depends_on_disk_only {codec : JsonCodec} (w w2 : window)
    (d : document) (store : gmap string pyval) :
  metadata_file (disk w) = Some d -> loads_as d store ->
  videos_dir w2 = videos_dir w -> disk w2 = disk w ->
  exists w1 w3,
    load_library w = (Ok tt, w1) /\
    load_library w2 = (Ok tt, w3) /\
    self_metadata w3 = self_metadata w1 /\
    self_movies w3 = self_movies w1 /\
    self_shows w3 = self_shows w1 /\
    load_library w1 = (Ok tt, w1).
Proof.
  intros Hfile Hd Hvideos Hdisk.
  exists (loaded store w), (loaded store w2).
  split; [by apply load_library_loaded with d|].
  split; [apply load_library_loaded with d; [by rewrite Hdisk | done]|].
  unfold loaded at 1 3 5. cbn [self_metadata self_movies self_shows with_shows with_movies with_metadata].
  rewrite Hvideos, Hdisk. repeat split.
  rewrite (load_library_loaded (loaded store w) d store); [|done|done].
  by rewrite loaded_loaded.
Qed.

Lemma load_library_depends_on_disk_only_witness :
  exists w1 w3,
    load_library (Examples.start (Some (Malformed "{"))) = (Ok tt, w1) /\
    load_library (with_metadata PNone (Examples.start (Some (Malformed "{")))) = (Ok tt, w3) /\
    self_metadata w3 = self_metadata w1 /\
    self_movies w3 = self_movies w1 /\
    self_shows w3 = self_shows w1 /\
    load_library w1 = (Ok tt, w1).
Proof.
  apply (load_library_depends_on_disk_only
           (Examples.start (Some (Malformed "{")))
           (with_metadata PNone (Examples.start (Some (Malformed "{"))))
           (Malformed "{") ∅); try reflexivity.
  right. split; reflexivity.
Defined.

Lemma later_season_directory_wins_witness :
  exists seasons,
    scan_show (PDict ∅) ([Cases.pilot] ++ Cases.season_1 :: []) [] = Ok seasons /\
    ODict.get (season_number (name Cases.season_1)) seasons =
    Some (map (media_entry ∅ (Some (season_number (name Cases.season_1))))
              (List.filter is_video_file (iterdir Cases.season_1))).
Proof.
  apply (later_season_directory_wins ∅ [Cases.pilot] [] Cases.season_1);
    [reflexivity | reflexivity | intros x []].
Defined.

(** ** Editing a field *)

(** X11: answering the edit dialog with [save] stores, under the path of
    the entry, the record of the entry with the one field set to the text
    typed, as a string whatever the field; the record's other fields and
    the store's other keys stay, and the document is rewritten.  Any
    other answer changes nothing. *)
Theorem edit_saves_one_field {codec : JsonCodec} (w : window)
    (store record : gmap string pyval) (movie : media) (key text : string) :
  metadata movie = PDict record ->
  self_metadata w = PDict store ->
  (exists w' record',
     edit_metadata_on_response movie key "save" text w = (Ok tt, w') /\
     self_metadata w' = PDict (<[path movie := PDict record']> store) /\
     metadata_file (disk w') = Some (json_dump (self_metadata w')) /\
     record' !! key = Some (PStr text) /\
     forall k, k <> key -> record' !! k = record !! k) /\
  (forall response,
     response <> "save" ->
     edit_metadata_on_response movie key response text w = (Ok tt, w)).
Proof.
  intros Hrecord Hmd. split.
  - eexists. exists (<[key := PStr text]> record).
    split.
    + unfold edit_metadata_on_response. cbn [String.eqb Ascii.eqb Bool.eqb].
      unfold bind at 1. unfold lift at 1. rewrite Hrecord. cbn [py_copy].
      unfold bind at 1. unfold lift at 1. cbn [Py.setitem].
      by apply update_metadata_loaded.
    + split; [done|]. split; [done|]. split; [apply lookup_insert_eq|].
      intros k Hk. by rewrite lookup_insert_ne.
  - intros response Hne. unfold edit_metadata_on_response.
    by destruct (String.eqb_spec response "save").
Qed.

Lemma edit_saves_one_field_witness :
  (exists w' record',
     edit_metadata_on_response Cases.heat "rating" "save" "8.3" Examples.started = (Ok tt, w') /\
     self_metadata w' = PDict (<[path Cases.heat := PDict record']> ∅) /\
     metadata_file (disk w') = Some (json_dump (self_metadata w')) /\
     record' !! "rating" = Some (PStr "8.3") /\
     forall k, k <> "rating" -> record' !! k = ({["year" := PInt 1995]} : gmap string pyval) !! k) /\
  (forall response,
     response <> "save" ->
     edit_metadata_on_response Cases.heat "rating" response "8.3" Examples.started =
     (Ok tt, Examples.started)).
Proof.
  apply (edit_saves_one_field Examples.started ∅ {["year" := PInt 1995]}
           Cases.heat "rating" "8.3"); reflexivity.
Defined.

(** X12: when the handler saves twice for the same catalog entry, first
    the field [key1], then another field [key2], the record stored in the
    end is the record of the entry with [key2] set: [key1] has the value
    the entry had, for the second save starts from the entry, not from
    the store. *)
Theorem second_edit_of_an_entry_drops_the_first {codec : JsonCodec} (w : window)
    (store record : gmap string pyval) (movie : media)
    (key1 text1 key2 text2 : string) :
  metadata movie = PDict record ->
  self_metadata w = PDict store ->
  key1 <> key2 ->
  exists w1 w2 record2,
    edit_metadata_on_response movie key1 "save" text1 w = (Ok tt, w1) /\
    edit_metadata_on_response movie key2 "save" text2 w1 = (Ok tt, w2) /\
    self_metadata w2 = PDict (<[path movie := PDict record2]> store) /\
    record2 !! key2 = Some (PStr text2) /\
    record2 !! key1 = record !! key1.
Proof.
  intros Hrecord Hmd Hne.
  assert (forall key text (w0 : window) store0,
            self_metadata w0 = PDict store0 ->
            edit_metadata_on_response movie key "save" text w0 =
            (Ok tt, loaded (<[path movie := PDict (<[key := PStr text]> record)]> store0)
                      (saved (<[path movie := PDict (<[key := PStr text]> record)]> store0) w0)))
    as Hedit.
  { intros key text w0 store0 Hmd0.
    unfold edit_metadata_on_response. cbn [String.eqb Ascii.eqb Bool.eqb].
    unfold bind at 1. unfold lift at 1. rewrite Hrecord. cbn [py_copy].
    unfold bind at 1. unfold lift at 1. cbn [Py.setitem].
    by apply update_metadata_loaded. }
  eexists. eexists. exists (<[key2 := PStr text2]> record).
  split; [by apply Hedit|].
  split; [by apply Hedit|].
  split.
  - cbn [loaded self_metadata with_shows with_movies with_metadata].
    by rewrite insert_insert_eq.
  - split; [apply lookup_insert_eq|]. by rewrite lookup_insert_ne.
Qed.

Lemma second_edit_of_an_entry_drops_the_first_witness :
  exists w1 w2 record2,
    edit_metadata_on_response Cases.heat "year" "save" "1996" Examples.started = (Ok tt, w1) /\
    edit_metadata_on_response Cases.heat "rating" "save" "8.3" w1 = (Ok tt, w2) /\
    self_metadata w2 = PDict (<[path Cases.heat := PDict record2]> ∅) /\
    record2 !! "rating" = Some (PStr "8.3") /\
    record2 !! "year" = ({["year" := PInt 1995]} : gmap string pyval) !! "year".
Proof.
  apply (second_edit_of_an_entry_drops_the_first Examples.started ∅
           {["year" := PInt 1995]} Cases.heat "year" "1996" "rating" "8.3");
    [reflexivity | reflexivity | discriminate].
Defined.

(** ** The poster cache *)

Section PosterFacts.

Context {codec : JsonCodec}.
Variable requests_get : string -> result (result unit).

Lemma poster_file_same cache t1 t2 :
  safe_title t1 = safe_title t2 -> poster_file cache t1 = poster_file cache t2.
Proof. unfold poster_file. by intros ->. Qed.

(** What [download_poster] comes to in each case. *)
Lemma download_poster_cases url movie_title (w : window) :
  exists v w',
    download_poster requests_get url movie_title w = (Ok v, w') /\
    (v = PNone \/
     (v = PStr (poster_file (cache_dir w) movie_title) /\
      poster_file (cache_dir w) movie_title ∈ cache_files (disk w'))) /\
    self_metadata w' = self_metadata w /\
    metadata_file (disk w') = metadata_file (disk w) /\
    movies_dir (disk w') = movies_dir (disk w) /\
    shows_dir (disk w') = shows_dir (disk w) /\
    videos_dir w' = videos_dir w /\
    dialog_closes_after w' = dialog_closes_after w /\
    (Py.truthy url = false -> v = PNone /\ w' = w).
Proof.
  unfold download_poster. destruct (Py.truthy url) eqn:Hurl; cbn [negb].
  { unfold bind, gets. fold (poster_file (cache_dir w) movie_title).
    destruct (bool_decide _) eqn:Hex; cbn [negb].
    - apply bool_decide_eq_true in Hex.
      eexists _, w. split; [reflexivity|]. split; [by right|]. done.
    - unfold try_except, download, bind, lift.
      destruct url as [| | | |u| |];
        try (eexists _, _; split; [reflexivity|]; split; [by left|]; done).
      unfold emit, modify.
      destruct (requests_get u) as [[[]|e]|e];
        eexists _, _; (split; [reflexivity|]); cbn; repeat split; try done;
        try (by left).
      right. split; [done|]. set_solver. }
  eexists _, w. split; [reflexivity|]. split; [by left|]. done.
Qed.

End PosterFacts.

(** X13: on a disk that has the cache directory, as [setup_directories]
    leaves it, [download_poster] always returns, with [None] or with the
    path of the poster file of the title, and a path it returns names a
    file that exists in the cache; it never touches the store or the
    metadata document; for a URL that is empty or [None] it returns
    [None] and does nothing at all. *)
Theorem download_poster_always_returns {codec : JsonCodec}
    (requests_get : string -> result (result unit))
    (url : pyval) (movie_title : string) (w : window) :
  exists v w',
    download_poster requests_get url movie_title w = (Ok v, w') /\
    (v = PNone \/
     (v = PStr (poster_file (cache_dir w) movie_title) /\
      poster_file (cache_dir w) movie_title ∈ cache_files (disk w'))) /\
    self_metadata w' = self_metadata w /\
    metadata_file (disk w') = metadata_file (disk w) /\
    (Py.truthy url = false -> v = PNone /\ w' = w).
Proof.
  destruct (download_poster_cases requests_get url movie_title w)
    as (v & w' & Hrun & Hv & Hmd & Hfile & _ & _ & _ & _ & Hfalsy).
  by exists v, w'.
Qed.

(** X14: a title whose file name is already in the cache gets that file
    without any request, whatever the URL: the window stays as it is.
    The cache goes by the file name, so two titles with the same file
    name share one poster. *)
Theorem download_poster_uses_cached_file {codec : JsonCodec}
    (requests_get : string -> result (result unit))
    (url : pyval) (cached_title movie_title : string) (w : window) :
  Py.truthy url = true ->
  safe_title cached_title = safe_title movie_title ->
  poster_file (cache_dir w) cached_title ∈ cache_files (disk w) ->
  download_poster requests_get url movie_title w =
  (Ok (PStr (poster_file (cache_dir w) cached_title)), w).
Proof.
  intros Hurl Hsame Hcached.
  rewrite (poster_file_same _ _ _ Hsame) in *.
  unfold download_poster. rewrite Hurl. cbn [negb].
  unfold bind, gets. fold (poster_file (cache_dir w) movie_title).
  by rewrite bool_decide_eq_true_2.
Qed.

Lemma download_poster_uses_cached_file_witness :
  download_poster Examples.no_network (PStr "http://img/2") "Heat!"
    (with_disk (create_cache_file (poster_file "/home/u/.cache/videoh" "Heat")
                  (disk Examples.started)) Examples.started) =
  (Ok (PStr "/home/u/.cache/videoh/posters/Heat.jpg"),
   with_disk (create_cache_file (poster_file "/home/u/.cache/videoh" "Heat")
                (disk Examples.started)) Examples.started).
Proof.
  apply (download_poster_uses_cached_file Examples.no_network (PStr "http://img/2")
           "Heat" "Heat!"
           (with_disk (create_cache_file (poster_file "/home/u/.cache/videoh" "Heat")
                         (disk Examples.started)) Examples.started)).
  - reflexivity.
  - reflexivity.
  - vm_compute cache_dir. cbn [disk with_disk cache_files create_cache_file].
    set_solver.
Defined.

(** X15: a download that breaks off while the body is read returns
    [None], but leaves the file it had opened: every later call for the
    title returns that file as the poster and requests nothing. *)
Theorem interrupted_download_stays_cached {codec : JsonCodec}
    (requests_get later_get : string -> result (result unit))
    (u : string) (later_url : pyval) (movie_title : string) (e : exn) (w : window) :
  u <> "" ->
  requests_get u = Ok (Raise e) ->
  poster_file (cache_dir w) movie_title ∉ cache_files (disk w) ->
  Py.truthy later_url = true ->
  exists w1,
    download_poster requests_get (PStr u) movie_title w = (Ok PNone, w1) /\
    trace w1 = (trace w ++ [HttpGet u; PrintError movie_title e])%list /\
    download_poster later_get later_url movie_title w1 =
    (Ok (PStr (poster_file (cache_dir w) movie_title)), w1).
Proof.
  intros Hu Hget Hfresh Hlater.
  exists (with_trace (trace w ++ [HttpGet u; PrintError movie_title e])
            (with_disk (create_cache_file (poster_file (cache_dir w) movie_title)
                          (disk w)) w)).
  split.
  - unfold download_poster. cbn [Py.truthy].
    destruct (String.eqb_spec u ""); [done|]. cbn [negb].
    unfold bind at 1. unfold gets at 1.
    unfold bind at 1. unfold gets at 1.
    fold (poster_file (cache_dir w) movie_title).
    rewrite bool_decide_eq_false_2 by done. cbn [negb].
    unfold try_except, download, bind, lift, emit, modify.
    rewrite Hget. unfold ret. f_equal.
    destruct w. cbn. by rewrite <- app_assoc.
  - split; [done|].
    + unfold download_poster. rewrite Hlater. cbn [negb].
      unfold bind, gets. cbn [cache_dir with_trace with_disk].
      fold (poster_file (cache_dir w) movie_title).
      rewrite bool_decide_eq_true_2; [done|].
      cbn [disk with_trace with_disk cache_files create_cache_file]. set_solver.
Qed.

Lemma interrupted_download_stays_cached_witness :
  exists w1,
    download_poster Cases.network_breaks (PStr "http://img/1") "Heat" Examples.started =
      (Ok PNone, w1) /\
    trace w1 = (trace Examples.started ++
                [HttpGet "http://img/1";
                 PrintError "Heat" (RequestError "connection reset")])%list /\
    download_poster Cases.network_up (PStr "http://img/1") "Heat" w1 =
    (Ok (PStr (poster_file (cache_dir Examples.started) "Heat")), w1).
Proof.
  apply (interrupted_download_stays_cached Cases.network_breaks Cases.network_up
           "http://img/1" (PStr "http://img/1") "Heat"
           (RequestError "connection reset") Examples.started).
  - discriminate.
  - reflexivity.
  - vm_compute. set_solver.
  - reflexivity.
Defined.

(** ** What a method leaves as it is *)

Section EnsuresFacts.

Context {codec : JsonCodec}.
Context (R : window -> window -> Prop) `{!PreOrder R}.

Lemma ensures_ret {A} (a : A) : ensures R (ret a).
Proof. intros w. reflexivity. Qed.

Lemma ensures_raise {A} e : ensures R (@raise _ A e).
Proof. intros w. reflexivity. Qed.

Lemma ensures_lift {A} (r : result A) : ensures R (lift r).
Proof. intros w. reflexivity. Qed.

Lemma ensures_gets {A} (f : window -> A) : ensures R (gets f).
Proof. intros w. reflexivity. Qed.

Lemma ensures_modify (f : window -> window) :
  (forall w, R w (f w)) -> ensures R (modify f).
Proof. intros Hf w. apply Hf. Qed.

Lemma ensures_bind {A B} (m : M A) (f : A -> M B) :
  ensures R m -> (forall a, ensures R (f a)) -> ensures R (bind m f).
Proof.
  intros Hm Hf w. unfold bind. specialize (Hm w).
  destruct (m w) as [[a|e] w1]; cbn [snd] in *; [|done].
  transitivity w1; [done | apply Hf].
Qed.

Lemma ensures_try_except {A} (body : M A) (handler : exn -> M A) :
  ensures R body -> (forall e, ensures R (handler e)) ->
  ensures R (try_except body handler).
Proof.
  intros Hm Hf w. unfold try_except. specialize (Hm w).
  destruct (body w) as [[a|e] w1]; cbn [snd] in *; [done|].
  transitivity w1; [done | apply Hf].
Qed.

Lemma ensures_for_each {A} (l : list A) (body : A -> M unit) :
  (forall x, In x l -> ensures R (body x)) -> ensures R (for_each l body).
Proof.
  induction l as [|x l IH]; intros Hbody; cbn [for_each].
  - apply ensures_ret.
  - apply ensures_bind; [apply Hbody; by left|].
    intros _. apply IH. intros y Hy. apply Hbody. by right.
Qed.

Lemma ensures_open_metadata_file : ensures R open_metadata_file.
Proof.
  intros w. unfold open_metadata_file.
  destruct (metadata_file (disk w)); reflexivity.
Qed.

Lemma ensures_get_visible :
  (forall w c, R w (with_dialog c w)) -> ensures R get_visible.
Proof.
  intros Hd w. unfold get_visible.
  destruct (dialog_closes_after w) as [[|n]|]; cbn [snd]; try reflexivity.
  apply Hd.
Qed.

End EnsuresFacts.

#[export] Instance changes_only_preorder {codec : JsonCodec} K :
  PreOrder (changes_only K).
Proof.
  split.
  - intros w store Hmd. by exists store.
  - intros w1 w2 w3 H12 H23 store Hmd.
    destruct (H12 store Hmd) as (store2 & Hmd2 & Hsame2).
    destruct (H23 store2 Hmd2) as (store3 & Hmd3 & Hsame3).
    exists store3. split; [done|]. intros k Hk.
    by rewrite Hsame3, Hsame2.
Qed.

#[export] Instance adds_events_preorder {codec : JsonCodec} P :
  PreOrder (adds_events P).
Proof.
  split.
  - intros w. exists []. split; [by rewrite app_nil_r | constructor].
  - intros w1 w2 w3 (t1 & H1 & HP1) (t2 & H2 & HP2).
    exists (t1 ++ t2)%list. split.
    + by rewrite H2, H1, app_assoc.
    + by apply Forall_app.
Qed.

Section FrameFacts.

Context {codec : JsonCodec}.

Lemma changes_only_same K (w w' : window) :
  self_metadata w' = self_metadata w -> changes_only K w w'.
Proof.
  intros Hsame store Hmd. exists store. by rewrite Hsame.
Qed.

Lemma adds_events_none P (w w' : window) :
  trace w' = trace w -> adds_events P w w'.
Proof.
  intros Hsame. exists []. split; [by rewrite app_nil_r | constructor].
Qed.

Lemma adds_events_one P e (w : window) :
  P e -> adds_events P w (with_trace (trace w ++ [e]) w).
Proof. intros He. exists [e]. split; [done | by repeat constructor]. Qed.

Lemma update_metadata_changes_only (K : string -> Prop) file_path record :
  K file_path -> ensures (changes_only K) (update_metadata file_path record).
Proof.
  intros HK w store Hmd. rewrite (update_metadata_loaded w store) by done.
  eexists. split; [reflexivity|].
  intros k Hk. apply lookup_insert_ne. by intros ->.
Qed.

(** [self.metadata[key] = v] followed by other statements. *)
Lemma store_item_changes_only (K : string -> Prop) key v (rest : M unit) :
  K key -> ensures (changes_only K) rest ->
  ensures (changes_only K)
    (bind (gets self_metadata) (fun store =>
     bind (lift (Py.setitem store key v)) (fun store' =>
     bind (modify (with_metadata store')) (fun _ => rest)))).
Proof.
  intros HK Hrest w. unfold bind, gets, lift, modify.
  destruct (self_metadata w) as [| | | | | |store] eqn:Hmd;
    cbn [Py.setitem snd]; try reflexivity.
  transitivity (with_metadata (PDict (<[key := v]> store)) w); [|apply Hrest].
  intros store0 Hmd0. rewrite Hmd in Hmd0. injection Hmd0 as <-.
  eexists. split; [reflexivity|].
  intros k Hk. apply lookup_insert_ne. by intros ->.
Qed.

End FrameFacts.

(** ** The refresh of one item *)

Section ItemFacts.

Context {codec : JsonCodec}.
Variable requests_get : string -> result (result unit).

(** One step of the proof that a method changes only the keys [K] of the
    store; [key_in_K] proves that a key written is one of them. *)
#[local] Ltac frame_step key_in_K :=
  lazymatch goal with
  | |- ensures ?R _ =>
      first
        [ apply update_metadata_changes_only; key_in_K
        | apply store_item_changes_only; [key_in_K|]
        | apply (ensures_ret R) | apply (ensures_raise R)
        | apply (ensures_lift R) | apply (ensures_gets R)
        | apply (ensures_modify R); intros ?; apply changes_only_same; reflexivity
        | apply (ensures_bind R); [|intros ?]
        | apply (ensures_try_except R); [|intros ?]
        | apply (ensures_for_each R); intros ? ?
        | match goal with
          | |- ensures _ (if ?b then _ else _) => destruct b
          | |- ensures _ (match ?x with _ => _ end) => destruct x
          end ]
  end.

Lemma fetch_movie_changes_only imdb movie :
  ensures (changes_only (fun k => k = path movie))
    (_fetch_movie_metadata requests_get imdb movie).
Proof.
  unfold _fetch_movie_metadata, fetch_movie_body, download_poster, download.
  repeat frame_step ltac:(reflexivity).
Qed.

Lemma fetch_show_changes_only tvmaze show_name seasons :
  ensures (changes_only (show_keys show_name seasons))
    (_fetch_show_metadata requests_get tvmaze show_name seasons).
Proof.
  unfold _fetch_show_metadata, fetch_show_body, fetch_episode,
    download_poster, download.
  repeat frame_step
    ltac:(first
      [ by left
      | match goal with
        | Hs : In ?s seasons, He : In ?e (snd ?s) |- _ =>
            right; exists (fst s), (snd s), e; by destruct s
        end ]).
Qed.

(** The record of a show the provider has, when one of its fields is of
    the wrong kind. *)
Lemma show_metadata_raises show_data e :
  show_metadata (PDict show_data) = Raise e -> e = AttributeError.
Proof.
  unfold show_metadata. cbn [Py.get rbind].
  destruct (show_data !! "premiered") as [[]|]; cbn [Py.split_dash_first rbind];
    try (by intros [= <-]);
    (destruct (show_data !! "rating") as [[]|]; cbn [Py.get rbind];
     try (by intros [= <-]));
    (destruct (show_data !! "network") as [[]|]; cbn [Py.get rbind];
     try (by intros [= <-])); discriminate.
Qed.

Lemma show_metadata_returns show_data md :
  show_metadata (PDict show_data) = Ok md ->
  present_but not_str show_data "premiered" = false /\
  present_but not_dict show_data "rating" = false /\
  present_but not_dict show_data "network" = false.
Proof.
  unfold show_metadata, present_but. cbn [Py.get rbind].
  destruct (show_data !! "premiered") as [[]|]; cbn [Py.split_dash_first rbind];
    try discriminate;
    (destruct (show_data !! "rating") as [[]|]; cbn [Py.get rbind];
     try discriminate);
    (destruct (show_data !! "network") as [[]|]; cbn [Py.get rbind];
     try discriminate); done.
Qed.

Lemma with_trace_twice e1 e2 (w : window) :
  with_trace (trace (with_trace (trace w ++ [e1]) w) ++ [e2])
    (with_trace (trace w ++ [e1]) w) =
  with_trace (trace w ++ [e1; e2]) w.
Proof. destruct w. cbn. by rewrite <- app_assoc. Qed.

End ItemFacts.

(** X16: refreshing one movie always returns and changes at most the
    record under the path of the movie: the store stays a dictionary and
    every other key keeps its record, whatever the provider and the
    network answer or raise. *)
Theorem movie_refresh_changes_own_record {codec : JsonCodec}
    (requests_get : string -> result (result unit))
    (imdb : imdb_api) (movie : media) (w : window) (store : gmap string pyval) :
  self_metadata w = PDict store ->
  exists w' store',
    _fetch_movie_metadata requests_get imdb movie w = (Ok tt, w') /\
    self_metadata w' = PDict store' /\
    forall k, k <> path movie -> store' !! k = store !! k.
Proof.
  intros Hmd.
  destruct (fetch_movie_returns requests_get imdb movie w) as (w' & Hrun & _).
  pose proof (fetch_movie_changes_only requests_get imdb movie w store Hmd) as Hframe.
  rewrite Hrun in Hframe. cbn [snd] in Hframe.
  destruct Hframe as (store' & Hmd' & Hsame).
  by exists w', store'.
Qed.

Lemma movie_refresh_changes_own_record_witness :
  exists w' store',
    _fetch_movie_metadata Examples.no_network Cases.imdb_1995 Cases.heat
      (with_metadata (PDict Examples.store) Examples.started) = (Ok tt, w') /\
    self_metadata w' = PDict store' /\
    forall k, k <> path Cases.heat -> store' !! k = Examples.store !! k.
Proof.
  apply (movie_refresh_changes_own_record Examples.no_network Cases.imdb_1995
           Cases.heat (with_metadata (PDict Examples.store) Examples.started)
           Examples.store).
  reflexivity.
Defined.

(** X17: refreshing one show always returns and changes at most the
    record under [show:<name>] and the records under the paths of the
    episodes handed to it; every other key of the store keeps its
    record. *)
Theorem show_refresh_changes_own_records {codec : JsonCodec}
    (requests_get : string -> result (result unit))
    (tvmaze : tvmaze_api) (show_name : string) (seasons : seasons_dict)
    (w : window) (store : gmap string pyval) :
  self_metadata w = PDict store ->
  exists w' store',
    _fetch_show_metadata requests_get tvmaze show_name seasons w = (Ok tt, w') /\
    self_metadata w' = PDict store' /\
    forall k, ~ show_keys show_name seasons k -> store' !! k = store !! k.
Proof.
  intros Hmd.
  destruct (fetch_show_returns requests_get tvmaze show_name seasons w)
    as (w' & Hrun & _).
  pose proof (fetch_show_changes_only requests_get tvmaze show_name seasons w
                store Hmd) as Hframe.
  rewrite Hrun in Hframe. cbn [snd] in Hframe.
  destruct Hframe as (store' & Hmd' & Hsame).
  by exists w', store'.
Qed.

Lemma show_refresh_changes_own_records_witness :
  exists w' store',
    _fetch_show_metadata Examples.no_network (Cases.tvmaze_of Cases.plain_show)
      "Show" [] (with_metadata (PDict Examples.store) Examples.started) = (Ok tt, w') /\
    self_metadata w' = PDict store' /\
    forall k, ~ show_keys "Show" [] k -> store' !! k = Examples.store !! k.
Proof.
  apply (show_refresh_changes_own_records Examples.no_network
           (Cases.tvmaze_of Cases.plain_show) "Show" []
           (with_metadata (PDict Examples.store) Examples.started) Examples.store).
  reflexivity.
Defined.

(** X18: a show whose provider record has [premiered] that is not a
    string, or [rating], [network] or [image] that is not an object (the
    provider's [null], for one) is skipped: [AttributeError] is printed
    and nothing is stored, neither in memory nor in the document. *)
Theorem show_with_field_of_wrong_kind_is_skipped {codec : JsonCodec}
    (requests_get : string -> result (result unit))
    (tvmaze : tvmaze_api) (show_name : string) (seasons : seasons_dict)
    (w : window) (results first : pyval) (show_data : gmap string pyval) :
  search_shows tvmaze show_name = Ok results ->
  Py.truthy results = true ->
  Py.first results = Ok first ->
  Py.getitem first "show" = Ok (PDict show_data) ->
  field_of_wrong_kind show_data = true ->
  _fetch_show_metadata requests_get tvmaze show_name seasons w =
  (Ok tt,
   with_trace (trace w ++ [SearchShows show_name;
                           PrintError show_name AttributeError]) w).
Proof.
  intros Hsearch Htruthy Hfirst Hshow Hwrong.
  unfold _fetch_show_metadata, try_except, fetch_show_body.
  rewrite emit_then.
  unfold bind at 1. unfold lift at 1. rewrite Hsearch, Htruthy.
  unfold bind at 1. unfold lift at 1. rewrite Hfirst.
  unfold bind at 1. unfold lift at 1. rewrite Hshow.
  unfold bind at 1. unfold lift at 1.
  destruct (show_metadata (PDict show_data)) as [md|e] eqn:Hmd.
  - apply show_metadata_returns in Hmd as (H1 & H2 & H3).
    unfold field_of_wrong_kind in Hwrong. rewrite H1, H2, H3 in Hwrong.
    cbn [orb] in Hwrong. unfold present_but in Hwrong.
    unfold bind at 1. unfold lift at 1. cbn [Py.get].
    destruct (show_data !! "image") as [image|]; [|discriminate].
    unfold bind at 1. unfold lift at 1.
    destruct image; try discriminate; cbn [Py.get];
      unfold emit, modify; by rewrite with_trace_twice.
  - apply show_metadata_raises in Hmd as ->.
    unfold emit, modify. by rewrite with_trace_twice.
Qed.

Lemma show_with_field_of_wrong_kind_is_skipped_witness :
  _fetch_show_metadata Examples.no_network (Cases.tvmaze_of Cases.web_show)
    "Show" [] Examples.started =
  (Ok tt,
   with_trace (trace Examples.started ++
               [SearchShows "Show"; PrintError "Show" AttributeError])
     Examples.started).
Proof.
  apply (show_with_field_of_wrong_kind_is_skipped Examples.no_network
           (Cases.tvmaze_of Cases.web_show) "Show" [] Examples.started
           (PList [PDict {["show" := PDict Cases.web_show]}])
           (PDict {["show" := PDict Cases.web_show]}) Cases.web_show);
    reflexivity.
Defined.



(** X20: the record [_fetch_show_metadata] writes for an episode is read
    back merged with the record of its show: the reader finds the show
    under the key the writer used, the seven fields of the episode record
    have the episode's values, every other field has the show's. *)
Theorem fetched_episode_reads_with_show (repr : pyval -> string)
    (store episode show : gmap string pyval) (tvmaze_episode : pyval)
    (season_num show_name episode_path : string) (episode_number : Z) :
  episode_metadata tvmaze_episode season_num episode_number show_name = Ok episode ->
  store !! episode_path = Some (PDict episode) ->
  record_of store ("show:" +:+ show_name) = PDict show ->
  exists merged,
    get_episode_metadata repr (PDict store) episode_path = Ok (PDict merged) /\
    merged !! "season" = Some (PStr season_num) /\
    merged !! "episode" = Some (PInt episode_number) /\
    (forall k, In k episode_fields -> merged !! k = episode !! k) /\
    (forall k, ~ In k episode_fields -> merged !! k = show !! k).
Proof.
  intros Hepisode Hstored Hshow.
  destruct tvmaze_episode as [| | | | | |d]; try discriminate.
  unfold episode_metadata in Hepisode. cbn [Py.get rbind] in Hepisode.
  injection Hepisode as <-.
  exists ((<["title" := match d !! "name" with Some x => x | None => PNone end]>
           (<["plot" := match d !! "summary" with Some x => x | None => PStr "" end]>
           (<["air_date" := match d !! "airdate" with Some x => x | None => PNone end]>
           (<["season" := PStr season_num]> (<["episode" := PInt episode_number]>
           (<["is_episode" := PBool true]> (<["show_name" := PStr show_name]> ∅)))))))
          ∪ show).
  split.
  - unfold get_episode_metadata. cbn [Py.get rbind]. rewrite Hstored.
    cbn [Py.get rbind]. rewrite !lookup_insert_ne by done.
    rewrite lookup_insert_eq. cbn [Py.truthy].
    rewrite !lookup_insert_ne by done. rewrite lookup_insert_eq.
    cbn [Py.str rbind]. unfold record_of in Hshow. rewrite Hshow.
    reflexivity.
  - split.
    { apply lookup_union_Some_l.
      by rewrite !lookup_insert_ne, lookup_insert_eq by done. }
    split.
    { apply lookup_union_Some_l.
      by rewrite !lookup_insert_ne, lookup_insert_eq by done. }
    split.
    + intros k Hk. apply lookup_union_l'. unfold episode_fields in Hk.
      repeat (destruct Hk as [<-|Hk];
              [rewrite ?lookup_insert_ne by done; rewrite lookup_insert_eq;
               by eexists|]).
      destruct Hk.
    + intros k Hk. apply lookup_union_r. unfold episode_fields in Hk.
      rewrite !lookup_insert_ne; [apply lookup_empty|intros <-; apply Hk; cbn; tauto..].
Qed.

Lemma fetched_episode_reads_with_show_witness :
  exists merged,
    get_episode_metadata Examples.repr
      (PDict (<["/s/ep1.mp4" :=
                 PDict (<["title" := PStr "Pilot"]> (<["plot" := PStr ""]>
                   (<["air_date" := PNone]> (<["season" := PStr "1"]>
                   (<["episode" := PInt 1]> (<["is_episode" := PBool true]>
                   (<["show_name" := PStr "X"]> ∅)))))))]> Examples.store))
      "/s/ep1.mp4" = Ok (PDict merged) /\
    merged !! "season" = Some (PStr "1") /\
    merged !! "episode" = Some (PInt 1) /\
    (forall k, In k episode_fields ->
       merged !! k =
       (<["title" := PStr "Pilot"]> (<["plot" := PStr ""]>
          (<["air_date" := PNone]> (<["season" := PStr "1"]>
          (<["episode" := PInt 1]> (<["is_episode" := PBool true]>
          (<["show_name" := PStr "X"]> (∅ : gmap string pyval)))))))) !! k) /\
    (forall k, ~ In k episode_fields -> merged !! k = Examples.show_record !! k).
Proof.
  apply (fetched_episode_reads_with_show Examples.repr _ _ Examples.show_record
           (PDict {["name" := PStr "Pilot"]}) "1" "X" "/s/ep1.mp4" 1%Z).
  - reflexivity.
  - apply lookup_insert_eq.
  - reflexivity.
Defined.

(** ** The refresh as a whole *)

Section BatchFacts.

Context {codec : JsonCodec}.
Variable requests_get : string -> result (result unit).

#[local] Ltac events_step :=
  lazymatch goal with
  | |- ensures ?R _ =>
      first
        [ apply (ensures_ret R) | apply (ensures_raise R)
        | apply (ensures_lift R) | apply (ensures_gets R)
        | apply (ensures_open_metadata_file R)
        | apply (ensures_modify R); intros ?;
          first [ apply adds_events_none; reflexivity
                | apply adds_events_one; exact I ]
        | apply (ensures_bind R); [|intros ?]
        | apply (ensures_try_except R); [|intros ?]
        | apply (ensures_for_each R); intros ? ?
        | match goal with
          | |- ensures _ (if ?b then _ else _) => destruct b
          | |- ensures _ (match ?x with _ => _ end) => destruct x
          end ]
  end.

Lemma update_metadata_adds_events P file_path metadata :
  ensures (adds_events P) (update_metadata file_path metadata).
Proof.
  unfold update_metadata, save_metadata, load_library, load_metadata,
    scan_movies, scan_shows.
  repeat events_step.
Qed.

Lemma fetch_movie_adds_events imdb movie :
  ensures (adds_events movie_event) (_fetch_movie_metadata requests_get imdb movie).
Proof.
  unfold _fetch_movie_metadata, fetch_movie_body, download_poster, download.
  repeat first [apply update_metadata_adds_events | events_step].
Qed.

Lemma fetch_show_adds_events tvmaze show_name seasons :
  ensures (adds_events show_event)
    (_fetch_show_metadata requests_get tvmaze show_name seasons).
Proof.
  unfold _fetch_show_metadata, fetch_show_body, fetch_episode,
    download_poster, download.
  repeat first [apply update_metadata_adds_events | events_step].
Qed.

Lemma get_visible_adds_events P : ensures (adds_events P) get_visible.
Proof.
  apply (ensures_get_visible (adds_events P)).
  intros w c. by apply adds_events_none.
Qed.

Lemma fetch_movies_adds_events imdb movies :
  ensures (adds_events movie_event) (fetch_movies requests_get imdb movies).
Proof.
  induction movies as [|movie movies IH]; cbn [fetch_movies].
  - apply (ensures_ret (adds_events movie_event)).
  - apply (ensures_bind (adds_events movie_event)); [apply get_visible_adds_events|].
    intros [|]; [|apply (ensures_ret (adds_events movie_event))].
    apply (ensures_bind (adds_events movie_event));
      [apply fetch_movie_adds_events | intros _; apply IH].
Qed.

Lemma fetch_shows_adds_events tvmaze shows :
  ensures (adds_events show_event) (fetch_shows requests_get tvmaze shows).
Proof.
  induction shows as [|[show_name seasons] shows IH]; cbn [fetch_shows].
  - apply (ensures_ret (adds_events show_event)).
  - apply (ensures_bind (adds_events show_event)); [apply get_visible_adds_events|].
    intros [|]; [|apply (ensures_ret (adds_events show_event))].
    apply (ensures_bind (adds_events show_event));
      [apply fetch_show_adds_events | intros _; apply IH].
Qed.

(** The loop over the movies when the user closes the dialog after [n]
    looks at it. *)
Lemma fetch_movies_until_closed imdb movies :
  forall n (w : window),
    dialog_closes_after w = Some n ->
    exists w',
      fetch_movies requests_get imdb movies w = (Ok (length movies <=? n)%nat, w') /\
      searched_movies (trace w') =
      (searched_movies (trace w) ++ map title (firstn n movies))%list.
Proof.
  induction movies as [|movie movies IH]; intros n w Hn; cbn [fetch_movies].
  - exists w. unfold ret. split; [done|].
    destruct n; cbn [firstn map]; by rewrite app_nil_r.
  - unfold bind at 1. unfold get_visible. rewrite Hn.
    destruct n as [|n].
    + exists w. unfold ret. split; [done|]. cbn [firstn map]. by rewrite app_nil_r.
    + destruct (fetch_movie_returns requests_get imdb movie (with_dialog (Some n) w))
        as (w1 & Hrun & (Hm & _ & Hd) & _).
      unfold bind. rewrite Hrun.
      destruct (IH n w1) as (w2 & Hrest & Hm2); [by rewrite Hd|].
      exists w2. split; [exact Hrest|].
      rewrite Hm2, Hm. cbn [trace with_dialog firstn map].
      by rewrite <- app_assoc.
Qed.

Lemma searched_movies_app t1 t2 :
  searched_movies (t1 ++ t2) = (searched_movies t1 ++ searched_movies t2)%list.
Proof. apply flat_map_app. Qed.

Lemma searched_shows_app t1 t2 :
  searched_shows (t1 ++ t2) = (searched_shows t1 ++ searched_shows t2)%list.
Proof. apply flat_map_app. Qed.

End BatchFacts.

(** X21: when the user closes the progress dialog while the movies are
    processed, after [n] of them, the thread body returns having searched
    for the first [n] movies, in order, and for nothing else: besides the
    events of these movies the trace gains the closing of the dialog only
    -- no show is searched, no client error is shown and the completion
    callback is not posted. *)
Theorem closing_the_dialog_stops_the_refresh {codec : JsonCodec}
    (requests_get : string -> result (result unit))
    (imdb : imdb_api) (TVMaze : result tvmaze_api) (use_tvmaze : bool)
    (w : window) (n : nat) :
  dialog_closes_after w = Some n ->
  (n < length (self_movies w))%nat ->
  exists w' t,
    fetch_metadata_async (Ok imdb) TVMaze requests_get true use_tvmaze w = (Ok tt, w') /\
    trace w' = (trace w ++ t ++ [CloseProgressDialog])%list /\
    Forall movie_event t /\
    searched_movies t = map title (firstn n (self_movies w)).
Proof.
  intros Hn Hlt.
  destruct (fetch_movies_until_closed requests_get imdb (self_movies w) n w Hn)
    as (w1 & Hrun & Hsearched).
  destruct (fetch_movies_adds_events requests_get imdb (self_movies w) w)
    as (t & Ht & Hevents).
  rewrite Hrun in Ht. cbn [snd] in Ht.
  apply Nat.leb_gt in Hlt. rewrite Hlt in Hrun.
  eexists. exists t. split.
  - unfold fetch_metadata_async, try_except, bind, get_client, ret, gets.
    rewrite Hrun. unfold emit, modify. reflexivity.
  - cbn [trace with_trace]. split; [by rewrite Ht, app_assoc|].
    split; [done|].
    rewrite Ht, searched_movies_app in Hsearched.
    by apply app_inv_head in Hsearched.
Qed.

Lemma closing_the_dialog_stops_the_refresh_witness :
  exists w' t,
    fetch_metadata_async (Ok Examples.flaky_imdb) (Ok Examples.failing_tvmaze)
      Examples.no_network true true Cases.closing = (Ok tt, w') /\
    trace w' = (trace Cases.closing ++ t ++ [CloseProgressDialog])%list /\
    Forall movie_event t /\
    searched_movies t = map title (firstn 1 (self_movies Cases.closing)).
Proof.
  apply (closing_the_dialog_stops_the_refresh Examples.no_network
           Examples.flaky_imdb (Ok Examples.failing_tvmaze) true Cases.closing 1).
  - reflexivity.
  - vm_compute. lia.
Defined.

(** X22: when the client of the movie provider cannot be made, one error
    dialog is shown, no movie is searched, and the refresh goes on: while
    the dialog stays open every show is searched, the store is saved and
    the completion callback is posted. *)
Theorem failing_movie_client_skips_the_movies {codec : JsonCodec}
    (requests_get : string -> result (result unit))
    (e : exn) (tvmaze : tvmaze_api) (w : window) :
  dialog_closes_after w = None ->
  exists w' t,
    fetch_metadata_async (Raise e) (Ok tvmaze) requests_get true true w = (Ok tt, w') /\
    trace w' = (trace w ++ [ShowErrorDialog e] ++ t ++
                [FinishMetadataRefresh; CloseProgressDialog; CloseProgressDialog])%list /\
    Forall show_event t /\
    searched_shows t = map fst (self_shows w) /\
    metadata_file (disk w') = Some (json_dump (self_metadata w')).
Proof.
  intros Hopen.
  set (w0 := with_trace (trace w ++ [ShowErrorDialog e]) w).
  destruct (fetch_shows_all requests_get tvmaze (self_shows w) w0 Hopen)
    as (w1 & Hrun & (_ & Hsearched & _)).
  destruct (fetch_shows_adds_events requests_get tvmaze (self_shows w) w0)
    as (t & Ht & Hevents).
  rewrite Hrun in Ht. cbn [snd] in Ht.
  eexists. exists t. split.
  - unfold fetch_metadata_async, get_client, try_except, bind, ret, gets,
      emit, modify. cbv beta iota. fold w0.
    change (self_shows w0) with (self_shows w).
    rewrite Hrun. unfold save_metadata, modify. reflexivity.
  - cbn [trace with_trace with_disk disk self_metadata metadata_file
         write_metadata_file].
    split.
    + rewrite Ht. subst w0. cbn [trace with_trace].
      by rewrite <- !app_assoc.
    + split; [done|]. split; [|done].
      rewrite Ht, searched_shows_app in Hsearched.
      by apply app_inv_head in Hsearched.
Qed.

Lemma failing_movie_client_skips_the_movies_witness :
  exists w' t,
    fetch_metadata_async (Raise (RequestError "no client"))
      (Ok Examples.failing_tvmaze) Examples.no_network true true Examples.started =
      (Ok tt, w') /\
    trace w' = (trace Examples.started ++ [ShowErrorDialog (RequestError "no client")] ++ t ++
                [FinishMetadataRefresh; CloseProgressDialog; CloseProgressDialog])%list /\
    Forall show_event t /\
    searched_shows t = map fst (self_shows Examples.started) /\
    metadata_file (disk w') = Some (json_dump (self_metadata w')).
Proof.
  apply (failing_movie_client_skips_the_movies Examples.no_network
           (RequestError "no client") Examples.failing_tvmaze Examples.started).
  reflexivity.
Defined.

Section PassFacts.

Context {codec : JsonCodec}.
Variable requests_get : string -> result (result unit).
#[local] Open Scope method_scope.

(** The pass over the movies, whatever the setting and the client: with
    the dialog open it runs to its end. *)
Lemma movies_pass_returns (IMDb : result imdb_api) (use_imdb : bool) (w : window) :
  dialog_closes_after w = None ->
  exists w1,
    (if use_imdb then
       imdb <- get_client IMDb ;;
       match imdb with
       | Some client =>
           movies <- gets self_movies ;; fetch_movies requests_get client movies
       | None => ret true
       end
     else ret true) w = (Ok true, w1) /\
    dialog_closes_after w1 = None.
Proof.
  intros Hopen. destruct use_imdb; [|by exists w].
  destruct IMDb as [imdb|e]; unfold get_client, bind, ret, gets, emit, modify;
    cbv beta iota.
  - destruct (fetch_movies_all requests_get imdb (self_movies w) w Hopen)
      as (w1 & Hrun & (_ & _ & Hd)).
    exists w1. rewrite Hrun. by rewrite Hd.
  - by eexists.
Qed.

Lemma shows_pass_returns (TVMaze : result tvmaze_api) (use_tvmaze : bool) (w : window) :
  dialog_closes_after w = None ->
  exists w1,
    (if use_tvmaze then
       tvmaze <- get_client TVMaze ;;
       match tvmaze with
       | Some client =>
           shows <- gets self_shows ;; fetch_shows requests_get client shows
       | None => ret true
       end
     else ret true) w = (Ok true, w1) /\
    dialog_closes_after w1 = None.
Proof.
  intros Hopen. destruct use_tvmaze; [|by exists w].
  destruct TVMaze as [tvmaze|e]; unfold get_client, bind, ret, gets, emit, modify;
    cbv beta iota.
  - destruct (fetch_shows_all requests_get tvmaze (self_shows w) w Hopen)
      as (w1 & Hrun & (_ & _ & Hd)).
    exists w1. rewrite Hrun. by rewrite Hd.
  - by eexists.
Qed.

End PassFacts.

(** X23: while the progress dialog stays open the thread body of the
    refresh returns whatever the two settings are and whether or not the
    clients can be made; it ends by saving, so that the metadata document
    holds the store as it is in memory, and posts the completion callback
    as the last event before the dialog is closed. *)
Theorem refresh_ends_saved {codec : JsonCodec}
    (requests_get : string -> result (result unit))
    (IMDb : result imdb_api) (TVMaze : result tvmaze_api)
    (use_imdb use_tvmaze : bool) (w : window) :
  dialog_closes_after w = None ->
  exists w' t,
    fetch_metadata_async IMDb TVMaze requests_get use_imdb use_tvmaze w = (Ok tt, w') /\
    metadata_file (disk w') = Some (json_dump (self_metadata w')) /\
    trace w' = (t ++ [FinishMetadataRefresh; CloseProgressDialog;
                      CloseProgressDialog])%list.
Proof.
  intros Hopen.
  destruct (movies_pass_returns requests_get IMDb use_imdb w Hopen)
    as (w1 & Hrun1 & Hopen1).
  destruct (shows_pass_returns requests_get TVMaze use_tvmaze w1 Hopen1)
    as (w2 & Hrun2 & _).
  eexists. exists (trace w2). split.
  - unfold fetch_metadata_async.
    unfold bind at 1. unfold try_except at 1. unfold bind at 1.
    rewrite Hrun1. unfold bind at 1. rewrite Hrun2.
    unfold save_metadata, bind, emit, modify. reflexivity.
  - cbn [trace with_trace with_disk disk self_metadata metadata_file
         write_metadata_file].
    split; [done|]. by rewrite <- !app_assoc.
Qed.

Lemma refresh_ends_saved_witness :
  exists w' t,
    fetch_metadata_async (Raise (RequestError "no client")) (Ok Examples.failing_tvmaze)
      Examples.no_network true false Examples.started = (Ok tt, w') /\
    metadata_file (disk w') = Some (json_dump (self_metadata w')) /\
    trace w' = (t ++ [FinishMetadataRefresh; CloseProgressDialog;
                      CloseProgressDialog])%list.
Proof.
  apply (refresh_ends_saved Examples.no_network (Raise (RequestError "no client"))
           (Ok Examples.failing_tvmaze) true false Examples.started).
  reflexivity.
Defined.

(** ** The catalog on the screen *)

(** X24: on the catalog a load leaves, the fallback of the show card is
    always defined: every show has a first season and that season a first
    episode, so the card shows the record under [show:<name>] when the
    store has a non-empty one, the record of that first episode
    otherwise, and [next] and the index never raise. *)
Theorem show_card_has_a_record {codec : JsonCodec} (w : window)
    (d : document) (store : gmap string pyval) :
  metadata_file (disk w) = Some d -> loads_as d store ->
  exists w',
    load_library w = (Ok tt, w') /\
    forall show seasons,
      In (show, seasons) (self_shows w') ->
      exists episode,
        first_episode seasons = inr episode /\
        show_card_metadata (self_metadata w') show seasons =
        inr (if Py.truthy (record_of store ("show:" +:+ show))
             then record_of store ("show:" +:+ show)
             else metadata episode).
Proof.
  intros Hfile Hd.
  destruct (load_library_dict w d store Hfile Hd) as (shows & Hrun & Hok).
  eexists. split; [exact Hrun|].
  cbn [self_shows self_metadata with_shows with_movies with_metadata].
  intros show seasons Hin.
  destruct (Hok _ _ Hin) as (Hne & show_dir & _ & _ & _ & Hseasons).
  destruct seasons as [|[k episodes] seasons]; [done|].
  destruct (Hseasons k episodes (or_introl eq_refl)) as (Hne' & _).
  destruct episodes as [|episode episodes]; [done|].
  exists episode. split; [done|].
  unfold show_card_metadata, record_of. cbn [Py.get first_episode].
  by destruct (Py.truthy _).
Qed.

Lemma show_card_has_a_record_witness :
  exists w',
    load_library (Examples.start (Some (JsonText (PDict Examples.store)))) = (Ok tt, w') /\
    forall show seasons,
      In (show, seasons) (self_shows w') ->
      exists episode,
        first_episode seasons = inr episode /\
        show_card_metadata (self_metadata w') show seasons =
        inr (if Py.truthy (record_of Examples.store ("show:" +:+ show))
             then record_of Examples.store ("show:" +:+ show)
             else metadata episode).
Proof.
  apply (show_card_has_a_record
           (Examples.start (Some (JsonText (PDict Examples.store))))
           (JsonText (PDict Examples.store)) Examples.store).
  - reflexivity.
  - left. reflexivity.
Defined.

Section SearchFacts.

Lemma rmap_py_lower genres :
  rmap py_lower (map PStr genres) = Ok (map PyStr.lower genres).
Proof.
  induction genres as [|g genres IH]; [done|].
  cbn [map rmap py_lower rbind]. by rewrite IH.
Qed.

Lemma movie_metadata_title movie_data record :
  movie_metadata (PDict movie_data) = Ok record ->
  record !! "title" =
  Some match movie_data !! "title" with Some v => v | None => PNone end.
Proof.
  unfold movie_metadata. cbn [Py.get rbind].
  destruct (Py.names _) as [directors|]; cbn [rbind]; [|discriminate].
  destruct (Py.slice_to _ _) as [cast5|]; cbn [rbind]; [|discriminate].
  destruct (Py.names _) as [cast|]; cbn [rbind]; [|discriminate].
  intros [= <-]. apply lookup_insert_eq.
Qed.

End SearchFacts.

(** X25: the genre search finds a movie exactly when the search text
    occurs in one of its genres, letters compared without their case;
    [search_text] is the lower-cased text of the entry.  A movie whose
    record has no genres is not found. *)
Theorem genre_search_finds_substring (search_text : string) (search_mode : nat)
    (movie : media) (record : gmap string pyval) (genres : list string) :
  search_mode <> 0%nat ->
  metadata movie = PDict record ->
  match record !! "genres" with Some v => v | None => PList [] end =
    PList (map PStr genres) ->
  exists found,
    movie_found search_text search_mode movie = Ok found /\
    (found = true <->
     exists g, In g genres /\ contains search_text (PyStr.lower g) = true).
Proof.
  intros Hmode Hrecord Hgenres.
  exists (existsb (contains search_text) (map PyStr.lower genres)). split.
  - destruct search_mode as [|m]; [done|].
    unfold movie_found, genre_search. rewrite Hrecord.
    cbn [Py.get rbind]. rewrite Hgenres. cbn [lowered].
    by rewrite rmap_py_lower.
  - rewrite existsb_exists. split.
    + intros (g' & Hin & Hfound). apply in_map_iff in Hin as (g & <- & Hin).
      by exists g.
    + intros (g & Hin & Hfound). exists (PyStr.lower g).
      split; [by apply in_map|done].
Qed.

(** The example of the specification: [com] finds the genre [Comedy]. *)
Lemma genre_search_finds_substring_witness :
  exists found,
    movie_found "com" 1
      {| path := "/m/a.mp4"; title := "a"; season := None;
         metadata := PDict {["genres" := PList [PStr "Drama"; PStr "Comedy"]]} |} =
      Ok found /\
    (found = true <->
     exists g, In g ["Drama"; "Comedy"] /\ contains "com" (PyStr.lower g) = true).
Proof.
  apply (genre_search_finds_substring "com" 1
           {| path := "/m/a.mp4"; title := "a"; season := None;
              metadata := PDict {["genres" := PList [PStr "Drama"; PStr "Comedy"]]} |}
           {["genres" := PList [PStr "Drama"; PStr "Comedy"]]} ["Drama"; "Comedy"]);
    [discriminate | reflexivity | reflexivity].
Defined.

(** X26: the record [_fetch_movie_metadata] builds always has the key
    [title], with [None] when the provider gave no title; the title
    search then does not fall back to the file name: on a movie with
    such a record it raises [AttributeError], whatever the search
    text. *)
Theorem title_search_fails_on_record_without_title
    (movie_data record stored : gmap string pyval) (movie : media)
    (search_text : string) :
  movie_metadata (PDict movie_data) = Ok record ->
  movie_data !! "title" = None ->
  metadata movie = PDict stored ->
  stored !! "title" = record !! "title" ->
  movie_found search_text 0 movie = Raise AttributeError.
Proof.
  intros Hrecord Hnone Hstored Htitle.
  apply movie_metadata_title in Hrecord. rewrite Hnone in Hrecord.
  unfold movie_found, title_search. rewrite Hstored. cbn [Py.get rbind].
  by rewrite Htitle, Hrecord.
Qed.

Lemma title_search_fails_on_record_without_title_witness :
  movie_found "heat" 0
    {| path := "/m/Heat.mp4"; title := "Heat"; season := None;
       metadata := PDict (<["title" := PNone]> (<["year" := PInt 1995]>
                    (<["rating" := PNone]> (<["plot" := PStr ""]>
                    (<["director" := PList []]> (<["cast" := PList []]>
                    (<["genres" := PList []]> (<["type" := PStr "movie"]> ∅)))))))) |} =
  Raise AttributeError.
Proof.
  apply (title_search_fails_on_record_without_title {["year" := PInt 1995]}
           (<["title" := PNone]> (<["year" := PInt 1995]>
              (<["rating" := PNone]> (<["plot" := PStr ""]>
              (<["director" := PList []]> (<["cast" := PList []]>
              (<["genres" := PList []]> (<["type" := PStr "movie"]> ∅))))))))
           (<["title" := PNone]> (<["year" := PInt 1995]>
              (<["rating" := PNone]> (<["plot" := PStr ""]>
              (<["director" := PList []]> (<["cast" := PList []]>
              (<["genres" := PList []]> (<["type" := PStr "movie"]> ∅))))))))
           _ "heat"); reflexivity.
Defined.

(** ** Sorting by title *)

Section TextOrder.

Lemma ascii_compare_lt_trans a b c :
  Ascii.compare a b = Lt -> Ascii.compare b c = Lt -> Ascii.compare a c = Lt.
Proof.
  unfold Ascii.compare. rewrite !N.compare_lt_iff. lia.
Qed.

Lemma ascii_compare_refl a : Ascii.compare a a = Eq.
Proof. unfold Ascii.compare. apply N.compare_refl. Qed.

Lemma string_compare_lt_trans a :
  forall b c,
    String.compare a b = Lt -> String.compare b c = Lt -> String.compare a c = Lt.
Proof.
  induction a as [|x a IH]; intros [|y b] [|z c]; cbn [String.compare];
    try done.
  destruct (Ascii.compare x y) eqn:Hxy; try done;
    destruct (Ascii.compare y z) eqn:Hyz; try done.
  - apply Ascii.compare_eq_iff in Hxy as ->.
    apply Ascii.compare_eq_iff in Hyz as ->.
    rewrite ascii_compare_refl. apply IH.
  - apply Ascii.compare_eq_iff in Hxy as ->. by rewrite Hyz.
  - apply Ascii.compare_eq_iff in Hyz as <-. by rewrite Hxy.
  - by rewrite (ascii_compare_lt_trans x y z).
Qed.

Lemma string_leb_trans a b c :
  String.leb a b = true -> String.leb b c = true -> String.leb a c = true.
Proof.
  unfold String.leb.
  destruct (String.compare a b) eqn:Hab; try done;
    destruct (String.compare b c) eqn:Hbc; try done; intros _ _.
  - apply String.compare_eq_iff in Hab as ->. by rewrite Hbc.
  - apply String.compare_eq_iff in Hab as ->. by rewrite Hbc.
  - apply String.compare_eq_iff in Hbc as <-. by rewrite Hab.
  - by rewrite (string_compare_lt_trans a b c).
Qed.

Lemma string_ltb_leb a b : String.ltb a b = true -> String.leb a b = true.
Proof. unfold String.ltb, String.leb. by destruct (String.compare a b). Qed.

Lemma string_not_ltb_leb a b : String.ltb b a = false -> String.leb a b = true.
Proof.
  unfold String.ltb, String.leb. rewrite (String.compare_antisym a b).
  by destruct (String.compare b a).
Qed.

End TextOrder.

Section TitleSortFacts.

Context {A : Type}.
Implicit Types (l : list (string * A)).

Lemma insert_titled_perm kx (x : A) l :
  Permutation (insert_titled kx x l) ((kx, x) :: l).
Proof.
  induction l as [|[ky y] l IH]; cbn [insert_titled]; [done|].
  destruct (String.ltb ky kx); [|done].
  rewrite IH. apply perm_swap.
Qed.

Lemma sort_titled_perm l : Permutation (sort_titled l) l.
Proof.
  induction l as [|[k x] l IH]; cbn [sort_titled fold_right]; [done|].
  cbn [fst snd]. fold (sort_titled l). rewrite insert_titled_perm. by constructor.
Qed.

Lemma insert_titled_sorted kx (x : A) l :
  StronglySorted texts_le l -> StronglySorted texts_le (insert_titled kx x l).
Proof.
  intros Hsorted.
  induction l as [|[ky y] l IH]; cbn [insert_titled].
  - repeat constructor.
  - apply StronglySorted_inv in Hsorted as [Hs Hall].
    destruct (String.ltb ky kx) eqn:Hlt.
    + constructor; [by apply IH|].
      apply Forall_forall. intros p Hp. apply list_elem_of_In in Hp.
      apply (Permutation_in _ (insert_titled_perm kx x l)) in Hp.
      destruct Hp as [<-|Hp].
      * by apply string_ltb_leb.
      * rewrite Forall_forall in Hall. apply Hall. by apply list_elem_of_In.
    + assert (String.leb kx ky = true) as Hle by by apply string_not_ltb_leb.
      constructor; [by constructor|].
      constructor; [done|].
      apply Forall_forall. intros p Hp. rewrite Forall_forall in Hall.
      unfold texts_le. cbn [fst]. eapply string_leb_trans; [exact Hle|].
      by apply Hall.
Qed.

Lemma sort_titled_sorted l : StronglySorted texts_le (sort_titled l).
Proof.
  induction l as [|[k x] l IH]; cbn [sort_titled fold_right]; [constructor|].
  fold (sort_titled l). by apply insert_titled_sorted.
Qed.

Variable key_func : A -> result string.

Lemma rmap_text_keys (items : list A) :
  (forall x, In x items -> has_text_key key_func x = true) ->
  rmap key_func items = Ok (map (fun x => text_value (key_func x)) items).
Proof.
  induction items as [|x items IH]; intros Hall; cbn [rmap map]; [done|].
  pose proof (Hall x (or_introl eq_refl)) as Hx. unfold has_text_key in Hx.
  destruct (key_func x) as [k|e]; [|done]. cbn [rbind text_value].
  rewrite IH; [done|]. intros y Hy. apply Hall. by right.
Qed.

(** The first key that cannot be computed ends the computation of the
    keys. *)
Lemma rmap_text_key_raises (items : list A) x :
  In x items -> has_text_key key_func x = false ->
  exists e y, In y items /\ key_func y = Raise e /\ rmap key_func items = Raise e.
Proof.
  induction items as [|z items IH]; intros Hin Hx; [done|].
  cbn [rmap]. destruct (key_func z) as [k|e] eqn:Hz.
  - destruct Hin as [->|Hin].
    { unfold has_text_key in Hx. by rewrite Hz in Hx. }
    destruct (IH Hin Hx) as (e & y & Hy & Hkey & Hrun).
    exists e, y. cbn [rbind]. rewrite Hrun. split; [by right|done].
  - exists e, z. split; [by left|done].
Qed.

Lemma combine_text_keys (items : list A) :
  combine (map (fun x => text_value (key_func x)) items) items =
  map (fun x => (text_value (key_func x), x)) items.
Proof. induction items as [|x items IH]; cbn; [done | by rewrite IH]. Qed.

Lemma sorted_by_text_keys (l : list (string * A)) :
  Forall (fun p => fst p = text_value (key_func (snd p))) l ->
  StronglySorted texts_le l ->
  title_ascending key_func (map snd l).
Proof.
  unfold title_ascending. induction l as [|p l IH]; intros Hkeys Hsorted;
    cbn [map]; [constructor|].
  apply Forall_cons_1 in Hkeys as [Hp Hkeys].
  apply StronglySorted_inv in Hsorted as [Hs Hall].
  constructor; [by apply IH|].
  apply Forall_forall. intros y Hy. apply list_elem_of_In in Hy.
  apply in_map_iff in Hy as (q & <- & Hq).
  rewrite Forall_forall in Hall, Hkeys. apply list_elem_of_In in Hq.
  specialize (Hall q Hq). specialize (Hkeys q Hq).
  unfold texts_le in Hall. by rewrite Hp, Hkeys in Hall.
Qed.

Lemma sorted_titled_ascending (items : list A) :
  (forall x, In x items -> has_text_key key_func x = true) ->
  exists items',
    sorted_titled items key_func = Ok items' /\
    Permutation items' items /\
    title_ascending key_func items'.
Proof.
  intros Hall. unfold sorted_titled. rewrite rmap_text_keys by done.
  cbn [rbind]. rewrite combine_text_keys.
  set (keyed := map (fun x => (text_value (key_func x), x)) items).
  exists (map snd (sort_titled keyed)). split; [done|].
  assert (map snd keyed = items) as Hsnd.
  { subst keyed. rewrite map_map. cbn [snd]. apply map_id. }
  split.
  - transitivity (map snd keyed); [apply Permutation_map, sort_titled_perm|].
    by rewrite Hsnd.
  - apply sorted_by_text_keys; [|apply sort_titled_sorted].
    apply Forall_forall. intros p Hp. apply list_elem_of_In in Hp.
    apply (Permutation_in _ (sort_titled_perm keyed)) in Hp.
    subst keyed. by apply in_map_iff in Hp as (x & <- & _).
Qed.

End TitleSortFacts.

Lemma movie_title_key_raises x e :
  movie_title_key x = Raise e -> e = AttributeError.
Proof.
  unfold movie_title_key.
  destruct (metadata x) as [| | | | | |record]; cbn [Py.get rbind];
    try (by intros [= <-]).
  destruct (match record !! "title" with Some v => v | None => _ end);
    cbn [py_lower]; by intros [= <-].
Qed.

(** X27: sorting by title, when the title shown for every movie is a
    text, returns; movies and shows are each a rearrangement of the
    former list, the movies in ascending order of the lower-cased title
    shown, the shows in ascending order of their lower-cased names. *)
Theorem title_sort_ascending {codec : JsonCodec} (w : window) :
  (forall x, In x (self_movies w) -> has_text_key movie_title_key x = true) ->
  NoDup (ODict.keys (self_shows w)) ->
  exists movies' shows',
    on_view_sorting_az w = (Ok tt, with_shows shows' (with_movies movies' w)) /\
    Permutation movies' (self_movies w) /\
    title_ascending movie_title_key movies' /\
    Permutation shows' (self_shows w) /\
    title_ascending show_title_key shows'.
Proof.
  intros Hmovies Hnodup.
  destruct (sorted_titled_ascending movie_title_key (self_movies w) Hmovies)
    as (movies' & Hsort1 & Hperm1 & Hasc1).
  destruct (sorted_titled_ascending show_title_key (self_shows w))
    as (shows' & Hsort2 & Hperm2 & Hasc2); [done|].
  exists movies', shows'.
  split; [|done].
  unfold on_view_sorting_az, bind, gets, lift, modify.
  rewrite Hsort1. cbn [self_shows with_movies]. rewrite Hsort2.
  rewrite odict_of_items_nodup; [done|].
  unfold ODict.keys. apply NoDup_ListNoDup.
  eapply Permutation_NoDup; [apply Permutation_map, Permutation_sym, Hperm2|].
  by apply NoDup_ListNoDup.
Qed.

(** Three movies shown as [zulu], [Bravo] and [alpha] come out as
    [alpha], [Bravo], [zulu]. *)
Lemma title_sort_ascending_witness :
  (exists movies' shows',
     on_view_sorting_az (with_movies Cases.titled_movies (Examples.start None)) =
       (Ok tt, with_shows shows'
                 (with_movies movies'
                    (with_movies Cases.titled_movies (Examples.start None)))) /\
     Permutation movies' Cases.titled_movies /\
     title_ascending movie_title_key movies' /\
     Permutation shows' [] /\
     title_ascending show_title_key shows') /\
  map path (self_movies (snd (on_view_sorting_az
     (with_movies Cases.titled_movies (Examples.start None))))) =
  ["/m/a.mp4"; "/m/b.mp4"; "/m/z.mp4"].
Proof.
  split.
  - apply (title_sort_ascending (with_movies Cases.titled_movies (Examples.start None))).
    + intros x [<-|[<-|[<-|[]]]]; vm_compute; reflexivity.
    + apply NoDup_nil_2.
  - vm_compute. reflexivity.
Defined.

(** X28: sorting by title raises [AttributeError] and leaves the catalog
    in its order as soon as one movie has no text to show: a record that
    is not a dictionary, or a title in it that is not a string. *)
Theorem title_sort_fails_without_text {codec : JsonCodec} (w : window) (x : media) :
  In x (self_movies w) ->
  has_text_key movie_title_key x = false ->
  on_view_sorting_az w = (Raise AttributeError, w).
Proof.
  intros Hin Hx.
  destruct (rmap_text_key_raises movie_title_key (self_movies w) x Hin Hx)
    as (e & y & _ & Hkey & Hrun).
  apply movie_title_key_raises in Hkey as ->.
  unfold on_view_sorting_az, bind, gets, lift, sorted_titled.
  by rewrite Hrun.
Qed.

Lemma title_sort_fails_without_text_witness :
  on_view_sorting_az (with_movies Cases.untitled_movies (Examples.start None)) =
  (Raise AttributeError, with_movies Cases.untitled_movies (Examples.start None)).
Proof.
  apply (title_sort_fails_without_text
           (with_movies Cases.untitled_movies (Examples.start None))
           {| path := "/m/n.mp4"; title := "n"; season := None;
              metadata := PDict {["title" := PNone]} |}).
  - cbn. tauto.
  - reflexivity.
Defined.

(** ** Reading and matching episodes, continued *)

(** X29: the merged read leaves a record alone that is not marked as an
    episode: it returns the record stored under the path, the empty
    record for a path the store does not know, and the record of no show
    plays a part. *)
Theorem plain_record_reads_unmerged (repr : pyval -> string)
    (store record : gmap string pyval) (episode_path : string) :
  record_of store episode_path = PDict record ->
  match record !! "is_episode" with
  | Some flag => Py.truthy flag = false
  | None => True
  end ->
  get_episode_metadata repr (PDict store) episode_path = Ok (PDict record).
Proof.
  intros Hrecord Hflag. unfold get_episode_metadata. cbn [Py.get rbind].
  unfold record_of in Hrecord. rewrite Hrecord. cbn [Py.get rbind].
  destruct (record !! "is_episode") as [flag|]; [by rewrite Hflag|done].
Qed.

Lemma plain_record_reads_unmerged_witness :
  get_episode_metadata Examples.repr (PDict Examples.store) "/nowhere.mp4" =
  Ok (PDict ∅).
Proof.
  apply (plain_record_reads_unmerged Examples.repr Examples.store ∅ "/nowhere.mp4");
    [reflexivity | exact I].
Defined.

Section ListingFacts.

Lemma find_episode_sound episodes_data season_num episode_number e :
  find_episode episodes_data season_num episode_number = Ok e ->
  e = PNone \/
  (In e episodes_data /\
   exists e_season e_number n,
     Py.getitem e "season" = Ok e_season /\
     PyStr.int_of_str season_num = Some n /\
     Py.eq_int e_season n = true /\
     Py.getitem e "number" = Ok e_number /\
     Py.eq_int e_number episode_number = true).
Proof.
  induction episodes_data as [|x l IH]; cbn [find_episode].
  - intros [= <-]. by left.
  - assert (find_episode l season_num episode_number = Ok e ->
            e = PNone \/
            (In e (x :: l) /\
             exists e_season e_number n,
               Py.getitem e "season" = Ok e_season /\
               PyStr.int_of_str season_num = Some n /\
               Py.eq_int e_season n = true /\
               Py.getitem e "number" = Ok e_number /\
               Py.eq_int e_number episode_number = true)) as Hrest.
    { intros Hl. destruct (IH Hl) as [->|(Hin & vs & vn & k & H1 & H2 & H3 & H4 & H5)];
        [by left|].
      right. split; [by right|]. exists vs, vn, k. done. }
    clear IH.
    destruct (Py.getitem x "season") as [e_season|] eqn:Hs; cbn [rbind];
      [|discriminate].
    destruct (PyStr.int_of_str season_num) as [n|] eqn:Hn; cbn [rbind];
      [|discriminate].
    destruct (Py.eq_int e_season n) eqn:Heq; [|exact Hrest].
    destruct (Py.getitem x "number") as [e_number|] eqn:Hnum; cbn [rbind];
      [|discriminate].
    destruct (Py.eq_int e_number episode_number) eqn:Heq2; [|exact Hrest].
    intros [= <-]. right. split; [by left|].
    exists e_season, e_number, n. done.
Qed.

End ListingFacts.

(** X30: the provider episode chosen for a local episode, when one is
    chosen, is an entry of the provider's listing whose [season] equals
    [int(season_num)] and whose [number] equals the number of the local
    episode.  When the season of the local episode is not the text of an
    integer, as for a directory [Season One], the comparison with the
    first entry of the listing raises [ValueError]. *)
Theorem chosen_episode_matches (episodes_data : list pyval)
    (season_num : string) (episode_number : Z) :
  (forall e,
     next_episode (PList episodes_data) season_num episode_number = Ok e ->
     Py.truthy e = true ->
     In e episodes_data /\
     exists e_season e_number n,
       Py.getitem e "season" = Ok e_season /\
       PyStr.int_of_str season_num = Some n /\
       Py.eq_int e_season n = true /\
       Py.getitem e "number" = Ok e_number /\
       Py.eq_int e_number episode_number = true) /\
  (forall first rest e_season,
     episodes_data = first :: rest ->
     Py.getitem first "season" = Ok e_season ->
     PyStr.int_of_str season_num = None ->
     next_episode (PList episodes_data) season_num episode_number = Raise ValueError).
Proof.
  split.
  - intros e Hfound Htruthy. cbn [next_episode] in Hfound.
    apply find_episode_sound in Hfound as [->|Hsound]; [discriminate|done].
  - intros first rest e_season -> Hseason Hint.
    cbn [next_episode find_episode]. by rewrite Hseason, Hint.
Qed.

(** A local episode of the directory [Season One] against a listing of
    one entry. *)
Lemma chosen_episode_matches_witness :
  next_episode (PList [PDict (<["season" := PInt 1]> {["number" := PInt 2]})])
    "One" 2 = Raise ValueError.
Proof.
  apply (proj2 (chosen_episode_matches
                  [PDict (<["season" := PInt 1]> {["number" := PInt 2]})] "One" 2)
           (PDict (<["season" := PInt 1]> {["number" := PInt 2]})) [] (PInt 1));
    reflexivity.
Defined.
